(** * End-to-end key lifecycle of the chat application

    A shallow embedding of the key directory (backend models and routes,
    the real-time key-share handler) and of the browser client
    (crypto-helper.js and the application script), with the properties of
    the key-lifecycle specification stated over it.

    Conventions of the embedding.
    - A Postgres table is the list of its rows; the constraints of the
      schema (primary key, UNIQUE, REFERENCES) are written out where a
      statement is executed, they are not built into the type.
    - A model function that returns [null] on a database error returns
      [None]; the errors that are modelled are the ones the statement
      itself provokes ([.single()] on zero or several rows, a violated
      constraint).  Outages of the storage service are not modelled.
    - An HTTP handler is modelled from the point where express has run
      the [verifySupabaseToken] middleware: [caller] is [req.user.id].
    - A WebCrypto [CryptoKey] is represented by its exported text. *)

From Stdlib Require Import Ascii NArith.
From stdpp Require Import base strings list gmap.

Open Scope string_scope.

(** ** JSON values and HTTP responses *)

#[local] Set Warnings "-register-all".

Inductive json : Type :=
  | JNull
  | JBool (b : bool)
  | JStr (s : string)
  | JArr (items : list json)
  | JObj (fields : list (string * json)).

(** [obj.k] for a JSON object, [None] standing for [undefined]. *)
Definition jfield (k : string) (j : json) : option json :=
  match j with
  | JObj fields => snd <$> find (λ kv, bool_decide (kv.1 = k)) fields
  | _ => None
  end.

Definition str_field (k : string) (j : json) : option string :=
  match jfield k j with
  | Some (JStr s) => Some s
  | _ => None
  end.

Record Response := mkResponse { status : nat; body : json }.

(** [res.json(b)] and [res.status(n).json({ error: msg })]. *)
Definition res_json (b : json) : Response := mkResponse 200 b.
Definition res_error (n : nat) (msg : string) : Response :=
  mkResponse n (JObj [("error", JStr msg)]).

(** ** Joi schemas used by the key routes

    [Joi.string().required()] rejects a missing value, a value that is not
    a string and the empty string.  [Joi.object({...}).required()] rejects
    a missing value, a non-object, a declared key whose value is rejected
    and a key that is not declared.  A validator returns the label of the
    first offending key, standing for Joi's message text. *)

Definition joi_string_required (label : string) (v : option json) : option string :=
  match v with
  | Some (JStr s) => if bool_decide (s = "") then Some label else None
  | _ => Some label
  end.

Definition joi_first_error (checks : list (option string)) : option string :=
  mjoin (find (λ c : option string, bool_decide (c ≠ None)) checks).

Definition joi_object (label : string)
    (keys : list (string * (string → option json → option string)))
    (v : option json) : option string :=
  match v with
  | Some (JObj fields) =>
      match joi_first_error ((λ kc, kc.2 kc.1 (jfield kc.1 (JObj fields))) <$> keys) with
      | Some e => Some e
      | None => find (λ k, bool_decide (k ∉ (fst <$> keys))) (fst <$> fields)
      end
  | _ => Some label
  end.

Definition uploadKeysSchema (reqbody : json) : option string :=
  joi_object "value"
    [("rsa_public_key", joi_string_required);
     ("encrypted_master_key",
        λ l, joi_object l [("wrapped", joi_string_required);
                           ("iv", joi_string_required);
                           ("salt", joi_string_required)]);
     ("encrypted_rsa_private_key",
        λ l, joi_object l [("encrypted", joi_string_required);
                           ("iv", joi_string_required)])]
    (Some reqbody).

Definition updateMasterKeySchema (reqbody : json) : option string :=
  joi_object "value"
    [("encrypted_master_key",
        λ l, joi_object l [("wrapped", joi_string_required);
                           ("iv", joi_string_required);
                           ("salt", joi_string_required)])]
    (Some reqbody).

(** ** The key directory tables (schema.sql) *)

(** [user_keys]: primary key [user_id], which references [user_profiles];
    [public_key] is NOT NULL, the two wrapped keys are nullable.  The
    wrapped-key columns hold [JSON.stringify] of the uploaded object; the
    model keeps the object, since the routes read it back with
    [JSON.parse]. *)
Record UserKey := mkUserKey {
  user_id : string;
  public_key : string;
  encrypted_master_key : option json;
  encrypted_rsa_private_key : option json;
  updated_at : string
}.

(** [chat_keys]: UNIQUE (chat_id, recipient_id); [chat_id] references
    [chats], [sender_id] and [recipient_id] reference [user_profiles].
    The generated columns [id] and [created_at] are never read by the
    handlers below and are left out. *)
Record ChatKey := mkChatKey {
  chat_id : string;
  sender_id : string;
  recipient_id : string;
  encrypted_chat_key : string
}.

Inductive ChatType := direct | group.

#[global] Instance ChatType_eq_dec : EqDecision ChatType.
Proof. solve_decision. Defined.

Record Chat := mkChat {
  c_id : string;
  c_type : ChatType;
  participants : list string;
  created_by : string
}.

(** A stored message: the ciphertext and, in [metadata.iv], its nonce. *)
Record Message := mkMessage {
  m_chat_id : string;
  m_sender_id : string;
  encrypted_content : string;
  metadata_iv : string;
  m_created_at : string
}.

Record Db := mkDb {
  user_profiles : list string;
  user_keys : list UserKey;
  chats : list Chat;
  chat_keys : list ChatKey;
  messages : list Message
}.

Definition set_user_keys (db : Db) (t : list UserKey) : Db :=
  mkDb (user_profiles db) t (chats db) (chat_keys db) (messages db).
Definition set_chat_keys (db : Db) (t : list ChatKey) : Db :=
  mkDb (user_profiles db) (user_keys db) (chats db) t (messages db).
Definition set_chats (db : Db) (t : list Chat) : Db :=
  mkDb (user_profiles db) (user_keys db) t (chat_keys db) (messages db).
Definition set_user_profiles (db : Db) (t : list string) : Db :=
  mkDb t (user_keys db) (chats db) (chat_keys db) (messages db).
Definition set_messages (db : Db) (t : list Message) : Db :=
  mkDb (user_profiles db) (user_keys db) (chats db) (chat_keys db) t.

(** [.single()]: the one selected row, an error on zero or several. *)
Definition single {A} (rows : list A) : option A :=
  match rows with
  | [r] => Some r
  | _ => None
  end.

(** The schema's uniqueness constraints, as predicates on a database. *)
Definition pk_user_keys (db : Db) : Prop :=
  ∀ u, (length (filter (λ r, user_id r = u) (user_keys db)) ≤ 1)%nat.
Definition unique_chat_keys (db : Db) : Prop :=
  ∀ c u, (length (filter (λ r, chat_id r = c ∧ recipient_id r = u) (chat_keys db)) ≤ 1)%nat.

(** ** The uuid columns

    Every id column of schema.sql has the type [uuid] ([participants] is
    [UUID[]]).  Postgres reads the text of a filter or of an inserted
    member as a uuid and prints every uuid it returns in one spelling:
    lower case, with hyphens after the digits 8, 12, 16 and 20.  A text
    that is no uuid is an error, to which each model function answers
    with the value of its [catch].

    [pg_uuid] is that reading, followed by the printing: 32 hexadecimal
    digits in either case, with or without a hyphen after each group of
    four.  Postgres also takes such a text between braces, which a
    filter on the array column does not; no text in braces is read
    here.  The tables below hold the ids as Postgres prints them, and
    the id parameters of the model functions are uuids in that spelling:
    a handler that passes on a text of its request reads it first.  The
    id of the authenticated user is the one the authentication provider
    printed from its own uuid column and is passed as it is. *)

Definition is_hex (a : ascii) : bool :=
  let n := nat_of_ascii a in
  ((48 <=? n) && (n <=? 57) || (97 <=? n) && (n <=? 102) || (65 <=? n) && (n <=? 70))%nat.

Definition lower_hex (a : ascii) : ascii :=
  let n := nat_of_ascii a in
  if ((65 <=? n) && (n <=? 70))%nat then ascii_of_nat (n + 32) else a.

(** The digits of [bytes] bytes, to the end of the text.  A hyphen may
    follow a byte of odd index other than the last. *)
Fixpoint uuid_digits (bytes : nat) (s : string) : option (list ascii) :=
  match bytes with
  | O => match s with EmptyString => Some [] | _ => None end
  | S bytes' =>
      match s with
      | String a (String b rest) =>
          if is_hex a && is_hex b then
            let rest :=
              match rest with
              | String c rest' =>
                  if bool_decide (c = "-"%char) && Nat.even bytes' && (0 <? bytes')%nat
                  then rest' else rest
              | EmptyString => rest
              end in
            ds ← uuid_digits bytes' rest; Some (lower_hex a :: lower_hex b :: ds)
          else None
      | _ => None
      end
  end.

Definition uuid_out (digits : list ascii) : string :=
  String.string_of_list_ascii
    (take 8 digits ++ "-"%char :: take 4 (drop 8 digits)
       ++ "-"%char :: take 4 (drop 12 digits)
       ++ "-"%char :: take 4 (drop 16 digits)
       ++ "-"%char :: drop 20 digits).

Definition pg_uuid (text : string) : option string :=
  uuid_out <$> uuid_digits 16 text.

(** The type [UUID[]] of the column [participants], as a predicate on a
    database: every member is a uuid as Postgres prints it. *)
Definition uuid_participants (db : Db) : Prop :=
  ∀ chat p, chat ∈ chats db → p ∈ participants chat → pg_uuid p = Some p.

(** ** models/keys.model.ts *)

Module KeysModel.

Definition rows_of (userId : string) (t : list UserKey) : list UserKey :=
  filter (λ r, user_id r = userId) t.

(** The upsert of [user_keys] on its primary key: an existing row takes
    the given columns, otherwise a row is inserted, which the foreign
    key allows only for a user with a profile. *)
Definition upsert_user_key (db : Db) (userId : string)
    (update : UserKey → UserKey) (fresh : UserKey) : Db * option UserKey :=
  if bool_decide (rows_of userId (user_keys db) ≠ []) then
    let t := (λ r, if bool_decide (user_id r = userId) then update r else r)
               <$> user_keys db in
    (set_user_keys db t, single (rows_of userId t))
  else if bool_decide (userId ∈ user_profiles db) then
    (set_user_keys db (user_keys db ++ [fresh]), Some fresh)
  else (db, None).

Definition upsertPublicKey (db : Db) (userId publicKey now : string)
    : Db * option UserKey :=
  upsert_user_key db userId
    (λ r, mkUserKey userId publicKey (encrypted_master_key r)
                    (encrypted_rsa_private_key r) now)
    (mkUserKey userId publicKey None None now).

Definition getPublicKey (db : Db) (userId : string) : option string :=
  match single (rows_of userId (user_keys db)) with
  | Some data =>
      if bool_decide (public_key data = "") then None else Some (public_key data)
  | None => None
  end.

Definition uploadUserKeys (db : Db) (userId rsaPublicKey : string)
    (encryptedMasterKey encryptedRSAPrivateKey : json) (now : string)
    : Db * option UserKey :=
  let row := mkUserKey userId rsaPublicKey (Some encryptedMasterKey)
                       (Some encryptedRSAPrivateKey) now in
  upsert_user_key db userId (λ _, row) row.

Definition getUserKeys (db : Db) (userId : string) : option UserKey :=
  single (rows_of userId (user_keys db)).

Definition updateEncryptedMasterKey (db : Db) (userId : string)
    (encryptedMasterKey : json) (now : string) : Db * bool :=
  (set_user_keys db
     ((λ r, if bool_decide (user_id r = userId)
            then mkUserKey (user_id r) (public_key r) (Some encryptedMasterKey)
                           (encrypted_rsa_private_key r) now
            else r) <$> user_keys db),
   true).

(** Two deletes: the rows addressed to the user, then the rows the user
    sent. *)
Definition deleteUserChatKeys (db : Db) (userId : string) : Db * bool :=
  let after_recipient := filter (λ r, recipient_id r ≠ userId) (chat_keys db) in
  let after_sender := filter (λ r, sender_id r ≠ userId) after_recipient in
  (set_chat_keys db after_sender, true).

Definition slot (chatId recipientId : string) (t : list ChatKey) : list ChatKey :=
  filter (λ r, chat_id r = chatId ∧ recipient_id r = recipientId) t.

(** The upsert of [chat_keys] with [onConflict: 'chat_id,recipient_id'].
    A conflicting row takes the new sender and ciphertext (the sender
    must have a profile unless it is unchanged); otherwise the row is
    inserted, if the chat and both profiles exist. *)
Definition shareChatKey (db : Db) (chatId senderId recipientId encryptedChatKey : string)
    : Db * option ChatKey :=
  let row := mkChatKey chatId senderId recipientId encryptedChatKey in
  let old := slot chatId recipientId (chat_keys db) in
  if bool_decide (old ≠ []) then
    if bool_decide (senderId ∈ user_profiles db)
       || forallb (λ r, bool_decide (sender_id r = senderId)) old then
      let t := (λ r, if bool_decide (chat_id r = chatId ∧ recipient_id r = recipientId)
                     then row else r) <$> chat_keys db in
      (set_chat_keys db t, single (slot chatId recipientId t))
    else (db, None)
  else if bool_decide (chatId ∈ (c_id <$> chats db))
          && bool_decide (senderId ∈ user_profiles db)
          && bool_decide (recipientId ∈ user_profiles db) then
    (set_chat_keys db (chat_keys db ++ [row]), Some row)
  else (db, None).

Definition getChatKey (db : Db) (chatId userId : string) : option string :=
  match single (slot chatId userId (chat_keys db)) with
  | Some data =>
      if bool_decide (encrypted_chat_key data = "") then None
      else Some (encrypted_chat_key data)
  | None => None
  end.

Definition getAllChatKeys (db : Db) (chatId : string) : list ChatKey :=
  filter (λ r, chat_id r = chatId) (chat_keys db).

(** A delete addressed by both columns of the UNIQUE constraint. *)
Definition deleteChatKey (db : Db) (chatId userId : string) : Db * bool :=
  (set_chat_keys db
     (filter (λ r, ¬ (chat_id r = chatId ∧ recipient_id r = userId)) (chat_keys db)),
   true).

(** The chats for which a key is on file for the user. *)
Definition getUserChats (db : Db) (userId : string) : list string :=
  chat_id <$> filter (λ r, recipient_id r = userId) (chat_keys db).

End KeysModel.

(** ** models/chat.model.ts and models/user.model.ts *)

Module ChatModel.

Definition getChatById (db : Db) (chatId : string) : option Chat :=
  single (filter (λ c, c_id c = chatId) (chats db)).

Definition isUserInChat (db : Db) (chatId userId : string) : bool :=
  match getChatById db chatId with
  | Some data => bool_decide (userId ∈ participants data)
  | None => false
  end.

Definition getDirectChat (db : Db) (userId1 userId2 : string) : option Chat :=
  single (filter (λ c, c_type c = direct
                       ∧ userId1 ∈ participants c ∧ userId2 ∈ participants c)
                 (chats db)).

(** [uuid] is the identifier [uuidv4()] draws for a new row. *)
Definition createChat (db : Db) (type : ChatType) (createdBy : string)
    (members : list string) (uuid : string) : Db * option Chat :=
  let existing :=
    match type, members with
    | direct, [p0; p1] => getDirectChat db p0 p1
    | _, _ => None
    end in
  match existing with
  | Some chat => (db, Some chat)
  | None =>
      let row := mkChat uuid type members createdBy in
      if bool_decide (uuid ∉ (c_id <$> chats db))
         && bool_decide (createdBy ∈ user_profiles db)
      then (set_chats db (chats db ++ [row]), Some row)
      else (db, None)
  end.

(** The chats whose [participants] contain the user.  The rows come in
    table order: the ordering by [updated_at] and the embedded
    [last_message] are not modelled, the callers below read the
    identifiers only. *)
Definition getUserChats (db : Db) (userId : string) : list Chat :=
  filter (λ c, userId ∈ participants c) (chats db).



End ChatModel.

Module MessageModel.

(** The newest [limit] messages of the chat, oldest first.  The table
    is kept in order of [created_at]: a message is appended when it is
    created. *)
Definition getMessages (db : Db) (chatId : string) (limit : nat) : list Message :=
  let rows := filter (λ m, m_chat_id m = chatId) (messages db) in
  drop (length rows - limit) rows.

(** The insert of a message.  [iv] is the member [iv] of [metadata], the
    one member the handlers read; [now] is the default of [created_at].
    The row is refused when [chat_id] or [sender_id] references nothing
    or [message_type] fails its CHECK.  The identifier [uuidv4()] draws
    is not kept in [Message]. *)
Definition createMessage (db : Db)
    (chatId senderId encryptedContent messageType iv now : string)
    : Db * option Message :=
  let row := mkMessage chatId senderId encryptedContent iv now in
  if bool_decide (chatId ∈ (c_id <$> chats db))
     && bool_decide (senderId ∈ user_profiles db)
     && bool_decide (messageType ∈ ["text"; "image"; "file"; "voice"])
  then (set_messages db (messages db ++ [row]), Some row)
  else (db, None).

End MessageModel.

Module UserModel.

Definition getProfile (db : Db) (userId : string) : option string :=
  single (filter (λ p, p = userId) (user_profiles db)).

(** The caller is an authenticated account, so the reference to
    [auth.users] holds; an existing profile row is updated in place. *)
Definition upsertProfile (db : Db) (userId : string) : Db * option string :=
  if bool_decide (userId ∈ user_profiles db) then (db, getProfile db userId)
  else (set_user_profiles db (user_profiles db ++ [userId]), Some userId).

End UserModel.

(** ** routes/keys.routes.ts, mounted at /api/keys *)

Module KeysRoutes.

(** POST /api/keys: upload the master key and the RSA keys. *)
Definition post_root (db : Db) (caller : string) (reqbody : json) (now : string)
    : Db * Response :=
  match uploadKeysSchema reqbody with
  | Some message => (db, res_error 400 message)
  | None =>
      match jfield "rsa_public_key" reqbody,
            jfield "encrypted_master_key" reqbody,
            jfield "encrypted_rsa_private_key" reqbody with
      | Some (JStr rsa_public_key), Some encrypted_master_key,
        Some encrypted_rsa_private_key =>
          let userId := caller in
          let r := KeysModel.uploadUserKeys db userId rsa_public_key
                     encrypted_master_key encrypted_rsa_private_key now in
          (r.1, res_json (JObj [("message", JStr "Keys uploaded successfully")]))
      | _, _, _ => (db, res_error 500 "Failed to upload keys")
      end
  end.

(** GET /api/keys/:userId: the caller's own wrapped keys. *)
Definition get_userId (db : Db) (caller : string) (userId : string) : Response :=
  if negb (bool_decide (userId = caller)) then res_error 403 "Forbidden"
  else
    match KeysModel.getUserKeys db userId with
    | None => res_error 404 "Keys not found"
    | Some keys =>
        res_json (JObj
          [("encrypted_master_key", default JNull (encrypted_master_key keys));
           ("encrypted_rsa_private_key", default JNull (encrypted_rsa_private_key keys));
           ("rsa_public_key", JStr (public_key keys))])
    end.

(** PATCH /api/keys: replace the wrapped master key (password change). *)
Definition patch_root (db : Db) (caller : string) (reqbody : json) (now : string)
    : Db * Response :=
  match updateMasterKeySchema reqbody with
  | Some message => (db, res_error 400 message)
  | None =>
      match jfield "encrypted_master_key" reqbody with
      | Some encrypted_master_key =>
          let userId := caller in
          let r := KeysModel.updateEncryptedMasterKey db userId
                     encrypted_master_key now in
          (r.1, res_json (JObj [("message", JStr "Master key updated successfully")]))
      | None => (db, res_error 500 "Failed to update master key")
      end
  end.

End KeysRoutes.

(** ** The user routes, mounted at /api/users *)

Module UserRoutes.

(** POST /api/users/public-key, after [validate(publicKeySchema)]. *)
Definition post_public_key (db : Db) (caller : string) (public_key : string)
    (now : string) : Db * Response :=
  let userId := caller in
  let existingKey := KeysModel.getPublicKey db userId in
  let isKeyRotation := bool_decide (existingKey ≠ None) in
  let '(db1, result) := KeysModel.upsertPublicKey db userId public_key now in
  match result with
  | None => (db1, res_error 500 "Failed to store public key")
  | Some _ =>
      let db2 := if isKeyRotation then (KeysModel.deleteUserChatKeys db1 userId).1
                 else db1 in
      (db2, res_json (JObj [("success", JBool true);
                            ("message", JStr "Public key stored successfully");
                            ("key_rotation", JBool isKeyRotation)]))
  end.

(** GET /api/users/:userId/public-key.  The text of the path is read as
    a uuid by the filter of [getPublicKey]. *)
Definition get_public_key (db : Db) (caller : string) (userId : string) : Response :=
  match pg_uuid userId ≫= KeysModel.getPublicKey db with
  | None => res_error 404 "Public key not found"
  | Some publicKey => res_json (JObj [("public_key", JStr publicKey)])
  end.

End UserRoutes.

(** ** routes/auth.routes.ts, mounted at /api/auth *)

(** [!v] is false: the truthy values among the JSON values modelled. *)
Definition truthy (v : option json) : bool :=
  match v with
  | None | Some JNull | Some (JBool false) => false
  | Some (JStr s) => negb (bool_decide (s = ""))
  | Some _ => true
  end.

Module AuthRoutes.

(** GET /api/auth/me: the caller's profile, created if there is none. *)
Definition get_me (db : Db) (caller : string) : Db * Response :=
  let userId := caller in
  let '(db1, profile) :=
    match UserModel.getProfile db userId with
    | Some p => (db, Some p)
    | None => UserModel.upsertProfile db userId
    end in
  (db1, res_json (JObj [("profile",
          match profile with
          | Some p => JObj [("id", JStr p)]
          | None => JNull
          end)])).

(** POST /api/auth/sync: a client that reports no local keys has its
    chat keys removed.  Destructuring a [null] body throws. *)
Definition post_sync (db : Db) (caller : string) (reqbody : json) : Db * Response :=
  let userId := caller in
  match reqbody with
  | JNull => (db, res_error 500 "Sync failed")
  | _ =>
  let has_keys := jfield "has_keys" reqbody in
  if negb (truthy has_keys) then
    let r := KeysModel.deleteUserChatKeys db userId in
    (r.1, res_json (JObj [("success", JBool true);
                          ("keys_cleared", JBool true);
                          ("message", JStr "Old chat keys cleared. You can create new chats.")]))
  else
    (db, res_json (JObj [("success", JBool true);
                         ("keys_cleared", JBool false);
                         ("message", JStr "Keys are synced.")]))
  end.

End AuthRoutes.

(** ** routes/chat.routes.ts, mounted at /api/chats *)

Definition json_of_ChatKey (k : ChatKey) : json :=
  JObj [("chat_id", JStr (chat_id k));
        ("sender_id", JStr (sender_id k));
        ("recipient_id", JStr (recipient_id k));
        ("encrypted_chat_key", JStr (encrypted_chat_key k))].

Definition json_of_Message (m : Message) : json :=
  JObj [("chat_id", JStr (m_chat_id m));
        ("sender_id", JStr (m_sender_id m));
        ("encrypted_content", JStr (encrypted_content m));
        ("metadata", JObj [("iv", JStr (metadata_iv m))]);
        ("created_at", JStr (m_created_at m))].

Definition json_of_Chat (c : Chat) : json :=
  JObj [("id", JStr (c_id c));
        ("type", JStr (match c_type c with direct => "direct" | group => "group" end));
        ("participants", JArr (JStr <$> participants c));
        ("created_by", JStr (created_by c))].

(** The middleware [validate(schema)] of middleware/validation.ts is not
    part of the sources at hand.  Its verdict on a share-key body and the
    response it sends for a rejected body are parameters. *)
Class Validation := {
  shareChatKeySchema_ok : string → string → bool;
  validation_response : Response
}.

Module ChatRoutes.

(** The membership guard shared by the per-chat routes.  The text
    [chatId] of the path is read as a uuid by the filter of
    [getChatById]; the row comes back with its ids as Postgres prints
    them, and [includes] compares the caller's id with those texts. *)
Definition with_chat (db : Db) (userId chatId : string)
    (k : Chat → Db * Response) : Db * Response :=
  match pg_uuid chatId ≫= ChatModel.getChatById db with
  | None => (db, res_error 404 "Chat not found")
  | Some chat =>
      if negb (bool_decide (userId ∈ participants chat))
      then (db, res_error 403 "Not authorized")
      else k chat
  end.

(** POST /api/chats/:chatId/share-key, after
    [validate(shareChatKeySchema)].  [includes] looks for the text
    [recipient_id] of the body among the participants as Postgres prints
    them; the upsert reads both texts as uuids. *)
Definition post_share_key (db : Db) (caller chatId recipient_id encrypted_chat_key : string)
    : Db * Response :=
  with_chat db caller chatId (λ chat,
    if negb (bool_decide (recipient_id ∈ participants chat))
    then (db, res_error 400 "Recipient is not in this chat")
    else
      let '(db1, result) :=
        match pg_uuid chatId, pg_uuid recipient_id with
        | Some c, Some r => KeysModel.shareChatKey db c caller r encrypted_chat_key
        | _, _ => (db, None)
        end in
      match result with
      | None => (db1, res_error 500 "Failed to share chat key")
      | Some _ =>
          (db1, res_json (JObj [("success", JBool true);
                                ("message", JStr "Chat key shared successfully")]))
      end).

(** The route as express runs it: the validation middleware, then the
    handler. *)
Definition route_share_key `{Validation} (db : Db)
    (caller chatId recipient_id encrypted_chat_key : string) : Db * Response :=
  if shareChatKeySchema_ok recipient_id encrypted_chat_key
  then post_share_key db caller chatId recipient_id encrypted_chat_key
  else (db, validation_response).

(** GET /api/chats/:chatId/my-key. *)
Definition get_my_key (db : Db) (caller chatId : string) : Response :=
  (with_chat db caller chatId (λ _,
     match pg_uuid chatId ≫= (λ c, KeysModel.getChatKey db c caller) with
     | None => (db, res_error 404 "Chat key not found")
     | Some encryptedKey =>
         (db, res_json (JObj [("encrypted_chat_key", JStr encryptedKey)]))
     end)).2.

(** GET /api/chats/:chatId/keys. *)
Definition get_keys (db : Db) (caller chatId : string) : Response :=
  (with_chat db caller chatId (λ _,
     (db, res_json (JObj [("chat_keys",
            JArr (json_of_ChatKey
                    <$> default [] (KeysModel.getAllChatKeys db <$> pg_uuid chatId)))])))).2.

(** POST /api/chats/direct/:userId: get or create the direct chat.  The
    comparison with the caller's id is one of texts; the filters and the
    insert read the text of the path as a uuid. *)
Definition post_direct (db : Db) (caller otherUserId uuid : string) : Db * Response :=
  let currentUserId := caller in
  if bool_decide (currentUserId = otherUserId)
  then (db, res_error 400 "Cannot create chat with yourself")
  else
    let '(db1, currentUserProfile) :=
      match UserModel.getProfile db currentUserId with
      | Some p => (db, Some p)
      | None => UserModel.upsertProfile db currentUserId
      end in
    match currentUserProfile with
    | None => (db1, res_error 500 "Failed to create your user profile")
    | Some _ =>
        match pg_uuid otherUserId ≫= UserModel.getProfile db1 with
        | None => (db1, res_error 404 "Recipient user not found")
        | Some _ =>
            let '(db2, chat) :=
              match pg_uuid otherUserId ≫= ChatModel.getDirectChat db1 currentUserId with
              | Some c => (db1, Some c)
              | None =>
                  match pg_uuid otherUserId with
                  | Some other => ChatModel.createChat db1 direct currentUserId
                                    [currentUserId; other] uuid
                  | None => (db1, None)
                  end
              end in
            match chat with
            | None => (db2, res_error 400 "Failed to create chat")
            | Some c => (db2, res_json (JObj [("chat", json_of_Chat c)]))
            end
        end
    end.

(** GET /api/chats/:chatId/messages?limit=50.  [limit] is the number
    [parseInt] reads from the query; the route takes 50 for a zero. *)
Definition get_messages (db : Db) (caller chatId : string) (limit : nat) : Response :=
  let limit := if bool_decide (limit = 0%nat) then 50%nat else limit in
  (with_chat db caller chatId (λ _,
     (db, res_json (JObj [("messages",
            JArr (json_of_Message
                    <$> default [] ((λ c, MessageModel.getMessages db c limit)
                                      <$> pg_uuid chatId)))])))).2.

End ChatRoutes.

(** ** socket/index.ts: the 'chat:key:share' handler *)

Inductive Emit :=
  | EmitToSocket (event : string) (payload : json)
  | EmitToRoom (room : string) (event : string) (payload : json).

Module Socket.

(** [userId] is the authenticated user of the socket.  The statements
    read the texts [chatId] and [recipientId] of the event as uuids; the
    room and the payload of the emit carry the texts. *)
Definition chat_key_share (db : Db) (userId chatId recipientId encryptedChatKey : string)
    : Db * list Emit :=
  let isInChat :=
    default false ((λ c, ChatModel.isUserInChat db c userId) <$> pg_uuid chatId) in
  if negb isInChat
  then (db, [EmitToSocket "error" (JObj [("message", JStr "Not authorized")])])
  else
    let db1 :=
      match pg_uuid chatId, pg_uuid recipientId with
      | Some c, Some r => (KeysModel.shareChatKey db c userId r encryptedChatKey).1
      | _, _ => db
      end in
    (db1, [EmitToRoom ("user:" ++ recipientId) "chat:key:received"
             (JObj [("chatId", JStr chatId);
                    ("from", JStr userId);
                    ("encrypted_chat_key", JStr encryptedChatKey)])]).

(** The 'message:send' handler, for the event as the client of this
    repository sends it: [chatId], [encryptedContent], [iv] and
    [messageType], the optional members absent.  The broadcast is the
    stored row with the member [iv] added. *)
Definition message_send (db : Db)
    (userId chatId encryptedContent iv messageType now : string) : Db * list Emit :=
  let isInChat :=
    default false ((λ c, ChatModel.isUserInChat db c userId) <$> pg_uuid chatId) in
  if negb isInChat
  then (db, [EmitToSocket "error"
               (JObj [("message", JStr "Not authorized for this chat")])])
  else
    match match pg_uuid chatId with
          | Some c => MessageModel.createMessage db c userId encryptedContent
                        messageType iv now
          | None => (db, None)
          end with
    | (db1, Some message) =>
        (db1, [EmitToRoom ("chat:" ++ chatId) "message:receive"
                 match json_of_Message message with
                 | JObj fields => JObj (fields ++ [("iv", JStr iv)])
                 | j => j
                 end])
    | (db1, None) => (db1, [])
    end.

(** A connected socket and the rooms it is in.  Socket.IO puts a socket
    in the room named by its own id; the 'connection' handler adds the
    user's room and one room per chat the user is in at that moment.
    No other handler joins a room. *)
Record Connection := mkConnection {
  socket_id : string;
  socket_userId : string;
  rooms : list string
}.

Definition connection (db : Db) (socketId userId : string) : Connection :=
  mkConnection socketId userId
    (socketId :: ("user:" ++ userId)
       :: ((λ chat, "chat:" ++ c_id chat) <$> ChatModel.getUserChats db userId)).

(** The sockets an emit reaches: [socket.emit] the socket of the
    handler, [io.to(room).emit] every socket in the room. *)
Definition reaches (origin : string) (e : Emit) (s : Connection) : bool :=
  match e with
  | EmitToSocket _ _ => bool_decide (socket_id s = origin)
  | EmitToRoom room _ _ => bool_decide (room ∈ rooms s)
  end.

(** [connectedUsers], the sockets that are open for each user, and the
    presence updates [broadcastPresence] sends to every client: the user
    and the status.  The 'connection' handler adds the socket and
    announces the user online; the 'disconnect' handler removes it and,
    when no socket of the user is left, forgets the user and announces
    the user offline. *)
Definition on_connection (connectedUsers : gmap string (gset string))
    (userId socketId : string) : gmap string (gset string) * list (string * string) :=
  let connectedUsers :=
    if bool_decide (is_Some (connectedUsers !! userId)) then connectedUsers
    else <[userId := ∅]> connectedUsers in
  (<[userId := {[socketId]} ∪ default ∅ (connectedUsers !! userId)]> connectedUsers,
   [(userId, "online")]).

Definition on_disconnect (connectedUsers : gmap string (gset string))
    (userId socketId : string) : gmap string (gset string) * list (string * string) :=
  match connectedUsers !! userId with
  | None => (connectedUsers, [])
  | Some userSockets =>
      let userSockets := userSockets ∖ {[socketId]} in
      if bool_decide (size userSockets = 0%nat)
      then (delete userId connectedUsers, [(userId, "offline")])
      else (<[userId := userSockets]> connectedUsers, [])
  end.

End Socket.

(** ** The browser platform

    What the client takes from the browser: [crypto.subtle] and [btoa].
    A key is represented by its exported text, so importing a key is a
    test of that text; an operation that rejects returns [None] or
    [false].  The random padding of RSA-OAEP is not modelled. *)

Class WebCrypto := {
  (** [crypto.subtle.digest('SHA-256', bytes)] *)
  sha256 : string → string;
  (** [btoa(String.fromCharCode(...bytes))] *)
  btoa : string → string;
  (** [importKey('raw', bytes, 'AES-GCM')] accepts the key text *)
  aes_key_ok : string → bool;
  (** [importKey('jwk', JSON.parse(atob(text)), 'RSA-OAEP')] accepts it *)
  public_key_ok : string → bool;
  (** [importKey('pkcs8', bytes, 'RSA-OAEP')] accepts it *)
  private_key_ok : string → bool;
  (** [encrypt({name:'RSA-OAEP'}, publicKey, raw)] *)
  rsa_oaep_encrypt : string → string → string;
  (** [decrypt({name:'RSA-OAEP'}, privateKey, ciphertext)] *)
  rsa_oaep_decrypt : string → string → option string;
  (** [deriveKey({name:'PBKDF2', salt, iterations, hash:'SHA-256'}, password)] *)
  pbkdf2_sha256 : string → string → N → string;
  (** [decrypt({name:'AES-GCM', iv}, key, ciphertext)] *)
  aes_gcm_decrypt : string → string → string → option string
}.

(** The operations of the platform that make ciphertexts, and [atob].
    As with [aes_gcm_decrypt], a ciphertext and a nonce are given by
    their base64 text. *)
Class Encryption := {
  (** [encrypt({name:'AES-GCM', iv}, key, data)], also [wrapKey] of a raw key *)
  aes_gcm_encrypt : string → string → string → string;
  (** [atob(text)], which throws on a text that is not base64 *)
  atob : string → option string
}.

(** A JavaScript completion: a value or a thrown error. *)
Inductive result (A : Type) : Type :=
  | Ok (a : A)
  | Throw (message : string).
Arguments Ok {A} a.
Arguments Throw {A} message.

(** ** frontend/crypto-helper.js *)

(** The database 'EncryptionDB' at version 1: absent, present without the
    object store 'keys', or present with it and the entry 'masterKey'. *)
Inductive IndexedDB :=
  | NoDB
  | DBNoStore
  | DBKeys (masterKey : option string).

Record Device := mkDevice {
  privateKey : option string;
  publicKey : option string;
  chatKeys : gmap string string;
  localStorage : gmap string string;
  indexedDB : IndexedDB
}.

Definition set_helper (d : Device) (priv pub : option string)
    (keys : gmap string string) : Device :=
  mkDevice priv pub keys (localStorage d) (indexedDB d).
Definition set_chatKeys (d : Device) (keys : gmap string string) : Device :=
  mkDevice (privateKey d) (publicKey d) keys (localStorage d) (indexedDB d).
Definition set_localStorage (d : Device) (ls : gmap string string) : Device :=
  mkDevice (privateKey d) (publicKey d) (chatKeys d) ls (indexedDB d).
Definition set_indexedDB (d : Device) (i : IndexedDB) : Device :=
  mkDevice (privateKey d) (publicKey d) (chatKeys d) (localStorage d) i.

(** [s.startsWith(p)] *)
Fixpoint startsWith (p s : string) : bool :=
  match p, s with
  | EmptyString, _ => true
  | String a p', String b s' => bool_decide (a = b) && startsWith p' s'
  | String _ _, EmptyString => false
  end.

Module CryptoHelper.

(** The methods that [class CryptoHelper] declares. *)
Definition methods : list string :=
  ["generateUserKeys"; "loadPrivateKey"; "exportPublicKey"; "importPublicKey";
   "generateChatKey"; "loadChatKey"; "encryptChatKey"; "decryptChatKey";
   "encryptMessage"; "decryptMessage"; "clearKeys"; "generateMasterKey";
   "encryptMasterKeyWithPassword"; "decryptMasterKeyWithPassword";
   "deriveAuthPassword"; "storeMasterKeyInIndexedDB";
   "loadMasterKeyFromIndexedDB"; "clearMasterKeyFromIndexedDB";
   "encryptRSAPrivateKey"; "decryptRSAPrivateKey"; "generateRecoveryKey";
   "restoreMasterKeyFromRecovery"; "clearMasterKey"].

Section Methods.
Context `{WebCrypto}.

(** [chatKey] is the key [crypto.subtle.generateKey] draws. *)
Definition generateChatKey (d : Device) (chatId chatKey : string)
    : Device * string :=
  let d1 := set_chatKeys d (<[chatId := chatKey]> (chatKeys d)) in
  (set_localStorage d1 (<["chatKey_" ++ chatId := chatKey]> (localStorage d1)),
   chatKey).

Definition loadChatKey (d : Device) (chatId : string)
    : Device * result (option string) :=
  match chatKeys d !! chatId with
  | Some k => (d, Ok (Some k))
  | None =>
      match localStorage d !! ("chatKey_" ++ chatId) with
      | None => (d, Ok None)
      | Some stored =>
          if bool_decide (stored = "") then (d, Ok None)
          else if aes_key_ok stored
          then (set_chatKeys d (<[chatId := stored]> (chatKeys d)), Ok (Some stored))
          else (d, Throw "importKey")
      end
  end.

Definition encryptChatKey (chatKey recipientPublicKey : string) : string :=
  rsa_oaep_encrypt recipientPublicKey chatKey.

Definition decryptChatKey (d : Device) (encryptedKeyBase64 chatId : string)
    : Device * result string :=
  let failed : result string :=
    Throw "Failed to decrypt chat key. This usually happens when your encryption keys were regenerated. Please ask the sender to create a new chat." in
  match privateKey d with
  | None => (d, failed)
  | Some priv =>
      match rsa_oaep_decrypt priv encryptedKeyBase64 with
      | None => (d, failed)
      | Some decrypted =>
          if aes_key_ok decrypted then
            let d1 := set_chatKeys d (<[chatId := decrypted]> (chatKeys d)) in
            (set_localStorage d1
               (<["chatKey_" ++ chatId := decrypted]> (localStorage d1)),
             Ok decrypted)
          else (d, failed)
      end
  end.

Definition decryptMessage (d : Device) (encryptedBase64 ivBase64 chatId : string)
    : Device * result string :=
  match loadChatKey d chatId with
  | (d1, Throw e) => (d1, Throw e)
  | (d1, Ok None) => (d1, Throw "No chat key found for this chat")
  | (d1, Ok (Some chatKey)) =>
      match aes_gcm_decrypt chatKey ivBase64 encryptedBase64 with
      | Some plaintext => (d1, Ok plaintext)
      | None => (d1, Throw "OperationError")
      end
  end.

(** Logout: forget the keys in memory and in localStorage. *)
Definition clearKeys (d : Device) : Device :=
  mkDevice None None ∅
    (filter (λ kv, ¬ (startsWith "chatKey_" kv.1 = true ∨ kv.1 = "privateKey"))
            (localStorage d))
    (indexedDB d).

Definition deriveAuthPassword (password email : string) : string :=
  btoa (sha256 (password ++ ":auth:" ++ email)).

Definition storeMasterKeyInIndexedDB (d : Device) (masterKey : string) : Device :=
  set_indexedDB d
    match indexedDB d with
    | NoDB => DBKeys (Some masterKey)
    | DBNoStore => DBNoStore
    | DBKeys _ => DBKeys (Some masterKey)
    end.

Definition loadMasterKeyFromIndexedDB (d : Device) : Device * option string :=
  match indexedDB d with
  | NoDB => (set_indexedDB d (DBKeys None), None)
  | DBNoStore => (d, None)
  | DBKeys None => (d, None)
  | DBKeys (Some stored) =>
      if bool_decide (stored = "") then (d, None)
      else if aes_key_ok stored then (d, Some stored) else (d, None)
  end.

Definition clearMasterKeyFromIndexedDB (d : Device) : Device :=
  set_indexedDB d
    match indexedDB d with
    | NoDB => DBNoStore
    | DBNoStore => DBNoStore
    | DBKeys _ => DBKeys None
    end.

Definition decryptRSAPrivateKey (encryptedData : json) (masterKey : string)
    : result string :=
  match jfield "iv" encryptedData, jfield "encrypted" encryptedData with
  | Some (JStr iv), Some (JStr encrypted) =>
      match aes_gcm_decrypt masterKey iv encrypted with
      | Some decrypted =>
          if private_key_ok decrypted then Ok decrypted else Throw "DataError"
      | None => Throw "OperationError"
      end
  | _, _ => Throw "TypeError"
  end.

Definition importPublicKey (base64Key : json) : result string :=
  match base64Key with
  | JStr k => if public_key_ok k then Ok k else Throw "DataError"
  | _ => Throw "TypeError"
  end.

(** [decryptMasterKeyWithPassword(encryptedData, password)] *)
Definition decryptMasterKeyWithPassword (encryptedData : json) (password : string) : result string :=
  match str_field "salt" encryptedData, str_field "iv" encryptedData,
        str_field "wrapped" encryptedData with
  | Some salt, Some iv, Some wrapped =>
      let wrappingKey := pbkdf2_sha256 password salt 100000%N in
      match aes_gcm_decrypt wrappingKey iv wrapped with
      | Some masterKey => if aes_key_ok masterKey then Ok masterKey else Throw "DataError"
      | None => Throw "OperationError"
      end
  | _, _, _ => Throw "TypeError"
  end.

(** [clearMasterKey] starts with [await this.openDB()] inside its
    [try]: a call of a method the class does not declare throws a
    TypeError, which the [catch] logs. *)
Definition clearMasterKey (d : Device) : Device :=
  if bool_decide ("openDB" ∈ methods) then
    set_indexedDB d
      match indexedDB d with
      | DBKeys _ => DBKeys None
      | i => i
      end
  else d.

End Methods.

(** The line terminators, which [.] of a regular expression skips (the
    two that are one-byte characters). *)
Definition is_line_terminator (a : ascii) : bool :=
  bool_decide (a = "010"%char) || bool_decide (a = "013"%char).

Definition groups_of (r : string * list string) : list string :=
  if bool_decide (r.1 = "") then r.2 else r.1 :: r.2.

(** [text.match(/.{1,4}/g)], read from the left: the rest of the group
    being read, which may take [room] characters after the next one, and
    the groups that follow it. *)
Fixpoint scan_groups (room : nat) (s : string) : string * list string :=
  match s with
  | EmptyString => ("", [])
  | String a s' =>
      if is_line_terminator a then ("", groups_of (scan_groups 3 s'))
      else
        match room with
        | O => (String a "", groups_of (scan_groups 3 s'))
        | S room' =>
            let '(g, gs) := scan_groups room' s' in (String a g, gs)
        end
  end.

(** [groups.join(sep)] *)
Fixpoint join (sep : string) (groups : list string) : string :=
  match groups with
  | [] => ""
  | [g] => g
  | g :: gs => g ++ sep ++ join sep gs
  end.

(** [text.replace(/-/g, '')] *)
Fixpoint remove_dashes (s : string) : string :=
  match s with
  | EmptyString => ""
  | String a s' =>
      if bool_decide (a = "-"%char) then remove_dashes s'
      else String a (remove_dashes s')
  end.

Section Sealing.
Context `{WebCrypto} `{Encryption}.

(** [priv] and [pub] are the pair [crypto.subtle.generateKey] draws,
    [jwk] the text of the private key's JWK export. *)
Definition generateUserKeys (d : Device) (priv pub jwk : string) : Device :=
  let d1 := set_helper d (Some priv) (Some pub) (chatKeys d) in
  set_localStorage d1 (<["privateKey" := jwk]> (localStorage d1)).

Definition exportPublicKey (d : Device) : result string :=
  match publicKey d with
  | Some pub => Ok pub
  | None => Throw "TypeError"
  end.

(** [iv] is the nonce [crypto.getRandomValues] draws. *)
Definition encryptMessage (d : Device) (message chatId iv : string)
    : Device * result (string * string) :=
  match loadChatKey d chatId with
  | (d1, Throw e) => (d1, Throw e)
  | (d1, Ok None) => (d1, Throw "No chat key found for this chat")
  | (d1, Ok (Some chatKey)) => (d1, Ok (aes_gcm_encrypt chatKey iv message, iv))
  end.

(** The salt is the digest of the address; it enters the derivation, as
    in [decryptMasterKeyWithPassword], by the base64 text that is stored. *)
Definition encryptMasterKeyWithPassword (masterKey password email iv : string)
    : json :=
  let salt := btoa (sha256 email) in
  let wrappingKey := pbkdf2_sha256 password salt 100000%N in
  JObj [("wrapped", JStr (aes_gcm_encrypt wrappingKey iv masterKey));
        ("iv", JStr iv);
        ("salt", JStr salt)].

Definition encryptRSAPrivateKey (rsaPrivateKey masterKey iv : string) : json :=
  JObj [("encrypted", JStr (aes_gcm_encrypt masterKey iv rsaPrivateKey));
        ("iv", JStr iv)].

(** The recovery text is made from the raw bytes of the master key:
    [exported] is [exportKey('raw', masterKey)], [salt] the sixteen
    bytes drawn.  [match] returns [null] on a text without a group. *)
Definition generateRecoveryKey (exported salt : string) : result string :=
  let base64 := btoa (exported ++ salt) in
  match groups_of (scan_groups 3 base64) with
  | [] => Throw "TypeError"
  | groups => Ok (join "-" groups)
  end.

(** The raw bytes handed to [importKey('raw', ...)], which accepts a key
    of 128, 192 or 256 bits. *)
Definition restoreMasterKeyFromRecovery (recoveryKey : string) : result string :=
  let base64 := remove_dashes recoveryKey in
  match atob base64 with
  | None => Throw "Invalid recovery key"
  | Some combined =>
      let masterKeyData := String.substring 0 32 combined in
      if bool_decide (String.length masterKeyData ∈ [16; 24; 32]%nat)
      then Ok masterKeyData
      else Throw "Invalid recovery key"
  end.

End Sealing.


End CryptoHelper.

(** ** The application script (app.js) *)

(** The account table of the authentication provider. *)
Record Account := mkAccount {
  a_email : string;
  a_password : string;
  a_id : string
}.

(** [supabaseClient.auth.signInWithPassword]: the user id, or an error. *)
Definition signInWithPassword (accounts : list Account) (email password : string)
    : option string :=
  a_id <$> find (λ a, bool_decide (a_email a = email ∧ a_password a = password)) accounts.

(** What the client puts on the wire. *)
Inductive Request :=
  | AuthSignUp (email password : string)
  | AuthSignIn (email password : string)
  | AuthSignOut
  | HttpGet (path : string)
  | HttpPost (path : string) (reqbody : json).

(** An entry of the message pane. *)
Inductive Bubble :=
  | Shown (plaintext : string) (isSent : bool)
  | Placeholder (created_at : string).

(** The globals of the script, the parts of the page it writes, and a
    record [sent] of every request it has issued. *)
Record App := mkApp {
  device : Device;
  session : option string;
  currentUser : option string;
  currentChatId : option string;
  currentRecipientId : option string;
  socket : bool;
  chatSection_shown : bool;
  alerts : list (string * string);
  messagesDiv : list Bubble;
  sent : list Request
}.

Definition with_device (a : App) (d : Device) : App :=
  mkApp d (session a) (currentUser a) (currentChatId a) (currentRecipientId a)
        (socket a) (chatSection_shown a) (alerts a) (messagesDiv a) (sent a).
Definition with_session (a : App) (s : option string) : App :=
  mkApp (device a) s (currentUser a) (currentChatId a) (currentRecipientId a)
        (socket a) (chatSection_shown a) (alerts a) (messagesDiv a) (sent a).
Definition with_currentUser (a : App) (u : option string) : App :=
  mkApp (device a) (session a) u (currentChatId a) (currentRecipientId a)
        (socket a) (chatSection_shown a) (alerts a) (messagesDiv a) (sent a).
Definition with_chat_ids (a : App) (c r : option string) : App :=
  mkApp (device a) (session a) (currentUser a) c r
        (socket a) (chatSection_shown a) (alerts a) (messagesDiv a) (sent a).
Definition with_screen (a : App) (sock shown : bool) : App :=
  mkApp (device a) (session a) (currentUser a) (currentChatId a) (currentRecipientId a)
        sock shown (alerts a) (messagesDiv a) (sent a).
Definition with_messagesDiv (a : App) (m : list Bubble) : App :=
  mkApp (device a) (session a) (currentUser a) (currentChatId a) (currentRecipientId a)
        (socket a) (chatSection_shown a) (alerts a) m (sent a).

Definition showAlert (a : App) (type message : string) : App :=
  mkApp (device a) (session a) (currentUser a) (currentChatId a) (currentRecipientId a)
        (socket a) (chatSection_shown a) (alerts a ++ [(type, message)])
        (messagesDiv a) (sent a).

Definition send (a : App) (r : Request) : App :=
  mkApp (device a) (session a) (currentUser a) (currentChatId a) (currentRecipientId a)
        (socket a) (chatSection_shown a) (alerts a) (messagesDiv a) (sent a ++ [r]).

(** [supabaseClient.auth.signOut()] *)
Definition signOut (a : App) : App := with_session (send a AuthSignOut) None.

(** [response.ok] *)
Definition ok (r : Response) : bool := (200 <=? status r)%nat && (status r <? 300)%nat.

(** [n] hexadecimal digits, then the rest of the text. *)
Fixpoint hex_run (n : nat) (s : string) : option string :=
  match n, s with
  | O, _ => Some s
  | S n', String a s' => if is_hex a then hex_run n' s' else None
  | S _, EmptyString => None
  end.

Definition dash (s : string) : option string :=
  match s with
  | String a s' => if bool_decide (a = "-"%char) then Some s' else None
  | EmptyString => None
  end.

(** [/^[0-9a-f]{8}-[0-9a-f]{4}-[0-9a-f]{4}-[0-9a-f]{4}-[0-9a-f]{12}$/i] *)
Definition uuidRegex_test (s : string) : bool :=
  let rest : option string :=
    s1 ← hex_run 8 s; s2 ← dash s1;
    s3 ← hex_run 4 s2; s4 ← dash s3;
    s5 ← hex_run 4 s4; s6 ← dash s5;
    s7 ← hex_run 4 s6; s8 ← dash s7;
    hex_run 12 s8 in
  bool_decide (rest = Some "").

Module AppJs.
Section Handlers.
Context `{WebCrypto} `{Validation}.

(** [initializeChat]: connect the socket and show the chat section. *)
Definition initializeChat (a : App) : App :=
  match session a with
  | None => showAlert a "error" "No active session"
  | Some _ => with_screen a true true
  end.

(** The two assignments that every login path runs inside a [try]:
    unwrap the RSA private key with the master key, import the public key. *)
Definition load_rsa_keys (a : App) (keys : json) (masterKey : string)
    : App * result unit :=
  match CryptoHelper.decryptRSAPrivateKey
          (default JNull (jfield "encrypted_rsa_private_key" keys)) masterKey with
  | Throw e => (a, Throw e)
  | Ok priv =>
      let a := with_device a
        (set_helper (device a) (Some priv) (publicKey (device a))
                    (chatKeys (device a))) in
      match CryptoHelper.importPublicKey
              (default JNull (jfield "rsa_public_key" keys)) with
      | Throw e => (a, Throw e)
      | Ok pub =>
          (with_device a
             (set_helper (device a) (privateKey (device a)) (Some pub)
                         (chatKeys (device a))),
           Ok ())
      end
  end.

(** [handleExistingSession(session)], called on page load with the
    session the Supabase client has kept; [user] is [session.user.id]. *)
Definition handleExistingSession (db : Db) (a : App) (user : string) : App :=
  let a := with_currentUser a (Some user) in
  let '(d1, masterKey) := CryptoHelper.loadMasterKeyFromIndexedDB (device a) in
  let a := with_device a d1 in
  match masterKey with
  | None =>
      showAlert (with_screen a (socket a) false) "info"
        "Please enter your password to decrypt your data on this device."
  | Some masterKey =>
      match session a with
      | None => signOut (showAlert a "error" "Session expired. Please login again.")
      | Some fresh =>
          let a := send a (HttpGet ("/api/keys/" ++ fresh)) in
          let response := KeysRoutes.get_userId db fresh fresh in
          if negb (ok response) then
            if bool_decide (status response = 404) then
              signOut (showAlert a "error"
                         "Account setup incomplete. Please sign up again.")
            else
              signOut (showAlert a "error"
                         "Failed to restore session. Please login again.")
          else
            let keys := body response in
            let mismatch (a : App) : App :=
              let a := showAlert a "error"
                "Encryption key mismatch. This account may be corrupted. Please delete your account and sign up again." in
              let a := signOut a in
              with_device a (CryptoHelper.clearMasterKey (device a)) in
            match load_rsa_keys a keys masterKey with
            | (a, Throw _) => mismatch a
            | (a, Ok _) =>
                initializeChat
                  (showAlert a "info" "Session restored! Loading your chats...")
            end
      end
  end.

(** [handleLogin]: the two branches of [if (!masterKey)] and the handler.
    [user] is [data.user.id] of the sign-in. *)
Definition handleLogin_slow (db : Db) (a : App) (user password : string)
    : App * result unit :=
  let a := send a (HttpGet ("/api/keys/" ++ user)) in
  let response := KeysRoutes.get_userId db user user in
  if negb (ok response) then (a, Throw "Failed to fetch encrypted keys from server")
  else
    let keys := body response in
    match CryptoHelper.decryptMasterKeyWithPassword
            (default JNull (jfield "encrypted_master_key" keys)) password with
    | Throw e => (a, Throw e)
    | Ok masterKey =>
        let a := with_device a
          (CryptoHelper.storeMasterKeyInIndexedDB (device a) masterKey) in
        match load_rsa_keys a keys masterKey with
        | (a, Throw _) =>
            (a, Throw "Wrong password or corrupted account. Please verify your password or sign up again.")
        | (a, Ok _) => (a, Ok ())
        end
    end.

Definition handleLogin_fast (db : Db) (a : App) (user password masterKey : string)
    : App * result unit :=
  let a := send a (HttpGet ("/api/keys/" ++ user)) in
  let response := KeysRoutes.get_userId db user user in
  if negb (ok response)
  then (a, Throw "Failed to fetch encrypted RSA keys from server")
  else
    let keys := body response in
    match load_rsa_keys a keys masterKey with
    | (a, Ok _) => (a, Ok ())
    | (a, Throw _) =>
        let a := with_device a
          (CryptoHelper.clearMasterKeyFromIndexedDB (device a)) in
        match CryptoHelper.decryptMasterKeyWithPassword
                (default JNull (jfield "encrypted_master_key" keys)) password with
        | Throw e => (a, Throw e)
        | Ok masterKey =>
            let a := with_device a
              (CryptoHelper.storeMasterKeyInIndexedDB (device a) masterKey) in
            load_rsa_keys a keys masterKey
        end
    end.

Definition handleLogin (accounts : list Account) (db : Db) (a : App)
    (email password : string) : App :=
  if bool_decide (email = "") || bool_decide (password = "")
  then showAlert a "error" "Please fill in all fields"
  else
    let '(d1, masterKey) := CryptoHelper.loadMasterKeyFromIndexedDB (device a) in
    let a := with_device a d1 in
    let authPassword := CryptoHelper.deriveAuthPassword password email in
    let a := send a (AuthSignIn email authPassword) in
    match signInWithPassword accounts email authPassword with
    | None => showAlert a "error" "Invalid login credentials"
    | Some user =>
        let a := with_currentUser (with_session a (Some user)) (Some user) in
        let '(a, r) :=
          match masterKey with
          | None => handleLogin_slow db a user password
          | Some masterKey => handleLogin_fast db a user password masterKey
          end in
        match r with
        | Throw e => showAlert a "error" e
        | Ok _ =>
            initializeChat
              (showAlert a "success" "Login successful! Loading your chats...")
        end
    end.

(** [handleLogout].  The script declares it twice; the later declaration
    is the one bound to the button.  It disconnects the socket and
    leaves the variable [socket] as it is. *)
Definition handleLogout (a : App) : App :=
  let a := signOut a in
  let a := with_device a (CryptoHelper.clearKeys (device a)) in
  let a := with_currentUser a None in
  let a := with_chat_ids a None (currentRecipientId a) in
  let a := with_screen a (socket a) false in
  showAlert a "info" "Logged out successfully".

(** [chat_keys.find(key => key.recipient_id === currentUser.id)]: the
    callback reads [currentUser.id] once per element. *)
Definition find_our_key (me : option string) (chat_keys : list json)
    : result (option json) :=
  match chat_keys, me with
  | [], _ => Ok None
  | _ :: _, None => Throw "TypeError"
  | _ :: _, Some me =>
      Ok (find (λ key, bool_decide (str_field "recipient_id" key = Some me)) chat_keys)
  end.

Definition chat_keys_path (chatId : string) : string :=
  "/api/chats/" ++ chatId ++ "/keys".

(** The re-fetch in the [catch] of the history loop: the reply of
    GET /api/chats/:chatId/keys, our own record in it, and its unwrapping.
    [true] when the history is to be loaded again. *)
Definition refetch_chat_key (db : Db) (a : App) (token_user chatId : string)
    : App * bool :=
  let a := with_device a
    (set_localStorage (device a) (delete ("chatKeys_" ++ chatId) (localStorage (device a)))) in
  let a := send a (HttpGet (chat_keys_path chatId)) in
  let keysResponse := ChatRoutes.get_keys db token_user chatId in
  if ok keysResponse then
    match jfield "chat_keys" (body keysResponse) with
    | Some (JArr chat_keys) =>
        match find_our_key (currentUser a) chat_keys with
        | Ok (Some ourKey) =>
            match CryptoHelper.decryptChatKey (device a)
                    (default "" (str_field "encrypted_chat_key" ourKey)) chatId with
            | (d, Ok _) => (with_device a d, true)
            | (d, Throw _) => (with_device a d, false)
            end
        | _ => (a, false)
        end
    | _ => (a, false)
    end
  else (a, false).

(** The loop [for (const message of messages)] of [loadMessageHistory].
    [reload] is the recursive call
    [loadMessageHistory(chatId, retryAttempt + 1)], whose result the
    handler returns at once. *)
Fixpoint decrypt_each (reload : App → App) (db : Db) (token_user chatId : string)
    (pending : list json) (firstDecryptFailed : bool) (a : App) : App :=
  match pending with
  | [] => a
  | message :: rest =>
      let iv := default "" (jfield "metadata" message ≫= str_field "iv") in
      let '(d, r) :=
        CryptoHelper.decryptMessage (device a)
          (default "" (str_field "encrypted_content" message)) iv chatId in
      let a := with_device a d in
      let created_at := default "" (str_field "created_at" message) in
      match r, currentUser a with
      | Ok plaintext, Some me =>
          let isSent := bool_decide (str_field "sender_id" message = Some me) in
          decrypt_each reload db token_user chatId rest firstDecryptFailed
            (with_messagesDiv a (messagesDiv a ++ [Shown plaintext isSent]))
      | _, _ =>
          if negb firstDecryptFailed then
            match refetch_chat_key db a token_user chatId with
            | (a, true) => reload a
            | (a, false) =>
                decrypt_each reload db token_user chatId rest true
                  (with_messagesDiv a (messagesDiv a ++ [Placeholder created_at]))
            end
          else
            decrypt_each reload db token_user chatId rest firstDecryptFailed
              (with_messagesDiv a (messagesDiv a ++ [Placeholder created_at]))
      end
  end.

(** The part of [loadMessageHistory] before the loop: make sure there is
    a chat key, then fetch the messages.  [None] when an exception ends
    the handler in its outer [catch]. *)
Definition history_prologue (db : Db) (a : App) (chatId : string)
    : App * option (string * list json) :=
  let a := with_messagesDiv a [] in
  let '(d, cached) := CryptoHelper.loadChatKey (device a) chatId in
  let a := with_device a d in
  match cached, session a with
  | Throw _, _ => (a, None)
  | Ok (Some _), None => (a, None)
  | Ok None, None => (a, None)
  | Ok cached, Some token_user =>
      let '(a, thrown) :=
        match cached with
        | Some _ => (a, false)
        | None =>
            let a := send a (HttpGet (chat_keys_path chatId)) in
            let keysResponse := ChatRoutes.get_keys db token_user chatId in
            if ok keysResponse then
              match jfield "chat_keys" (body keysResponse) with
              | Some (JArr chat_keys) =>
                  match find_our_key (currentUser a) chat_keys with
                  | Throw _ => (a, true)
                  | Ok None => (a, false)
                  | Ok (Some ourKey) =>
                      match CryptoHelper.decryptChatKey (device a)
                              (default "" (str_field "encrypted_chat_key" ourKey))
                              chatId with
                      | (d, Ok _) => (with_device a d, false)
                      | (d, Throw _) => (with_device a d, true)
                      end
                  end
              | _ => (a, true)
              end
            else (a, false)
        end in
      if thrown then (a, None)
      else
        let a := send a (HttpGet ("/api/chats/" ++ chatId ++ "/messages?limit=50")) in
        let response := ChatRoutes.get_messages db token_user chatId 50 in
        if negb (ok response) then (a, None)
        else
          match jfield "messages" (body response) with
          | Some (JArr messages) => (a, Some (token_user, messages))
          | _ => (a, None)
          end
  end.

(** [loadMessageHistory(chatId, retryAttempt)], by recursion on the
    number [2 - retryAttempt] of calls that still pass the guard
    [if (retryAttempt > 1) return]. *)
Fixpoint loadMessageHistory_from (left : nat) (db : Db) (a : App) (chatId : string)
    : App :=
  match left with
  | O => a
  | S left' =>
      match history_prologue db a chatId with
      | (a, None) => a
      | (a, Some (token_user, messages)) =>
          decrypt_each (λ a, loadMessageHistory_from left' db a chatId)
            db token_user chatId messages false a
      end
  end.

Definition loadMessageHistory (db : Db) (a : App) (chatId : string)
    (retryAttempt : nat) : App :=
  loadMessageHistory_from (2 - retryAttempt) db a chatId.

Definition share_key_request (chatId recipient_id encrypted_chat_key : string)
    : Request :=
  HttpPost ("/api/chats/" ++ chatId ++ "/share-key")
    (JObj [("recipient_id", JStr recipient_id);
           ("encrypted_chat_key", JStr encrypted_chat_key)]).

(** The branch [if (!chatKey)] at the end of the key resolution of
    [handleStartChat]: generate a key, wrap it for the current user and
    for the recipient, and post both copies.  [freshKey] is the key
    [generateChatKey] draws. *)
Definition generate_and_share (db : Db) (a : App)
    (token_user chatId recipientId freshKey : string) : Db * App * result string :=
  let '(d, chatKey) := CryptoHelper.generateChatKey (device a) chatId freshKey in
  let a := with_device a d in
  match publicKey (device a) with
  | None => (db, a, Throw "TypeError")
  | Some myPublicKey =>
      match CryptoHelper.importPublicKey (JStr myPublicKey), currentUser a with
      | Throw e, _ => (db, a, Throw e)
      | Ok _, None => (db, a, Throw "TypeError")
      | Ok importedMyPublicKey, Some me =>
          let myEncryptedChatKey :=
            CryptoHelper.encryptChatKey chatKey importedMyPublicKey in
          let a := send a (share_key_request chatId me myEncryptedChatKey) in
          let db := (ChatRoutes.route_share_key db token_user chatId me
                       myEncryptedChatKey).1 in
          let a := send a (HttpGet ("/api/users/" ++ recipientId ++ "/public-key")) in
          let pubKeyResponse := UserRoutes.get_public_key db token_user recipientId in
          if negb (ok pubKeyResponse)
          then (db, a, Throw "Recipient public key not found")
          else
            match CryptoHelper.importPublicKey
                    (default JNull (jfield "public_key" (body pubKeyResponse))) with
            | Throw e => (db, a, Throw e)
            | Ok recipientPublicKey =>
                let recipientEncryptedChatKey :=
                  CryptoHelper.encryptChatKey chatKey recipientPublicKey in
                let a := send a (share_key_request chatId recipientId
                                   recipientEncryptedChatKey) in
                let db := (ChatRoutes.route_share_key db token_user chatId recipientId
                             recipientEncryptedChatKey).1 in
                (db, a, Ok chatKey)
            end
      end
  end.

(** The key resolution of [handleStartChat]: the local cache, then our
    own record on the server, then a new key. *)
Definition resolveChatKey (db : Db) (a : App)
    (token_user chatId recipientId freshKey : string) : Db * App * result string :=
  let '(d, cached) := CryptoHelper.loadChatKey (device a) chatId in
  let a := with_device a d in
  match cached with
  | Throw e => (db, a, Throw e)
  | Ok (Some chatKey) => (db, a, Ok chatKey)
  | Ok None =>
      let a := send a (HttpGet (chat_keys_path chatId)) in
      let keysResponse := ChatRoutes.get_keys db token_user chatId in
      let '(a, fetched) :=
        if ok keysResponse then
          match jfield "chat_keys" (body keysResponse) with
          | Some (JArr chat_keys) =>
              match find_our_key (currentUser a) chat_keys with
              | Throw e => (a, Throw e)
              | Ok None => (a, Ok None)
              | Ok (Some ourKey) =>
                  match CryptoHelper.decryptChatKey (device a)
                          (default "" (str_field "encrypted_chat_key" ourKey))
                          chatId with
                  | (d, Ok chatKey) => (with_device a d, Ok (Some chatKey))
                  | (d, Throw _) => (with_device a d, Ok None)
                  end
              end
          | _ => (a, Throw "TypeError")
          end
        else (a, Ok None) in
      match fetched with
      | Throw e => (db, a, Throw e)
      | Ok (Some chatKey) => (db, a, Ok chatKey)
      | Ok None => generate_and_share db a token_user chatId recipientId freshKey
      end
  end.

(** [handleStartChat]; [recipientId] is the trimmed text of the input
    field, [uuid] the identifier the server draws if it creates the chat. *)
Definition handleStartChat (db : Db) (a : App) (recipientId uuid freshKey : string)
    : Db * App :=
  if bool_decide (recipientId = "")
  then (db, showAlert a "error" "Please enter a recipient user ID")
  else if negb (uuidRegex_test recipientId)
  then (db, showAlert a "error"
              "Invalid user ID format. Should be a UUID like: 12345678-1234-1234-1234-123456789012")
  else
    match session a with
    | None => (db, showAlert a "error" "TypeError")
    | Some token_user =>
        let a := send a (HttpPost ("/api/chats/direct/" ++ recipientId) JNull) in
        let '(db, response) := ChatRoutes.post_direct db token_user recipientId uuid in
        if negb (ok response) then
          (db, showAlert a "error"
                 match str_field "error" (body response) with
                 | Some e => if bool_decide (e = "") then "Failed to create chat" else e
                 | None => "Failed to create chat"
                 end)
        else
          match jfield "chat" (body response) ≫= str_field "id" with
          | None => (db, showAlert a "error" "TypeError")
          | Some chatId =>
              let a := with_chat_ids a (Some chatId) (Some recipientId) in
              match resolveChatKey db a token_user chatId recipientId freshKey with
              | (db, a, Throw e) => (db, showAlert a "error" e)
              | (db, a, Ok _) =>
                  let a := showAlert a "success"
                             "Chat ready! You can now send messages." in
                  (db, loadMessageHistory db a chatId 0)
              end
          end
    end.

End Handlers.

(** The reply of [supabaseClient.auth.signUp]: an error, no user, or a
    user with or without a session. *)
Inductive SignUpReply :=
  | SignUpError (message : string)
  | SignUpNoUser
  | SignUpUser (id : string) (has_session : bool).

(** What [handleSignup] draws: the master key and the nonce of its
    wrapping, the RSA pair with the JWK text of the private key, and the
    nonce under which the private key is wrapped. *)
Record SignupDraw := mkSignupDraw {
  drawn_masterKey : string;
  drawn_masterIv : string;
  drawn_privateKey : string;
  drawn_publicKey : string;
  drawn_privateJwk : string;
  drawn_privateIv : string
}.

(** The data of a 'message:send' event. *)
Record MessageSend := mkMessageSend {
  ms_chatId : string;
  ms_encryptedContent : string;
  ms_iv : string;
  ms_messageType : string
}.

(** [errorData.error || response.statusText] *)
Definition error_or_statusText (r : Response) (statusText : string) : string :=
  match str_field "error" (body r) with
  | Some e => if bool_decide (e = "") then statusText else e
  | None => statusText
  end.

Section Messaging.
Context `{WebCrypto} `{Encryption} `{Validation}.

(** [handleSignup].  [reply] is the provider's answer to the sign-up,
    [statusText] the reason phrase of a failed response.  Step 10, which
    shows the recovery text in a dialog, leaves the state as it is. *)
Definition handleSignup (db : Db) (a : App) (email password : string)
    (reply : SignUpReply) (draw : SignupDraw) (now statusText : string) : Db * App :=
  if bool_decide (email = "") || bool_decide (password = "")
  then (db, showAlert a "error" "Please fill in all fields")
  else if (String.length password <? 6)%nat
  then (db, showAlert a "error" "Password must be at least 6 characters")
  else
    let masterKey := drawn_masterKey draw in
    let encryptedMasterKey :=
      CryptoHelper.encryptMasterKeyWithPassword masterKey password email
        (drawn_masterIv draw) in
    let authPassword := CryptoHelper.deriveAuthPassword password email in
    let a := send a (AuthSignUp email authPassword) in
    match reply with
    | SignUpError message => (db, showAlert a "error" message)
    | SignUpNoUser => (db, a)
    | SignUpUser user has_session =>
        let a := with_currentUser a (Some user) in
        if negb has_session then (db, showAlert a "error" "TypeError")
        else
          let a := with_session a (Some user) in
          let a := send a (HttpGet "/api/auth/me") in
          let '(db, profileResponse) := AuthRoutes.get_me db user in
          if negb (ok profileResponse) then
            (db, showAlert a "error"
                   ("Failed to create user profile: "
                      ++ error_or_statusText profileResponse statusText))
          else
            let a := with_device a
              (CryptoHelper.generateUserKeys (device a) (drawn_privateKey draw)
                 (drawn_publicKey draw) (drawn_privateJwk draw)) in
            match privateKey (device a) with
            | None => (db, showAlert a "error" "TypeError")
            | Some rsaPrivateKey =>
                let encryptedRSAPrivateKey :=
                  CryptoHelper.encryptRSAPrivateKey rsaPrivateKey masterKey
                    (drawn_privateIv draw) in
                let a := with_device a
                  (CryptoHelper.storeMasterKeyInIndexedDB (device a) masterKey) in
                match CryptoHelper.exportPublicKey (device a) with
                | Throw e => (db, showAlert a "error" e)
                | Ok publicKeyBase64 =>
                    let reqbody :=
                      JObj [("rsa_public_key", JStr publicKeyBase64);
                            ("encrypted_master_key", encryptedMasterKey);
                            ("encrypted_rsa_private_key", encryptedRSAPrivateKey)] in
                    let a := send a (HttpPost "/api/keys" reqbody) in
                    let '(db, response) := KeysRoutes.post_root db user reqbody now in
                    if negb (ok response) then
                      (db, showAlert a "error"
                             ("Failed to upload keys: "
                                ++ error_or_statusText response statusText))
                    else
                      let a := showAlert a "success"
                        "Account created! IMPORTANT: Save your recovery key before continuing." in
                      (db, initializeChat a)
                end
            end
    end.

(** [sendMessage]; [message] is the trimmed text of the input field,
    [iv] the nonce drawn.  The result holds the event put on the socket,
    if the handler gets that far. *)
Definition sendMessage (a : App) (message iv : string) : App * option MessageSend :=
  match currentChatId a with
  | None => (a, None)
  | Some chatId =>
      if bool_decide (message = "") || bool_decide (chatId = "") then (a, None)
      else
        match CryptoHelper.encryptMessage (device a) message chatId iv with
        | (d, Throw _) =>
            (showAlert (with_device a d) "error" "Failed to send message", None)
        | (d, Ok (encrypted, iv)) =>
            let a := with_device a d in
            let a := with_messagesDiv a (messagesDiv a ++ [Shown message true]) in
            if socket a then (a, Some (mkMessageSend chatId encrypted iv "text"))
            else (showAlert a "error" "Failed to send message", None)
        end
  end.

(** The listener of 'chat:key:received'. *)
Definition on_chat_key_received (a : App) (data : json) : App :=
  match CryptoHelper.decryptChatKey (device a)
          (default "" (str_field "encrypted_chat_key" data))
          (default "" (str_field "chatId" data)) with
  | (d, Ok _) =>
      showAlert (with_device a d) "success"
        "Chat key received! You can now send messages."
  | (d, Throw _) => with_device a d
  end.

(** [displayReceivedMessage(data)].  The second component is the text of
    the notice 'Cannot decrypt message' that the [catch] adds to the
    pane, if it does; the text of a failed fetch is cut to its fixed
    part. *)
Definition displayReceivedMessage (db : Db) (a : App) (data : json)
    : App * option string :=
  let chatId := default "" (str_field "chat_id" data) in
  let a :=
    match currentChatId a with
    | None => with_chat_ids a (Some chatId) (currentRecipientId a)
    | Some c =>
        if bool_decide (c = "")
        then with_chat_ids a (Some chatId) (currentRecipientId a)
        else a
    end in
  let '(a, thrown) :=
    match chatKeys (device a) !! chatId with
    | Some _ => (a, None)
    | None =>
        match session a with
        | None => (a, Some "Not authenticated - please login again")
        | Some token_user =>
            let a := send a (HttpGet ("/api/chats/" ++ chatId ++ "/my-key")) in
            let response := ChatRoutes.get_my_key db token_user chatId in
            if negb (ok response) then (a, Some "Chat key fetch failed")
            else
              match str_field "encrypted_chat_key" (body response) with
              | None => (a, Some "No chat key returned from server")
              | Some encrypted_chat_key =>
                  if bool_decide (encrypted_chat_key = "")
                  then (a, Some "No chat key returned from server")
                  else
                    match CryptoHelper.decryptChatKey (device a)
                            encrypted_chat_key chatId with
                    | (d, Ok _) => (with_device a d, None)
                    | (d, Throw e) => (with_device a d, Some e)
                    end
              end
        end
    end in
  match thrown with
  | Some e => (a, Some e)
  | None =>
      match CryptoHelper.decryptMessage (device a)
              (default "" (str_field "encrypted_content" data))
              (default "" (str_field "iv" data)) chatId with
      | (d, Ok plaintext) =>
          let a := with_device a d in
          (with_messagesDiv a (messagesDiv a ++ [Shown plaintext false]), None)
      | (d, Throw e) => (with_device a d, Some e)
      end
  end.

(** The listener of 'message:receive': a message of our own is skipped.
    Without a current user the listener throws before it does anything. *)
Definition on_message_receive (db : Db) (a : App) (data : json)
    : App * option string :=
  match currentUser a with
  | None => (a, None)
  | Some me =>
      if bool_decide (str_field "sender_id" data = Some me) then (a, None)
      else displayReceivedMessage db a data
  end.

End Messaging.
End AppJs.

(** ** A symbolic platform, to run the handlers on concrete states

    Keys and ciphertexts are texts that spell out how they were made: a
    ciphertext names the key it was made under, and decryption succeeds
    under that key only. *)

Fixpoint strip_prefix (p s : string) : option string :=
  match p, s with
  | EmptyString, _ => Some s
  | String a p', String b s' => if bool_decide (a = b) then strip_prefix p' s' else None
  | String _ _, EmptyString => None
  end.

Definition symbolic_crypto : WebCrypto := {|
  sha256 s := "sha256(" ++ s ++ ")";
  btoa s := "base64(" ++ s ++ ")";
  aes_key_ok := startsWith "aes:";
  public_key_ok := startsWith "pub:";
  private_key_ok := startsWith "priv:";
  rsa_oaep_encrypt pub raw := "rsa[" ++ pub ++ "]" ++ raw;
  rsa_oaep_decrypt priv ct :=
    name ← strip_prefix "priv:" priv; strip_prefix ("rsa[pub:" ++ name ++ "]") ct;
  pbkdf2_sha256 password salt _ := "aes:pbkdf2(" ++ password ++ "," ++ salt ++ ")";
  aes_gcm_decrypt key iv ct := strip_prefix ("gcm[" ++ key ++ "," ++ iv ++ "]") ct
|}.

(** [s] without its last character, if that is [c]. *)
Fixpoint strip_last (c : ascii) (s : string) : option string :=
  match s with
  | EmptyString => None
  | String a EmptyString => if bool_decide (a = c) then Some "" else None
  | String a s' => String a <$> strip_last c s'
  end.

Definition symbolic_encryption : Encryption := {|
  aes_gcm_encrypt key iv plaintext := "gcm[" ++ key ++ "," ++ iv ++ "]" ++ plaintext;
  atob s := s1 ← strip_prefix "base64(" s; strip_last ")"%char s1
|}.

Definition uuid_validation : Validation := {|
  shareChatKeySchema_ok recipient_id encrypted_chat_key :=
    uuidRegex_test recipient_id && negb (bool_decide (encrypted_chat_key = ""));
  validation_response := res_error 400 "validation"
|}.

Definition alice : string := "a11ce000-0000-4000-8000-000000000001".
Definition bob : string := "b0b00000-0000-4000-8000-000000000002".
Definition carol : string := "ca501000-0000-4000-8000-000000000003".
Definition chat1 : string := "c4a70000-0000-4000-8000-00000000000c".

(** Dave has an account with the provider and nothing on the server yet. *)
Definition dave : string := "da7e0000-0000-4000-8000-000000000004".

(** Bob's id as a user may type it: the regular expression of
    [handleStartChat] takes either case. *)
Definition bob_in_capitals : string := "B0B00000-0000-4000-8000-000000000002".

Definition wrapped_master (name : string) : json :=
  JObj [("wrapped", JStr ("gcm[aes:pbkdf2(" ++ name ++ "-password,salt)," ++ "iv0]aes:master-" ++ name));
        ("iv", JStr "iv0");
        ("salt", JStr "salt")].

Definition wrapped_private (name : string) : json :=
  JObj [("encrypted", JStr ("gcm[aes:master-" ++ name ++ ",iv1]priv:" ++ name));
        ("iv", JStr "iv1")].

Definition upload_body (name : string) : json :=
  JObj [("rsa_public_key", JStr ("pub:" ++ name));
        ("encrypted_master_key", wrapped_master name);
        ("encrypted_rsa_private_key", wrapped_private name)].

Definition key_row (user name : string) : UserKey :=
  mkUserKey user ("pub:" ++ name) (Some (wrapped_master name))
            (Some (wrapped_private name)) "t0".

(** Alice and Bob have signed up and share the direct chat [chat1], whose
    key is on file for both; Carol has signed up and is in no chat. *)
Definition db_chatting : Db := {|
  user_profiles := [alice; bob; carol];
  user_keys := [key_row alice "alice"; key_row bob "bob"; key_row carol "carol"];
  chats := [mkChat chat1 direct [alice; bob] alice];
  chat_keys := [mkChatKey chat1 alice alice "rsa[pub:alice]aes:k1";
                mkChatKey chat1 alice bob "rsa[pub:bob]aes:k1"];
  messages := []
|}.

(** Alice's browser after a login: both keys in the helper, the master
    key in the vault, nothing cached for any chat. *)
Definition alice_device : Device :=
  mkDevice (Some "priv:alice") (Some "pub:alice") ∅ ∅ (DBKeys (Some "aes:master-alice")).

Definition alice_app : App :=
  mkApp alice_device (Some alice) (Some alice) None None true true [] [] [].

(** The same browser holding a chat key for [chat1] that is out of date. *)
Definition alice_app_stale : App :=
  mkApp (mkDevice (Some "priv:alice") (Some "pub:alice")
                  {[chat1 := "aes:k0"]} {["chatKey_" ++ chat1 := "aes:k0"]}
                  (DBKeys (Some "aes:master-alice")))
        (Some alice) (Some alice) (Some chat1) (Some bob) true true [] [] [].

(** A browser whose vault holds a master key of another account. *)
Definition alice_app_foreign_vault : App :=
  mkApp (mkDevice None None ∅ ∅ (DBKeys (Some "aes:master-mallory")))
        (Some alice) None None None false false [] [] [].

(** Alice and Bob have signed up; their chat exists and has no key yet. *)
Definition db_fresh_chat : Db :=
  set_chat_keys db_chatting [].

(** The same, with the chat created by Bob. *)
Definition db_fresh_chat_of_bob : Db :=
  set_chats db_fresh_chat [mkChat chat1 direct [bob; alice] bob].

(** Alice and Bob have signed up and have no chat yet. *)
Definition db_signed_up : Db :=
  set_chats (set_chat_keys db_chatting []) [].

(** The chat after its key was replaced: the record on file for Alice
    wraps the key k2, the one message of the history was encrypted under
    the earlier key k1. *)
Definition db_rekeyed : Db := {|
  user_profiles := [alice; bob; carol];
  user_keys := [key_row alice "alice"; key_row bob "bob"; key_row carol "carol"];
  chats := [mkChat chat1 direct [alice; bob] alice];
  chat_keys := [mkChatKey chat1 bob alice "rsa[pub:alice]aes:k2";
                mkChatKey chat1 bob bob "rsa[pub:bob]aes:k2"];
  messages := [mkMessage chat1 bob "gcm[aes:k1,iv7]see you at noon" "iv7" "t7"]
|}.

(** A history of two messages under the key on file, with a stale key
    cached on the device; and the same history with no record on file. *)
Definition db_history : Db := {|
  user_profiles := [alice; bob; carol];
  user_keys := [key_row alice "alice"; key_row bob "bob"; key_row carol "carol"];
  chats := [mkChat chat1 direct [alice; bob] alice];
  chat_keys := [mkChatKey chat1 bob alice "rsa[pub:alice]aes:k1";
                mkChatKey chat1 bob bob "rsa[pub:bob]aes:k1"];
  messages := [mkMessage chat1 bob "gcm[aes:k1,iv7]see you at noon" "iv7" "t7";
               mkMessage chat1 alice "gcm[aes:k1,iv8]fine" "iv8" "t8"]
|}.

Definition db_history_no_record : Db := set_chat_keys db_history [].

(** Bob's browser after a login, with no chat key cached. *)
Definition bob_app : App :=
  mkApp (mkDevice (Some "priv:bob") (Some "pub:bob") ∅ ∅ (DBKeys (Some "aes:master-bob")))
        (Some bob) (Some bob) None None true true [] [] [].

(** Alice's browser with the chat [chat1] open and its key in memory. *)
Definition alice_app_chatting : App :=
  mkApp (mkDevice (Some "priv:alice") (Some "pub:alice")
                  {[chat1 := "aes:k1"]} {["chatKey_" ++ chat1 := "aes:k1"]}
                  (DBKeys (Some "aes:master-alice")))
        (Some alice) (Some alice) (Some chat1) (Some bob) true true [] [] [].

(** A browser that has never run the application. *)
Definition fresh_app : App :=
  mkApp (mkDevice None None ∅ ∅ NoDB) None None None None false false [] [] [].

(** What Dave's browser draws when he signs up, and his account. *)
Definition dave_email : string := "dave@example.org".
Definition dave_password : string := "tr0ub4dor".
Definition dave_draw : AppJs.SignupDraw :=
  AppJs.mkSignupDraw "aes:master-dave" "iv0" "priv:dave" "pub:dave" "jwk:dave" "iv1".
Definition dave_account : Account :=
  mkAccount dave_email "base64(sha256(tr0ub4dor:auth:dave@example.org))" dave.

(** The account Alice signed up with. *)
Definition alice_email : string := "alice@example.org".
Definition alice_password : string := "correct horse".
Definition alice_account : Account :=
  mkAccount alice_email
    "base64(sha256(correct horse:auth:alice@example.org))" alice.

(** The fetches of a chat's history among a list of requests: each pass
    of [loadMessageHistory] over the batch starts with one. *)
Definition is_history_fetch (chatId : string) (r : Request) : bool :=
  match r with
  | HttpGet path => bool_decide (path = "/api/chats/" ++ chatId ++ "/messages?limit=50")
  | _ => false
  end.

Definition history_fetches (chatId : string) (l : list Request) : nat :=
  length (filter (λ r, is_history_fetch chatId r = true) l).

(** The history after the key was replaced, with a later message under
    the key on file. *)
Definition db_rekeyed_later : Db := {|
  user_profiles := user_profiles db_rekeyed;
  user_keys := user_keys db_rekeyed;
  chats := chats db_rekeyed;
  chat_keys := chat_keys db_rekeyed;
  messages := [mkMessage chat1 bob "gcm[aes:k1,iv7]see you at noon" "iv7" "t7";
               mkMessage chat1 bob "gcm[aes:k2,iv9]are you there" "iv9" "t9"]
|}.

(** ** Properties of the key directory *)

Section DirectoryLemmas.

Lemma single_Some {A} (l : list A) (r : A) : single l = Some r ↔ l = [r].
Proof.
  split.
  - destruct l as [|x [|y l]]; simpl; congruence.
  - intros ->. reflexivity.
Qed.

Lemma single_length {A} (l : list A) : l ≠ [] → (length l ≤ 1)%nat → ∃ r, l = [r].
Proof.
  destruct l as [|x [|y l]]; simpl; intros Hne Hlen; [done | by eexists | lia].
Qed.

(** Rows of the user after every row of the user has been rewritten by a
    function that keeps the key. *)
Lemma rows_of_rewrite (u : string) (f : UserKey → UserKey) (t : list UserKey) :
  (∀ r, user_id (f r) = u) →
  KeysModel.rows_of u ((λ r, if bool_decide (user_id r = u) then f r else r) <$> t)
  = f <$> KeysModel.rows_of u t.
Proof.
  intros Hf. unfold KeysModel.rows_of.
  induction t as [|r t IH]; [done|].
  rewrite fmap_cons, !filter_cons. case_bool_decide as Hr.
  - rewrite decide_True by apply Hf. rewrite decide_True by done.
    by rewrite fmap_cons, IH.
  - rewrite !decide_False by done. exact IH.
Qed.

Lemma slot_rewrite (c u : string) (row : ChatKey) (t : list ChatKey) :
  chat_id row = c → recipient_id row = u →
  KeysModel.slot c u
    ((λ r, if bool_decide (chat_id r = c ∧ recipient_id r = u) then row else r) <$> t)
  = (λ _, row) <$> KeysModel.slot c u t.
Proof.
  intros Hc Hu. unfold KeysModel.slot.
  induction t as [|r t IH]; [done|].
  rewrite fmap_cons, !filter_cons. case_bool_decide as Hr.
  - rewrite decide_True by done. rewrite decide_True by done.
    by rewrite fmap_cons, IH.
  - rewrite !decide_False by done. exact IH.
Qed.

(** Rewriting the rows of a key twice is rewriting them once. *)
Lemma rewrite_twice {A} (P : A → Prop) `{∀ x, Decision (P x)} (f g : A → A)
    (t : list A) :
  (∀ r, P r → P (f r)) →
  (λ r, if bool_decide (P r) then g r else r)
    <$> ((λ r, if bool_decide (P r) then f r else r) <$> t)
  = (λ r, if bool_decide (P r) then g (f r) else r) <$> t.
Proof.
  intros Hf. rewrite <- list_fmap_compose. apply list_fmap_ext.
  intros _ r _. simpl. destruct (bool_decide_reflect (P r)) as [Hr|Hr].
  - rewrite bool_decide_true by auto. done.
  - rewrite bool_decide_false by done. done.
Qed.

(** What a handler does with a text that Postgres reads as a uuid. *)
Lemma read_bind {A} (u : string) (f : string → option A) : Some u ≫= f = f u.
Proof. reflexivity. Qed.

Lemma read_default {A} (d : A) (f : string → A) (u : string) :
  default d (f <$> Some u) = f u.
Proof. reflexivity. Qed.

Lemma deleteUserChatKeys_spec (db : Db) (u : string) (k : ChatKey) :
  k ∈ chat_keys (KeysModel.deleteUserChatKeys db u).1
  ↔ k ∈ chat_keys db ∧ recipient_id k ≠ u ∧ sender_id k ≠ u.
Proof.
  unfold KeysModel.deleteUserChatKeys. simpl.
  rewrite !list_elem_of_filter. tauto.
Qed.

End DirectoryLemmas.
Section DirectoryProps.

Lemma rows_of_nil_or (db : Db) (u : string) :
  pk_user_keys db →
  KeysModel.rows_of u (user_keys db) = [] ∨ ∃ r, KeysModel.rows_of u (user_keys db) = [r].
Proof.
  intros Hpk. destruct (KeysModel.rows_of u (user_keys db)) as [|r l] eqn:E; [by left|].
  right. specialize (Hpk u). unfold KeysModel.rows_of in E. rewrite E in Hpk.
  destruct l; [by eexists | simpl in Hpk; lia].
Qed.

(** What an upsert of [user_keys] leaves for the user. *)
Lemma upsert_user_key_rows (db : Db) (u : string) (f : UserKey → UserKey)
    (fresh : UserKey) :
  (∀ r, user_id (f r) = u) → user_id fresh = u →
  KeysModel.rows_of u (user_keys (KeysModel.upsert_user_key db u f fresh).1)
  = if bool_decide (KeysModel.rows_of u (user_keys db) ≠ [])
    then f <$> KeysModel.rows_of u (user_keys db)
    else if bool_decide (u ∈ user_profiles db) then [fresh] else [].
Proof.
  intros Hf Hfresh. unfold KeysModel.upsert_user_key.
  case_bool_decide as Hrows; simpl.
  - by apply rows_of_rewrite.
  - case_bool_decide as Hprof; simpl.
    + unfold KeysModel.rows_of in *. rewrite filter_app.
      rewrite Hrows. simpl.
      rewrite filter_cons, decide_True by done. done.
    + exact Hrows.
Qed.

Lemma upsert_user_key_chat_keys (db : Db) (u : string) (f : UserKey → UserKey)
    (fresh : UserKey) :
  chat_keys (KeysModel.upsert_user_key db u f fresh).1 = chat_keys db.
Proof.
  unfold KeysModel.upsert_user_key. repeat case_bool_decide; reflexivity.
Qed.

Lemma uploadUserKeys_stored (db : Db) (u pk : string) (emk epk : json) (now : string) :
  pk_user_keys db → u ∈ user_profiles db →
  KeysModel.getUserKeys (KeysModel.uploadUserKeys db u pk emk epk now).1 u
  = Some (mkUserKey u pk (Some emk) (Some epk) now).
Proof.
  intros Hpk Hprof. unfold KeysModel.getUserKeys, KeysModel.uploadUserKeys.
  rewrite upsert_user_key_rows by done.
  case_bool_decide as Hrows.
  - destruct (rows_of_nil_or db u Hpk) as [E|[r E]]; [done|]. by rewrite E.
  - by rewrite bool_decide_true.
Qed.

Lemma joi_string_required_None (l : string) (v : option json) :
  joi_string_required l v = None → ∃ s, v = Some (JStr s) ∧ s ≠ "".
Proof.
  unfold joi_string_required. destruct v as [[| |s| |]|]; try discriminate.
  case_bool_decide; [discriminate|]. intros _. by exists s.
Qed.

Lemma uploadKeysSchema_fields (reqbody : json) :
  uploadKeysSchema reqbody = None →
  ∃ pk emk epk,
    pk ≠ ""
    ∧ jfield "rsa_public_key" reqbody = Some (JStr pk)
    ∧ jfield "encrypted_master_key" reqbody = Some emk
    ∧ jfield "encrypted_rsa_private_key" reqbody = Some epk.
Proof.
  unfold uploadKeysSchema. destruct reqbody as [| | | |fields]; try discriminate.
  unfold joi_object at 1. unfold joi_first_error.
  cbn -[jfield joi_object joi_string_required].
  destruct (joi_string_required "rsa_public_key" _) as [e|] eqn:E1.
  { rewrite bool_decide_true by done. discriminate. }
  apply joi_string_required_None in E1 as (pk & E1 & Hpk).
  rewrite bool_decide_false by (intros ?; done).
  destruct (joi_object "encrypted_master_key" _ _) as [e|] eqn:E2.
  { rewrite bool_decide_true by done. discriminate. }
  rewrite bool_decide_false by (intros ?; done).
  destruct (joi_object "encrypted_rsa_private_key" _ _) as [e|] eqn:E3.
  { rewrite bool_decide_true by done. discriminate. }
  intros _. unfold joi_object in E2, E3.
  destruct (jfield "encrypted_master_key" (JObj fields)) as [emk|] eqn:F2; [|done].
  destruct (jfield "encrypted_rsa_private_key" (JObj fields)) as [epk|] eqn:F3; [|done].
  by exists pk, emk, epk.
Qed.

End DirectoryProps.

Section DirectoryClaims.

Lemma getPublicKey_rows (db : Db) (u : string) :
  KeysModel.getPublicKey db u ≠ None → ∃ r, KeysModel.rows_of u (user_keys db) = [r].
Proof.
  unfold KeysModel.getPublicKey.
  destruct (single _) as [r|] eqn:E; [|done].
  apply single_Some in E. by exists r.
Qed.

Lemma not_ok_error (n : nat) (msg : string) :
  (n < 200 ∨ 300 ≤ n)%nat → ok (res_error n msg) = false.
Proof.
  intros Hn. unfold ok, res_error. cbn [status].
  apply andb_false_iff. rewrite Nat.leb_gt, Nat.ltb_ge. lia.
Qed.

(** C1 (as amended).  The account-keys upload, POST /api/keys with a body
    that passes its schema, upserts the three keys of the caller and
    answers with a message only: the reply has no [key_rotation] field and
    the wrapped conversation keys are left as they were, whatever was on
    file for the caller before. *)
Theorem post_keys_upserts_without_rotation
    (db : Db) (caller : string) (reqbody : json) (now : string) :
  uploadKeysSchema reqbody = None →
  ∃ pk emk epk,
    jfield "rsa_public_key" reqbody = Some (JStr pk)
    ∧ jfield "encrypted_master_key" reqbody = Some emk
    ∧ jfield "encrypted_rsa_private_key" reqbody = Some epk
    ∧ (KeysRoutes.post_root db caller reqbody now).1
      = (KeysModel.uploadUserKeys db caller pk emk epk now).1
    ∧ (KeysRoutes.post_root db caller reqbody now).2
      = res_json (JObj [("message", JStr "Keys uploaded successfully")])
    ∧ jfield "key_rotation" (body (KeysRoutes.post_root db caller reqbody now).2) = None
    ∧ chat_keys (KeysRoutes.post_root db caller reqbody now).1 = chat_keys db
    ∧ (pk_user_keys db → caller ∈ user_profiles db →
       KeysModel.getUserKeys (KeysRoutes.post_root db caller reqbody now).1 caller
       = Some (mkUserKey caller pk (Some emk) (Some epk) now)).
Proof.
  intros Hvalid.
  destruct (uploadKeysSchema_fields reqbody Hvalid) as (pk & emk & epk & _ & F1 & F2 & F3).
  exists pk, emk, epk. unfold KeysRoutes.post_root.
  rewrite Hvalid, F1, F2, F3. cbn [fst snd].
  repeat split; try reflexivity.
  - apply upsert_user_key_chat_keys.
  - intros Hpk Hprof. by apply uploadUserKeys_stored.
Qed.

(** C2.  A user who uploads a public key through POST
    /api/users/public-key while one is on file gets the reply
    [key_rotation: true], and afterwards no wrapped conversation key names
    that user as recipient or as sender: not in the table, and not in the
    listing of any chat for any member. *)
Theorem public_key_rotation_deletes_chat_keys
    (db : Db) (caller public_key now : string) :
  KeysModel.getPublicKey db caller ≠ None →
  status (UserRoutes.post_public_key db caller public_key now).2 = 200
  ∧ jfield "key_rotation" (body (UserRoutes.post_public_key db caller public_key now).2)
    = Some (JBool true)
  ∧ (∀ k, k ∈ chat_keys (UserRoutes.post_public_key db caller public_key now).1 →
          recipient_id k ≠ caller ∧ sender_id k ≠ caller)
  ∧ (∀ viewer chatId,
       ok (ChatRoutes.get_keys (UserRoutes.post_public_key db caller public_key now).1
             viewer chatId) = true →
       ∃ listed,
         body (ChatRoutes.get_keys (UserRoutes.post_public_key db caller public_key now).1
                 viewer chatId)
         = JObj [("chat_keys", JArr (json_of_ChatKey <$> listed))]
         ∧ ∀ k, k ∈ listed → recipient_id k ≠ caller ∧ sender_id k ≠ caller).
Proof.
  intros Hkey. destruct (getPublicKey_rows db caller Hkey) as [r0 Hrows].
  assert (Hres : ∃ row,
    (KeysModel.upsertPublicKey db caller public_key now).2 = Some row).
  { unfold KeysModel.upsertPublicKey, KeysModel.upsert_user_key.
    rewrite bool_decide_true by (rewrite Hrows; done). cbn [snd].
    rewrite rows_of_rewrite by done. rewrite Hrows. by eexists. }
  destruct Hres as [row Hres].
  unfold UserRoutes.post_public_key. rewrite (bool_decide_true _ Hkey).
  destruct (KeysModel.upsertPublicKey db caller public_key now) as [db1 result].
  cbn [snd] in Hres. subst result. cbn [fst snd].
  assert (Hgone : ∀ k, k ∈ chat_keys (KeysModel.deleteUserChatKeys db1 caller).1 →
                       recipient_id k ≠ caller ∧ sender_id k ≠ caller).
  { intros k Hk. apply deleteUserChatKeys_spec in Hk. tauto. }
  repeat split; try reflexivity; try (by apply Hgone).
  intros viewer chatId Hok.
  exists (default [] (KeysModel.getAllChatKeys (KeysModel.deleteUserChatKeys db1 caller).1
                        <$> pg_uuid chatId)).
  split.
  - revert Hok. unfold ChatRoutes.get_keys, ChatRoutes.with_chat.
    destruct (pg_uuid chatId ≫= ChatModel.getChatById _) as [chat|]; cbn [snd].
    + destruct (negb _); cbn [snd]; [|done].
      rewrite not_ok_error by lia. done.
    + rewrite not_ok_error by lia. done.
  - intros k Hk. destruct (pg_uuid chatId) as [c|]; simpl in Hk;
      [|by apply elem_of_nil in Hk].
    apply Hgone. unfold KeysModel.getAllChatKeys in Hk.
    apply list_elem_of_filter in Hk. tauto.
Qed.

(** The public-key route answers from the rows of [user_keys] whose
    [user_id] is the uuid read from the path. *)
Lemma get_public_key_rows (db : Db) (caller userId u : string) :
  pg_uuid userId = Some u →
  UserRoutes.get_public_key db caller userId
  = match KeysModel.rows_of u (user_keys db) with
    | [row] => if bool_decide (public_key row = "")
               then res_error 404 "Public key not found"
               else res_json (JObj [("public_key", JStr (public_key row))])
    | _ => res_error 404 "Public key not found"
    end.
Proof.
  intros Hu. unfold UserRoutes.get_public_key, KeysModel.getPublicKey.
  rewrite Hu. cbn [mbind option_bind].
  destruct (KeysModel.rows_of u (user_keys db)) as [|row [|row' rows]]; cbn [single];
    [done| |done].
  by case_bool_decide.
Qed.

(** C8.  GET /api/keys/:userId for a user other than the caller answers
    403 Forbidden with an error body and none of the key fields.  GET
    /api/users/:userId/public-key answers any caller alike, from what is
    on file for the user the path names: with a row of that user on file
    whose public key is not empty, 200 and that public key; with no row
    of that user on file, or a row with an empty key, 404.  Neither
    answer has a wrapped key in it. *)
Theorem account_keys_own_only_public_key_for_all (db : Db) (caller userId : string) :
  (userId ≠ caller →
     KeysRoutes.get_userId db caller userId = res_error 403 "Forbidden"
     ∧ jfield "encrypted_master_key" (body (KeysRoutes.get_userId db caller userId)) = None
     ∧ jfield "encrypted_rsa_private_key" (body (KeysRoutes.get_userId db caller userId)) = None
     ∧ jfield "rsa_public_key" (body (KeysRoutes.get_userId db caller userId)) = None)
  ∧ (∀ u row,
       pg_uuid userId = Some u → pk_user_keys db →
       row ∈ user_keys db → user_id row = u → public_key row ≠ "" →
       UserRoutes.get_public_key db caller userId
       = mkResponse 200 (JObj [("public_key", JStr (public_key row))]))
  ∧ (∀ u,
       pg_uuid userId = Some u →
       (∀ row, row ∈ user_keys db → user_id row = u → public_key row = "") →
       UserRoutes.get_public_key db caller userId
       = res_error 404 "Public key not found")
  ∧ (∀ caller',
       UserRoutes.get_public_key db caller' userId
       = UserRoutes.get_public_key db caller userId)
  ∧ jfield "encrypted_master_key" (body (UserRoutes.get_public_key db caller userId))
    = None
  ∧ jfield "encrypted_rsa_private_key" (body (UserRoutes.get_public_key db caller userId))
    = None.
Proof.
  split_and!.
  - intros Hother. unfold KeysRoutes.get_userId.
    rewrite bool_decide_false by done. simpl. done.
  - intros u row Hu Hpk Hrow Hid Hkey.
    rewrite (get_public_key_rows db caller userId u Hu).
    assert (Hin : row ∈ KeysModel.rows_of u (user_keys db)).
    { unfold KeysModel.rows_of. by apply list_elem_of_filter. }
    destruct (rows_of_nil_or db u Hpk) as [E|[r E]]; rewrite E in Hin |- *.
    + by apply elem_of_nil in Hin.
    + apply list_elem_of_singleton in Hin as <-.
      by rewrite bool_decide_false.
  - intros u Hu Hnone.
    rewrite (get_public_key_rows db caller userId u Hu).
    destruct (KeysModel.rows_of u (user_keys db)) as [|row [|row' rows]] eqn:E;
      [done| |done].
    assert (Hin : row ∈ KeysModel.rows_of u (user_keys db))
      by (rewrite E; apply list_elem_of_here).
    unfold KeysModel.rows_of in Hin. apply list_elem_of_filter in Hin as [Hid Hin].
    by rewrite bool_decide_true by by apply Hnone.
  - done.
  - unfold UserRoutes.get_public_key.
    by destruct (pg_uuid userId ≫= KeysModel.getPublicKey db).
  - unfold UserRoutes.get_public_key.
    by destruct (pg_uuid userId ≫= KeysModel.getPublicKey db).
Qed.

End DirectoryClaims.

Section UpsertClaims.

Lemma rewrite_none {A} (P : A → Prop) `{∀ x, Decision (P x)} (g : A → A) (t : list A) :
  filter P t = [] → (λ r, if bool_decide (P r) then g r else r) <$> t = t.
Proof.
  intros Hnone. induction t as [|r t IH]; [done|].
  rewrite filter_cons in Hnone. destruct (decide (P r)) as [Hr|Hr]; [done|].
  rewrite fmap_cons, bool_decide_false by done. by rewrite IH.
Qed.

Lemma uploadUserKeys_twice (db : Db) (u pk : string) (emk epk : json) (t1 t2 : string) :
  (KeysModel.uploadUserKeys (KeysModel.uploadUserKeys db u pk emk epk t1).1
     u pk emk epk t2).1
  = (KeysModel.uploadUserKeys db u pk emk epk t2).1.
Proof.
  unfold KeysModel.uploadUserKeys.
  set (row1 := mkUserKey u pk (Some emk) (Some epk) t1).
  set (row2 := mkUserKey u pk (Some emk) (Some epk) t2).
  destruct (decide (KeysModel.rows_of u (user_keys db) = [])) as [Hnil|Hold].
  - destruct (decide (u ∈ user_profiles db)) as [Hprof|Hprof].
    + assert (E : ∀ row, (KeysModel.upsert_user_key db u (λ _, row) row).1
                         = set_user_keys db (user_keys db ++ [row])).
      { intros row. unfold KeysModel.upsert_user_key.
        rewrite bool_decide_false by (by intros ?).
        by rewrite bool_decide_true. }
      rewrite !E. unfold KeysModel.upsert_user_key.
      cbn [user_keys set_user_keys].
      rewrite bool_decide_true.
      2:{ unfold KeysModel.rows_of. rewrite filter_app, filter_cons.
          rewrite decide_True by done. by destruct (filter _ (user_keys db)). }
      cbn [fst]. unfold set_user_keys. cbn. f_equal.
      rewrite fmap_app. cbn. rewrite bool_decide_true by done.
      f_equal. by apply (rewrite_none (λ r, user_id r = u)).
    + assert (E : ∀ row, (KeysModel.upsert_user_key db u (λ _, row) row).1 = db).
      { intros row. unfold KeysModel.upsert_user_key.
        rewrite bool_decide_false by (by intros ?).
        by rewrite bool_decide_false. }
      by rewrite !E.
  - assert (E : ∀ d row, KeysModel.rows_of u (user_keys d) ≠ [] →
        (KeysModel.upsert_user_key d u (λ _, row) row).1
        = set_user_keys d
            ((λ r, if bool_decide (user_id r = u) then row else r) <$> user_keys d)).
    { intros d row Hd. unfold KeysModel.upsert_user_key.
      by rewrite bool_decide_true. }
    rewrite (E db row1 Hold), (E db row2 Hold). rewrite E.
    + unfold set_user_keys. cbn. f_equal.
      apply (rewrite_twice (λ r, user_id r = u) (λ _, row1) (λ _, row2)). done.
    + cbn [user_keys set_user_keys]. rewrite rows_of_rewrite by done.
      by destruct (KeysModel.rows_of u (user_keys db)).
Qed.

Lemma getChatById_elem (db : Db) (chatId : string) (chat : Chat) :
  ChatModel.getChatById db chatId = Some chat →
  chatId ∈ (c_id <$> chats db) ∧ c_id chat = chatId.
Proof.
  unfold ChatModel.getChatById. intros Hs. apply single_Some in Hs.
  assert (Hin : chat ∈ filter (λ c, c_id c = chatId) (chats db))
    by (rewrite Hs; apply list_elem_of_here).
  apply list_elem_of_filter in Hin as [Hid Hin]. split; [|done].
  rewrite <- Hid. by apply list_elem_of_fmap_2.
Qed.

(** A share of a chat key on a directory that satisfies the references:
    the row is returned, and it is the only row of its slot. *)
Lemma shareChatKey_stores (db : Db) (c s r e : string) :
  (length (KeysModel.slot c r (chat_keys db)) ≤ 1)%nat →
  c ∈ (c_id <$> chats db) → s ∈ user_profiles db → r ∈ user_profiles db →
  (KeysModel.shareChatKey db c s r e).2 = Some (mkChatKey c s r e)
  ∧ KeysModel.slot c r (chat_keys (KeysModel.shareChatKey db c s r e).1)
    = [mkChatKey c s r e]
  ∧ chats (KeysModel.shareChatKey db c s r e).1 = chats db
  ∧ user_profiles (KeysModel.shareChatKey db c s r e).1 = user_profiles db.
Proof.
  intros Hlen Hc Hs Hr. unfold KeysModel.shareChatKey.
  case_bool_decide as Hold.
  - rewrite (bool_decide_true _ Hs). cbn [orb fst snd chat_keys set_chat_keys].
    rewrite slot_rewrite by done.
    destruct (single_length _ Hold Hlen) as [r0 ->]. done.
  - rewrite (bool_decide_true _ Hc), (bool_decide_true _ Hs), (bool_decide_true _ Hr).
    cbn [andb fst snd chat_keys set_chat_keys].
    unfold KeysModel.slot in *. rewrite filter_app, Hold.
    rewrite filter_cons, decide_True by done. done.
Qed.

(** C7.  Both key writes of the directory are upserts.  Uploading the same
    account keys for the same user twice leaves what one upload leaves
    (the row carries the time of the last write), which is one row for the
    user.  Sharing a chat key for the same chat and recipient twice
    succeeds both times and leaves one row, the one written last. *)
Theorem key_writes_are_upserts
    (db : Db) (u pk : string) (emk epk : json) (t1 t2 : string)
    (c s1 s2 r e1 e2 : string) :
  pk_user_keys db → u ∈ user_profiles db →
  unique_chat_keys db →
  c ∈ (c_id <$> chats db) →
  s1 ∈ user_profiles db → s2 ∈ user_profiles db → r ∈ user_profiles db →
  let once := (KeysModel.uploadUserKeys db u pk emk epk t2).1 in
  let twice := (KeysModel.uploadUserKeys
                  (KeysModel.uploadUserKeys db u pk emk epk t1).1 u pk emk epk t2).1 in
  let first := KeysModel.shareChatKey db c s1 r e1 in
  let second := KeysModel.shareChatKey first.1 c s2 r e2 in
  twice = once
  ∧ KeysModel.rows_of u (user_keys (KeysModel.uploadUserKeys db u pk emk epk t1).1)
    = [mkUserKey u pk (Some emk) (Some epk) t1]
  ∧ KeysModel.rows_of u (user_keys twice) = [mkUserKey u pk (Some emk) (Some epk) t2]
  ∧ first.2 = Some (mkChatKey c s1 r e1)
  ∧ second.2 = Some (mkChatKey c s2 r e2)
  ∧ KeysModel.slot c r (chat_keys second.1) = [mkChatKey c s2 r e2].
Proof.
  intros Hpk Hu Huniq Hc Hs1 Hs2 Hr once twice first second.
  assert (Hone : ∀ t, KeysModel.rows_of u
              (user_keys (KeysModel.uploadUserKeys db u pk emk epk t).1)
            = [mkUserKey u pk (Some emk) (Some epk) t]).
  { intros t. pose proof (uploadUserKeys_stored db u pk emk epk t Hpk Hu) as Hst.
    unfold KeysModel.getUserKeys in Hst. by apply single_Some in Hst. }
  destruct (shareChatKey_stores db c s1 r e1 (Huniq c r) Hc Hs1 Hr)
    as (Hf1 & Hf2 & Hf3 & Hf4).
  fold first in Hf1, Hf2, Hf3, Hf4.
  destruct (shareChatKey_stores first.1 c s2 r e2) as (Hg1 & Hg2 & _).
  { rewrite Hf2. simpl. lia. }
  { by rewrite Hf3. }
  { by rewrite Hf4. }
  { by rewrite Hf4. }
  subst twice once. rewrite uploadUserKeys_twice.
  repeat split; auto.
Qed.

(** C9.  In a chat of which the caller is a member, for a recipient who is
    not: the HTTP route POST /api/chats/:chatId/share-key answers 400 and
    leaves the directory as it was, while the socket handler
    'chat:key:share' stores the record for that recipient (who only needs
    a profile) and emits 'chat:key:received' to the recipient's room.
    [c] and [r] are the uuids that Postgres reads from the texts [chatId]
    and [recipientId] of the request: the route looks for the text
    [recipientId] among the participants, the record is stored under
    [c] and [r], and the room and the event carry the texts. *)
Theorem share_key_recipient_check_http_only
    (db : Db) (caller chatId recipientId encrypted_key c r : string) (chat : Chat) :
  pg_uuid chatId = Some c → pg_uuid recipientId = Some r →
  ChatModel.getChatById db c = Some chat →
  caller ∈ participants chat →
  recipientId ∉ participants chat →
  caller ∈ user_profiles db → r ∈ user_profiles db →
  unique_chat_keys db →
  ChatRoutes.post_share_key db caller chatId recipientId encrypted_key
  = (db, res_error 400 "Recipient is not in this chat")
  ∧ mkChatKey c caller r encrypted_key
    ∈ chat_keys (Socket.chat_key_share db caller chatId recipientId encrypted_key).1
  ∧ KeysModel.getChatKey
      (Socket.chat_key_share db caller chatId recipientId encrypted_key).1 c r
    = (if bool_decide (encrypted_key = "") then None else Some encrypted_key)
  ∧ (Socket.chat_key_share db caller chatId recipientId encrypted_key).2
    = [EmitToRoom ("user:" ++ recipientId) "chat:key:received"
         (JObj [("chatId", JStr chatId);
                ("from", JStr caller);
                ("encrypted_chat_key", JStr encrypted_key)])].
Proof.
  intros Hcid Hrid Hchat Hmember Hnot Hprof Hrprof Huniq.
  destruct (getChatById_elem db c chat Hchat) as [Hc _].
  split.
  - unfold ChatRoutes.post_share_key, ChatRoutes.with_chat.
    rewrite Hcid, read_bind, Hchat.
    rewrite (bool_decide_true _ Hmember). cbn [negb].
    by rewrite (bool_decide_false _ Hnot).
  - unfold Socket.chat_key_share, ChatModel.isUserInChat.
    rewrite Hcid, Hrid, read_default, Hchat.
    rewrite (bool_decide_true _ Hmember). cbn [negb fst snd].
    destruct (shareChatKey_stores db c caller r encrypted_key
                (Huniq c r) Hc Hprof Hrprof) as (_ & Hslot & _).
    repeat split.
    + assert (Hin : mkChatKey c caller r encrypted_key
                    ∈ KeysModel.slot c r
                        (chat_keys (KeysModel.shareChatKey db c caller
                                      r encrypted_key).1))
        by (rewrite Hslot; apply list_elem_of_here).
      unfold KeysModel.slot in Hin. apply list_elem_of_filter in Hin. tauto.
    + unfold KeysModel.getChatKey. rewrite Hslot. reflexivity.
Qed.

(** The HTTP route never writes for a recipient outside the chat, whoever
    calls it: it answers 404, 403 or 400 and leaves the directory as it
    was. *)
Lemma post_share_key_outsider_rejected
    (db : Db) (caller chatId recipientId encrypted_key : string) :
  (∀ chat, pg_uuid chatId ≫= ChatModel.getChatById db = Some chat →
           recipientId ∉ participants chat) →
  (ChatRoutes.post_share_key db caller chatId recipientId encrypted_key).1 = db
  ∧ ok (ChatRoutes.post_share_key db caller chatId recipientId encrypted_key).2 = false.
Proof.
  intros Hout. unfold ChatRoutes.post_share_key, ChatRoutes.with_chat.
  destruct (pg_uuid chatId ≫= ChatModel.getChatById db) as [chat|] eqn:Hchat.
  - destruct (negb (bool_decide (caller ∈ participants chat))).
    + split; [reflexivity|]. apply not_ok_error. lia.
    + rewrite (bool_decide_false _ (Hout chat eq_refl)). cbn [negb fst snd].
      split; [reflexivity|]. apply not_ok_error. lia.
  - split; [reflexivity|]. apply not_ok_error. lia.
Qed.

End UpsertClaims.

(** ** Properties of the client *)

Section ClientLemmas.
Context `{WebCrypto} `{Validation}.

Lemma startsWith_app (p s : string) : startsWith p (p ++ s) = true.
Proof.
  induction p as [|c p IH]; [by destruct s|].
  simpl. by rewrite bool_decide_true, IH.
Qed.

Lemma loadMasterKey_frame (d : Device) (k : string) :
  (CryptoHelper.loadMasterKeyFromIndexedDB d).2 = Some k →
  (CryptoHelper.loadMasterKeyFromIndexedDB d).1 = d
  ∧ indexedDB d = DBKeys (Some k).
Proof.
  unfold CryptoHelper.loadMasterKeyFromIndexedDB.
  destruct (indexedDB d) as [| |[stored|]] eqn:E; try discriminate.
  case_bool_decide; [discriminate|].
  destruct (aes_key_ok stored); [|discriminate].
  cbn. intros [= ->]. done.
Qed.

Lemma load_rsa_keys_frame (a : App) (keys : json) (masterKey : string) :
  sent (AppJs.load_rsa_keys a keys masterKey).1 = sent a
  ∧ alerts (AppJs.load_rsa_keys a keys masterKey).1 = alerts a
  ∧ session (AppJs.load_rsa_keys a keys masterKey).1 = session a
  ∧ indexedDB (device (AppJs.load_rsa_keys a keys masterKey).1) = indexedDB (device a).
Proof.
  unfold AppJs.load_rsa_keys. repeat case_match; done.
Qed.

Lemma handleLogin_slow_sent (db : Db) (a : App) (user password : string) :
  sent (AppJs.handleLogin_slow db a user password).1
  = (sent a ++ [HttpGet ("/api/keys/" ++ user)])%list.
Proof.
  unfold AppJs.handleLogin_slow.
  destruct (negb _); [done|].
  destruct (CryptoHelper.decryptMasterKeyWithPassword _ _); [|done].
  destruct (AppJs.load_rsa_keys _ _ _) as [a1 r] eqn:E.
  pose proof (load_rsa_keys_frame
    (with_device (send a (HttpGet ("/api/keys/" ++ user)))
       (CryptoHelper.storeMasterKeyInIndexedDB
          (device (send a (HttpGet ("/api/keys/" ++ user)))) a0))
    (body (KeysRoutes.get_userId db user user)) a0) as (Hs & _).
  rewrite E in Hs. by destruct r.
Qed.

Lemma handleLogin_fast_sent (db : Db) (a : App) (user password masterKey : string) :
  sent (AppJs.handleLogin_fast db a user password masterKey).1
  = (sent a ++ [HttpGet ("/api/keys/" ++ user)])%list.
Proof.
  unfold AppJs.handleLogin_fast.
  destruct (negb _); [done|].
  destruct (AppJs.load_rsa_keys _ _ _) as [a1 r] eqn:E.
  pose proof (load_rsa_keys_frame (send a (HttpGet ("/api/keys/" ++ user)))
    (body (KeysRoutes.get_userId db user user)) masterKey) as (Hs & _).
  rewrite E in Hs. cbn [fst] in Hs. destruct r; [done|].
  destruct (CryptoHelper.decryptMasterKeyWithPassword _ _) as [mk|]; [|done].
  cbn [fst].
  match goal with |- sent (AppJs.load_rsa_keys ?x ?y ?z).1 = _ =>
    destruct (load_rsa_keys_frame x y z) as (-> & _) end.
  done.
Qed.

Lemma initializeChat_sent (a : App) : sent (AppJs.initializeChat a) = sent a.
Proof. unfold AppJs.initializeChat. by destruct (session a). Qed.

End ClientLemmas.

Section ClientClaims.
Context `{WebCrypto} `{Encryption} `{Validation}.

Lemma clearMasterKey_noop (d : Device) : CryptoHelper.clearMasterKey d = d.
Proof. reflexivity. Qed.

(** C10.  Logout empties the key pair and the chat-key map of the helper
    and removes 'privateKey' and every 'chatKey_...' entry from
    localStorage; it adds nothing there and keeps the other entries.  The
    IndexedDB vault is left as it was, so a master key that could be
    loaded before logout is loaded after it, and a login that then
    authenticates runs the branch for a cached master key
    ([handleLogin_fast]) with that key. *)
Theorem logout_clears_keys_keeps_master_key (a : App) :
  privateKey (device (AppJs.handleLogout a)) = None
  ∧ publicKey (device (AppJs.handleLogout a)) = None
  ∧ chatKeys (device (AppJs.handleLogout a)) = ∅
  ∧ localStorage (device (AppJs.handleLogout a)) !! "privateKey" = None
  ∧ (∀ chatId,
       localStorage (device (AppJs.handleLogout a)) !! ("chatKey_" ++ chatId) = None)
  ∧ (∀ k, k ≠ "privateKey" → startsWith "chatKey_" k = false →
       localStorage (device (AppJs.handleLogout a)) !! k = localStorage (device a) !! k)
  ∧ indexedDB (device (AppJs.handleLogout a)) = indexedDB (device a)
  ∧ (CryptoHelper.loadMasterKeyFromIndexedDB (device (AppJs.handleLogout a))).2
    = (CryptoHelper.loadMasterKeyFromIndexedDB (device a)).2
  ∧ (∀ accounts db email password masterKey user,
       (CryptoHelper.loadMasterKeyFromIndexedDB (device a)).2 = Some masterKey →
       email ≠ "" → password ≠ "" →
       signInWithPassword accounts email
         (CryptoHelper.deriveAuthPassword password email) = Some user →
       AppJs.handleLogin accounts db (AppJs.handleLogout a) email password
       = let a1 :=
           with_currentUser
             (with_session
                (send (with_device (AppJs.handleLogout a)
                         (device (AppJs.handleLogout a)))
                   (AuthSignIn email (CryptoHelper.deriveAuthPassword password email)))
                (Some user))
             (Some user) in
         let '(a2, r) := AppJs.handleLogin_fast db a1 user password masterKey in
         match r with
         | Throw e => showAlert a2 "error" e
         | Ok _ =>
             AppJs.initializeChat
               (showAlert a2 "success" "Login successful! Loading your chats...")
         end).
Proof.
  assert (Hidb : indexedDB (device (AppJs.handleLogout a)) = indexedDB (device a))
    by reflexivity.
  assert (Hload : (CryptoHelper.loadMasterKeyFromIndexedDB
                     (device (AppJs.handleLogout a))).2
                  = (CryptoHelper.loadMasterKeyFromIndexedDB (device a)).2).
  { unfold CryptoHelper.loadMasterKeyFromIndexedDB. rewrite Hidb.
    destruct (indexedDB (device a)) as [| |[stored|]]; try reflexivity.
    case_bool_decide; [reflexivity|]. by destruct (aes_key_ok stored). }
  assert (Hls : localStorage (device (AppJs.handleLogout a))
                = filter (λ kv, ¬ (startsWith "chatKey_" kv.1 = true ∨ kv.1 = "privateKey"))
                         (localStorage (device a))) by reflexivity.
  split_and!; try reflexivity; try exact Hload.
  - rewrite Hls. apply map_lookup_filter_None. right.
    intros v _ Hkeep. apply Hkeep. by right.
  - intros chatId. rewrite Hls. apply map_lookup_filter_None. right.
    intros v _ Hkeep. apply Hkeep. left. cbn [fst]. apply startsWith_app.
  - intros k Hk Hpre. rewrite Hls.
    destruct (localStorage (device a) !! k) as [v|] eqn:E.
    + apply map_lookup_filter_Some. split; [done|]. cbn [fst].
      intros [Hc|Hc]; [congruence|done].
    + apply map_lookup_filter_None. by left.
  - intros accounts db email password masterKey user Hmk Hemail Hpw Hsign.
    rewrite <- Hload in Hmk.
    destruct (loadMasterKey_frame _ _ Hmk) as [Hdev _].
    unfold AppJs.handleLogin.
    rewrite !bool_decide_false by done. cbn [orb].
    destruct (CryptoHelper.loadMasterKeyFromIndexedDB (device (AppJs.handleLogout a)))
      as [d1 mk]. cbn [fst snd] in Hdev, Hmk. subst d1 mk.
    rewrite Hsign. reflexivity.
Qed.

(** What a login with both fields filled puts on the wire: the sign-in
    with the derived credential and, when the provider accepts it, the
    fetch of the user's own keys. *)
Lemma handleLogin_sent (accounts : list Account) (db : Db) (a : App)
    (email password : string) :
  email ≠ "" → password ≠ "" →
  sent (AppJs.handleLogin accounts db a email password)
  = (sent a
       ++ AuthSignIn email (CryptoHelper.deriveAuthPassword password email)
       :: match signInWithPassword accounts email
                  (CryptoHelper.deriveAuthPassword password email) with
          | Some user => [HttpGet ("/api/keys/" ++ user)]
          | None => []
          end)%list.
Proof.
  intros Hemail Hpw. unfold AppJs.handleLogin.
  rewrite !bool_decide_false by done. cbn [orb].
  destruct (CryptoHelper.loadMasterKeyFromIndexedDB (device a)) as [d1 masterKey].
  destruct (signInWithPassword _ _ _) as [user|]; [|reflexivity].
  set (a1 := with_currentUser _ _).
  assert (Hsent : ∃ a2 res,
    match masterKey with
    | Some masterKey0 => AppJs.handleLogin_fast db a1 user password masterKey0
    | None => AppJs.handleLogin_slow db a1 user password
    end = (a2, res)
    ∧ sent a2 = (sent a1 ++ [HttpGet ("/api/keys/" ++ user)])%list).
  { destruct masterKey as [mk|].
    - pose proof (handleLogin_fast_sent db a1 user password mk) as Hs.
      destruct (AppJs.handleLogin_fast db a1 user password mk) as [a2 res].
      by exists a2, res.
    - pose proof (handleLogin_slow_sent db a1 user password) as Hs.
      destruct (AppJs.handleLogin_slow db a1 user password) as [a2 res].
      by exists a2, res. }
  destruct Hsent as (a2 & res & -> & Hs).
  assert (Hfinal : sent a2
    = (sent a ++ [AuthSignIn email (CryptoHelper.deriveAuthPassword password email);
                  HttpGet ("/api/keys/" ++ user)])%list).
  { rewrite Hs. subst a1. cbn. by rewrite <- (assoc_L (++)). }
  destruct res; [by rewrite initializeChat_sent|exact Hfinal].
Qed.

(** What a sign-up whose form passes the checks puts on the wire: the
    sign-up with the derived credential, then requests to the backend
    only. *)
Lemma handleSignup_sent (db : Db) (a : App) (email password : string)
    (reply : AppJs.SignUpReply) (draw : AppJs.SignupDraw) (now statusText : string) :
  email ≠ "" → (6 ≤ String.length password)%nat →
  ∃ rest,
    sent (AppJs.handleSignup db a email password reply draw now statusText).2
    = (sent a
         ++ AuthSignUp email (CryptoHelper.deriveAuthPassword password email) :: rest)%list
    ∧ ∀ r, r ∈ rest →
           r = HttpGet "/api/auth/me" ∨ ∃ reqbody, r = HttpPost "/api/keys" reqbody.
Proof.
  intros Hemail Hlen.
  assert (Hpw : password ≠ "") by (intros ->; simpl in Hlen; lia).
  unfold AppJs.handleSignup.
  rewrite !bool_decide_false by done. cbn [orb].
  rewrite (proj2 (Nat.ltb_ge _ _) Hlen).
  destruct reply as [message| |user has_session].
  1,2: exists []; split; [reflexivity | intros r Hr; by apply elem_of_nil in Hr].
  destruct has_session; cbn [negb].
  2:{ exists []. split; [reflexivity | intros r Hr; by apply elem_of_nil in Hr]. }
  destruct (AuthRoutes.get_me db user) as [db1 profileResponse].
  destruct (negb (ok profileResponse)).
  { exists [HttpGet "/api/auth/me"]. split.
    - cbn. by rewrite <- (assoc_L (++)).
    - intros r Hr. apply list_elem_of_singleton in Hr. by left. }
  destruct (privateKey _) as [rsaPrivateKey|].
  2:{ exists [HttpGet "/api/auth/me"]. split.
      - cbn. by rewrite <- (assoc_L (++)).
      - intros r Hr. apply list_elem_of_singleton in Hr. by left. }
  destruct (CryptoHelper.exportPublicKey _) as [publicKeyBase64|e].
  2:{ exists [HttpGet "/api/auth/me"]. split.
      - cbn. by rewrite <- (assoc_L (++)).
      - intros r Hr. apply list_elem_of_singleton in Hr. by left. }
  match goal with
  | |- context [HttpPost "/api/keys" ?b] => set (reqbody := b)
  end.
  destruct (KeysRoutes.post_root db1 user reqbody now) as [db2 response].
  exists [HttpGet "/api/auth/me"; HttpPost "/api/keys" reqbody]. split.
  - destruct (negb (ok response)); cbn [snd]; [|rewrite initializeChat_sent];
      cbn; by rewrite <- !(assoc_L (++)).
  - intros r Hr. apply list_elem_of_In in Hr. simpl in Hr.
    destruct Hr as [<-|[<-|[]]]; [by left|right; by eexists].
Qed.

(** C6.  The credential is a function of the password and the e-mail
    address, namely base64 of SHA-256 of [password ++ ":auth:" ++ email].
    [handleSignup], when the form passes its checks, sends the sign-up
    with that value in the password field, whatever the provider
    answers, and after it only requests to the backend; [handleLogin],
    when both fields are filled, sends the sign-in with that value and
    after it only the fetch of the user's keys.  A form that fails the
    checks sends nothing.  So the literal password reaches the provider
    only if it is its own credential. *)
Theorem auth_credential_is_derived_hash (email password : string) :
  CryptoHelper.deriveAuthPassword password email
  = btoa (sha256 (password ++ ":auth:" ++ email))
  ∧ (∀ email' password', email' = email → password' = password →
       CryptoHelper.deriveAuthPassword password' email'
       = CryptoHelper.deriveAuthPassword password email)
  ∧ (∀ db a reply draw now statusText,
       email ≠ "" → (6 ≤ String.length password)%nat →
       ∃ rest,
         sent (AppJs.handleSignup db a email password reply draw now statusText).2
         = (sent a
              ++ AuthSignUp email (CryptoHelper.deriveAuthPassword password email)
              :: rest)%list
         ∧ ∀ r, r ∈ rest →
                r = HttpGet "/api/auth/me" ∨ ∃ reqbody, r = HttpPost "/api/keys" reqbody)
  ∧ (∀ db a reply draw now statusText,
       email = "" ∨ (String.length password < 6)%nat →
       sent (AppJs.handleSignup db a email password reply draw now statusText).2
       = sent a)
  ∧ (∀ accounts db a,
       email ≠ "" → password ≠ "" →
       sent (AppJs.handleLogin accounts db a email password)
       = (sent a
            ++ AuthSignIn email (CryptoHelper.deriveAuthPassword password email)
            :: match signInWithPassword accounts email
                       (CryptoHelper.deriveAuthPassword password email) with
               | Some user => [HttpGet ("/api/keys/" ++ user)]
               | None => []
               end)%list)
  ∧ (∀ accounts db a,
       email = "" ∨ password = "" →
       sent (AppJs.handleLogin accounts db a email password) = sent a)
  ∧ (∀ db a reply draw now statusText e,
       AuthSignUp e password
         ∈ sent (AppJs.handleSignup db a email password reply draw now statusText).2 →
       AuthSignUp e password ∈ sent a
       ∨ password = CryptoHelper.deriveAuthPassword password email)
  ∧ (∀ accounts db a e,
       AuthSignIn e password ∈ sent (AppJs.handleLogin accounts db a email password) →
       AuthSignIn e password ∈ sent a
       ∨ password = CryptoHelper.deriveAuthPassword password email).
Proof.
  assert (Hrejected : ∀ db a reply draw now statusText,
       email = "" ∨ (String.length password < 6)%nat →
       sent (AppJs.handleSignup db a email password reply draw now statusText).2
       = sent a).
  { intros db a reply draw now statusText Hbad. unfold AppJs.handleSignup.
    destruct (bool_decide_reflect (email = "")) as [He|He]; [reflexivity|].
    cbn [orb]. destruct (bool_decide (password = "")); [reflexivity|].
    destruct (String.length password <? 6)%nat eqn:Hlen; [reflexivity|].
    apply Nat.ltb_ge in Hlen. destruct Hbad; [done|lia]. }
  assert (Hempty : ∀ accounts db a,
       email = "" ∨ password = "" →
       sent (AppJs.handleLogin accounts db a email password) = sent a).
  { intros accounts db a Hbad. unfold AppJs.handleLogin.
    destruct (bool_decide_reflect (email = "")) as [He|He];
      [reflexivity|].
    destruct (bool_decide_reflect (password = "")) as [Hp|Hp];
      [reflexivity|]. tauto. }
  split_and!; try done.
  - intros email' password' -> ->. reflexivity.
  - intros. by apply handleSignup_sent.
  - intros. by apply handleLogin_sent.
  - intros db a reply draw now statusText e Hin.
    destruct (decide (email = "")) as [He|He].
    { left. by rewrite Hrejected in Hin by by left. }
    destruct (decide (String.length password < 6)%nat) as [Hl|Hl].
    { left. by rewrite Hrejected in Hin by by right. }
    destruct (handleSignup_sent db a email password reply draw now statusText He)
      as (rest & Hsent & Hrest); [lia|].
    rewrite Hsent in Hin. apply elem_of_app in Hin as [Hin|Hin]; [by left|].
    apply elem_of_cons in Hin as [Heq|Hin]; [right; by injection Heq|].
    destruct (Hrest _ Hin) as [Hr|[reqbody Hr]]; discriminate Hr.
  - intros accounts db a e Hin.
    destruct (decide (email = "")) as [He|He].
    { left. by rewrite Hempty in Hin by by left. }
    destruct (decide (password = "")) as [Hp|Hp].
    { left. by rewrite Hempty in Hin by by right. }
    rewrite handleLogin_sent in Hin by done.
    apply elem_of_app in Hin as [Hin|Hin]; [by left|].
    apply elem_of_cons in Hin as [Heq|Hin]; [right; by injection Heq|].
    destruct (signInWithPassword _ _ _); [|by apply elem_of_nil in Hin].
    apply list_elem_of_singleton in Hin. discriminate Hin.
Qed.

(** C3 (the code at the failing input).  At a session restore where the
    vault holds a master key that does not unwrap the private key on
    file, the user is shown the key-mismatch error and signed out, and
    the vault still holds that master key afterwards: [clearMasterKey]
    calls the undeclared method [openDB] and deletes nothing. *)
Theorem session_restore_mismatch_keeps_master_key
    (db : Db) (a : App) (user masterKey e : string) (keys : UserKey) :
  indexedDB (device a) = DBKeys (Some masterKey) →
  masterKey ≠ "" → aes_key_ok masterKey = true →
  session a = Some user →
  KeysModel.getUserKeys db user = Some keys →
  CryptoHelper.decryptRSAPrivateKey
    (default JNull (encrypted_rsa_private_key keys)) masterKey = Throw e →
  alerts (AppJs.handleExistingSession db a user)
  = (alerts a ++ [("error",
       "Encryption key mismatch. This account may be corrupted. Please delete your account and sign up again.")])%list
  ∧ session (AppJs.handleExistingSession db a user) = None
  ∧ indexedDB (device (AppJs.handleExistingSession db a user)) = DBKeys (Some masterKey)
  ∧ (CryptoHelper.loadMasterKeyFromIndexedDB
       (device (AppJs.handleExistingSession db a user))).2 = Some masterKey.
Proof.
  intros Hidb Hne Hok Hsess Hkeys Hfail.
  assert (Hload : ∀ d, indexedDB d = DBKeys (Some masterKey) →
            CryptoHelper.loadMasterKeyFromIndexedDB d = (d, Some masterKey)).
  { intros d Hd. unfold CryptoHelper.loadMasterKeyFromIndexedDB.
    by rewrite Hd, bool_decide_false, Hok. }
  unfold AppJs.handleExistingSession. cbn [device with_currentUser].
  rewrite (Hload _ Hidb). cbn [session with_device with_currentUser].
  rewrite Hsess. unfold KeysRoutes.get_userId.
  rewrite bool_decide_true by done. cbn [negb]. rewrite Hkeys.
  cbn [ok res_json status body negb Nat.leb Nat.ltb andb].
  unfold AppJs.load_rsa_keys.
  replace (jfield "encrypted_rsa_private_key" _)
    with (Some (default JNull (encrypted_rsa_private_key keys))) by reflexivity.
  cbn [default from_option id]. rewrite Hfail.
  rewrite clearMasterKey_noop.
  split_and!; try reflexivity.
  - cbn. exact Hidb.
  - rewrite Hload; [reflexivity|]. cbn. exact Hidb.
Qed.

(** The method that [handleLogin] uses for the same purpose does empty the
    vault: no master key can be loaded after it. *)
Lemma clearMasterKeyFromIndexedDB_purges (d : Device) :
  (CryptoHelper.loadMasterKeyFromIndexedDB
     (CryptoHelper.clearMasterKeyFromIndexedDB d)).2 = None.
Proof.
  unfold CryptoHelper.clearMasterKeyFromIndexedDB, CryptoHelper.loadMasterKeyFromIndexedDB.
  by destruct (indexedDB d).
Qed.

End ClientClaims.

Section KeyResolution.
Context `{WebCrypto} `{Validation}.

Lemma find_fmap {A B} (f : A → B) (p : B → bool) (l : list A) :
  find p (f <$> l) = f <$> find (λ x, p (f x)) l.
Proof.
  induction l as [|x l IH]; [done|]. cbn. by destruct (p (f x)).
Qed.

Lemma loadChatKey_miss (d : Device) (chatId : string) :
  (CryptoHelper.loadChatKey d chatId).2 = Ok None →
  CryptoHelper.loadChatKey d chatId = (d, Ok None).
Proof.
  unfold CryptoHelper.loadChatKey.
  destruct (chatKeys d !! chatId); [done|].
  destruct (localStorage d !! _) as [stored|]; [|done].
  case_bool_decide; [done|]. by destruct (aes_key_ok stored).
Qed.

Lemma get_keys_member (db : Db) (caller chatId c : string) (chat : Chat) :
  pg_uuid chatId = Some c →
  ChatModel.getChatById db c = Some chat → caller ∈ participants chat →
  ChatRoutes.get_keys db caller chatId
  = res_json (JObj [("chat_keys",
       JArr (json_of_ChatKey <$> KeysModel.getAllChatKeys db c))]).
Proof.
  intros Hcid Hchat Hin. unfold ChatRoutes.get_keys, ChatRoutes.with_chat.
  by rewrite Hcid, read_bind, read_default, Hchat, (bool_decide_true _ Hin).
Qed.

Lemma json_of_ChatKey_fields (k : ChatKey) :
  str_field "recipient_id" (json_of_ChatKey k) = Some (recipient_id k)
  ∧ str_field "encrypted_chat_key" (json_of_ChatKey k) = Some (encrypted_chat_key k).
Proof. split; reflexivity. Qed.

Lemma find_our_key_rows (me : string) (rows : list ChatKey) :
  AppJs.find_our_key (Some me) (json_of_ChatKey <$> rows)
  = Ok (json_of_ChatKey <$> find (λ r, bool_decide (recipient_id r = me)) rows).
Proof.
  destruct rows as [|r rows]; [done|].
  unfold AppJs.find_our_key. rewrite fmap_cons. rewrite <- fmap_cons.
  rewrite find_fmap. f_equal. f_equal.
  induction (r :: rows) as [|x l IH]; [done|]. cbn [find].
  rewrite (proj1 (json_of_ChatKey_fields x)).
  destruct (decide (recipient_id x = me)) as [Hx|Hx].
  - by rewrite !bool_decide_true by congruence.
  - rewrite !bool_decide_false by congruence. exact IH.
Qed.

(** The share-key route for a recipient whose text is among the
    participants: the record is stored under the uuids read from the
    texts. *)
Lemma post_share_key_insert (db : Db) (caller chatId recipient_id c r e : string)
    (chat : Chat) :
  pg_uuid chatId = Some c → pg_uuid recipient_id = Some r →
  ChatModel.getChatById db c = Some chat →
  caller ∈ participants chat → recipient_id ∈ participants chat →
  KeysModel.slot c r (chat_keys db) = [] →
  caller ∈ user_profiles db → r ∈ user_profiles db →
  (ChatRoutes.post_share_key db caller chatId recipient_id e).1
  = set_chat_keys db (chat_keys db ++ [mkChatKey c caller r e]).
Proof.
  intros Hcid Hrid Hchat Hcaller Hr Hslot Hp1 Hp2.
  destruct (getChatById_elem db c chat Hchat) as [Hc _].
  unfold ChatRoutes.post_share_key, ChatRoutes.with_chat.
  rewrite Hcid, Hrid, read_bind.
  rewrite Hchat, (bool_decide_true _ Hcaller), (bool_decide_true _ Hr). cbn [negb].
  unfold KeysModel.shareChatKey. rewrite Hslot.
  rewrite bool_decide_false by (by intros ?).
  by rewrite (bool_decide_true _ Hc), (bool_decide_true _ Hp1), (bool_decide_true _ Hp2).
Qed.

(** The share-key route, with its validation, for a recipient whose text
    is not among the participants: nothing is stored. *)
Lemma route_share_key_refused (db : Db) (caller chatId recipient_id e : string) :
  (∀ chat, pg_uuid chatId ≫= ChatModel.getChatById db = Some chat →
           recipient_id ∉ participants chat) →
  (ChatRoutes.route_share_key db caller chatId recipient_id e).1 = db.
Proof.
  intros Hout. unfold ChatRoutes.route_share_key.
  destruct (shareChatKeySchema_ok recipient_id e); [|reflexivity].
  unfold ChatRoutes.post_share_key, ChatRoutes.with_chat.
  destruct (pg_uuid chatId ≫= ChatModel.getChatById db) as [chat|] eqn:Hchat;
    [|reflexivity].
  destruct (negb (bool_decide (caller ∈ participants chat))); [reflexivity|].
  by rewrite (bool_decide_false _ (Hout chat eq_refl)).
Qed.

End KeyResolution.

Section KeyResolutionClaim.
Context `{WebCrypto} `{Validation}.

Lemma jfield_single (k : string) (v : json) : jfield k (JObj [(k, v)]) = Some v.
Proof. unfold jfield. cbn. by rewrite bool_decide_true. Qed.

Lemma resolve_cached (db : Db) (a : App) (token_user chatId recipientId freshKey k : string) :
  (CryptoHelper.loadChatKey (device a) chatId).2 = Ok (Some k) →
  AppJs.resolveChatKey db a token_user chatId recipientId freshKey
  = (db, with_device a (CryptoHelper.loadChatKey (device a) chatId).1, Ok k).
Proof.
  intros Hhit. unfold AppJs.resolveChatKey.
  destruct (CryptoHelper.loadChatKey (device a) chatId) as [d r].
  cbn [snd] in Hhit. by subst r.
Qed.

Lemma resolve_fetched (db : Db) (a : App)
    (token_user chatId recipientId freshKey me k : string)
    (chat : Chat) (ourKey : ChatKey) :
  (CryptoHelper.loadChatKey (device a) chatId).2 = Ok None →
  currentUser a = Some me →
  pg_uuid chatId = Some chatId →
  ChatModel.getChatById db chatId = Some chat → token_user ∈ participants chat →
  find (λ r, bool_decide (recipient_id r = me)) (KeysModel.getAllChatKeys db chatId)
    = Some ourKey →
  (CryptoHelper.decryptChatKey (device a) (encrypted_chat_key ourKey) chatId).2 = Ok k →
  AppJs.resolveChatKey db a token_user chatId recipientId freshKey
  = (db,
     with_device (send (with_device a (device a)) (HttpGet (AppJs.chat_keys_path chatId)))
       (CryptoHelper.decryptChatKey (device a) (encrypted_chat_key ourKey) chatId).1,
     Ok k).
Proof.
  intros Hmiss Hme Hcid Hchat Hmember Hfind Hunwrap.
  unfold AppJs.resolveChatKey. rewrite (loadChatKey_miss _ _ Hmiss).
  rewrite (get_keys_member db token_user chatId chatId chat Hcid Hchat Hmember).
  cbn [ok res_json status body negb Nat.leb Nat.ltb andb].
  rewrite jfield_single. cbn [currentUser send with_device device].
  rewrite Hme, find_our_key_rows, Hfind. cbn [fmap option_fmap option_map].
  rewrite (proj2 (json_of_ChatKey_fields ourKey)). cbn [default from_option id].
  destruct (CryptoHelper.decryptChatKey (device a) (encrypted_chat_key ourKey) chatId)
    as [d r]. cbn [snd] in Hunwrap. subst r. reflexivity.
Qed.

Lemma generateChatKey_frame (d : Device) (chatId chatKey : string) :
  publicKey (CryptoHelper.generateChatKey d chatId chatKey).1 = publicKey d
  ∧ (CryptoHelper.generateChatKey d chatId chatKey).2 = chatKey
  ∧ chatKeys (CryptoHelper.generateChatKey d chatId chatKey).1 !! chatId = Some chatKey.
Proof.
  unfold CryptoHelper.generateChatKey. cbn. split_and!; try done.
  apply lookup_insert_eq.
Qed.

Lemma getPublicKey_set_chat_keys (db : Db) (t : list ChatKey) (u : string) :
  KeysModel.getPublicKey (set_chat_keys db t) u = KeysModel.getPublicKey db u.
Proof. reflexivity. Qed.

Lemma getChatById_set_chat_keys (db : Db) (t : list ChatKey) (c : string) :
  ChatModel.getChatById (set_chat_keys db t) c = ChatModel.getChatById db c.
Proof. reflexivity. Qed.

Lemma slot_of_chat_nil (db : Db) (c u : string) :
  KeysModel.getAllChatKeys db c = [] → KeysModel.slot c u (chat_keys db) = [].
Proof.
  unfold KeysModel.getAllChatKeys, KeysModel.slot. intros Hnil.
  destruct (filter (λ r, chat_id r = c ∧ recipient_id r = u) (chat_keys db))
    as [|x l] eqn:E; [done|].
  assert (Hx : x ∈ filter (λ r, chat_id r = c ∧ recipient_id r = u) (chat_keys db))
    by (rewrite E; apply list_elem_of_here).
  apply list_elem_of_filter in Hx as [[Hc _] Hin].
  assert (Hx' : x ∈ filter (λ r, chat_id r = c) (chat_keys db))
    by (apply list_elem_of_filter; done).
  rewrite Hnil in Hx'. by apply not_elem_of_nil in Hx'.
Qed.

(** The third step for a chat without a record.  [recipientId] is the
    text the user typed and [other] the uuid Postgres reads from it.  The
    caller's own copy is stored; the copy for the recipient is posted,
    and what the route does with it is not looked at. *)
Lemma resolve_generated (db : Db) (a : App)
    (me other recipientId chatId freshKey myPub otherPub : string) (chat : Chat) :
  (CryptoHelper.loadChatKey (device a) chatId).2 = Ok None →
  currentUser a = Some me →
  pg_uuid chatId = Some chatId → pg_uuid me = Some me →
  pg_uuid recipientId = Some other →
  ChatModel.getChatById db chatId = Some chat →
  me ∈ participants chat →
  KeysModel.getAllChatKeys db chatId = [] →
  publicKey (device a) = Some myPub → public_key_ok myPub = true →
  KeysModel.getPublicKey db other = Some otherPub → public_key_ok otherPub = true →
  me ∈ user_profiles db →
  shareChatKeySchema_ok me (rsa_oaep_encrypt myPub freshKey) = true →
  ∃ a',
    AppJs.resolveChatKey db a me chatId recipientId freshKey
    = ((ChatRoutes.route_share_key
          (set_chat_keys db
             (chat_keys db ++ [mkChatKey chatId me me (rsa_oaep_encrypt myPub freshKey)]))
          me chatId recipientId (rsa_oaep_encrypt otherPub freshKey)).1,
       a', Ok freshKey)
    ∧ chatKeys (device a') !! chatId = Some freshKey
    ∧ last (sent a')
      = Some (AppJs.share_key_request chatId recipientId
                (rsa_oaep_encrypt otherPub freshKey)).
Proof.
  intros Hmiss Hme Hcid Hmid Hrid Hchat Hin1 Hfresh Hmy Hmyok Hother Hotherok Hp1 Hv1.
  unfold AppJs.resolveChatKey. rewrite (loadChatKey_miss _ _ Hmiss).
  rewrite (get_keys_member db me chatId chatId chat Hcid Hchat Hin1), Hfresh.
  cbn [ok res_json status body negb Nat.leb Nat.ltb andb].
  rewrite jfield_single. cbn [fmap list_fmap AppJs.find_our_key].
  unfold AppJs.generate_and_share.
  match goal with |- context [CryptoHelper.generateChatKey ?d0 chatId freshKey] =>
    destruct (generateChatKey_frame d0 chatId freshKey) as (Hg1 & Hg2 & Hg3);
    destruct (CryptoHelper.generateChatKey d0 chatId freshKey) as [d chatKey] end.
  cbn [fst snd device send with_device] in Hg1, Hg2, Hg3. subst chatKey.
  cbn [device with_device currentUser send].
  rewrite Hg1, Hmy, Hme. unfold CryptoHelper.importPublicKey at 1. rewrite Hmyok.
  unfold CryptoHelper.encryptChatKey.
  set (row1 := mkChatKey chatId me me (rsa_oaep_encrypt myPub freshKey)).
  assert (Hshare1 :
    (ChatRoutes.route_share_key db me chatId me (rsa_oaep_encrypt myPub freshKey)).1
    = set_chat_keys db (chat_keys db ++ [row1])).
  { unfold ChatRoutes.route_share_key. rewrite Hv1.
    apply (post_share_key_insert db me chatId me chatId me _ chat); try done.
    by apply slot_of_chat_nil. }
  rewrite Hshare1. unfold UserRoutes.get_public_key.
  rewrite Hrid, read_bind, getPublicKey_set_chat_keys, Hother.
  cbn [ok res_json status body negb Nat.leb Nat.ltb andb].
  rewrite jfield_single. cbn [default from_option id].
  unfold CryptoHelper.importPublicKey. rewrite Hotherok.
  eexists. split; [reflexivity|]. split; [exact Hg3|].
  cbn [sent send with_device]. apply last_snoc.
Qed.

(** C5 (the code, also at the failing input).  The key of a chat is
    resolved in three steps, each tried only if the one before gave
    nothing: the local cache; the caller's own wrapped record in the
    directory's listing, unwrapped and cached; a new key.
    [chatId] and [me] are ids as the server printed them, [recipientId]
    is the text the user typed and [other] the uuid Postgres reads from
    it.  When a member resolves the key of a chat of [me] and [other]
    that has no record yet, and both have a profile and a usable public
    key on file, the caller's own record is stored, holding the new key
    encrypted under the caller's public key.  The record for the other
    member, under that member's public key, is stored only if the typed
    text is among the participants as Postgres printed them: then the
    directory ends up with exactly two records for the chat, each alone
    in its slot (chat, recipient).  For a text that reads as [other] and
    is spelled otherwise the route refuses the second record, the
    directory ends up with one record, none for [other], and the
    resolution reports the new key all the same. *)
Theorem chat_key_resolution_order_and_first_share
    (db : Db) (a : App)
    (me other recipientId chatId freshKey myPub otherPub k : string)
    (chat : Chat) (ourKey : ChatKey) :
  ((CryptoHelper.loadChatKey (device a) chatId).2 = Ok (Some k) →
     AppJs.resolveChatKey db a me chatId recipientId freshKey
     = (db, with_device a (CryptoHelper.loadChatKey (device a) chatId).1, Ok k))
  ∧ ((CryptoHelper.loadChatKey (device a) chatId).2 = Ok None →
     currentUser a = Some me →
     pg_uuid chatId = Some chatId →
     ChatModel.getChatById db chatId = Some chat → me ∈ participants chat →
     find (λ r, bool_decide (recipient_id r = me)) (KeysModel.getAllChatKeys db chatId)
       = Some ourKey →
     (CryptoHelper.decryptChatKey (device a) (encrypted_chat_key ourKey) chatId).2
       = Ok k →
     ∃ a', AppJs.resolveChatKey db a me chatId recipientId freshKey = (db, a', Ok k)
           ∧ chatKeys (device a') !! chatId = Some k)
  ∧ ((CryptoHelper.loadChatKey (device a) chatId).2 = Ok None →
     currentUser a = Some me →
     pg_uuid chatId = Some chatId → pg_uuid me = Some me →
     pg_uuid recipientId = Some other →
     ChatModel.getChatById db chatId = Some chat →
     me ∈ participants chat → other ∈ participants chat → me ≠ other →
     KeysModel.getAllChatKeys db chatId = [] →
     publicKey (device a) = Some myPub → KeysModel.getPublicKey db me = Some myPub →
     public_key_ok myPub = true →
     KeysModel.getPublicKey db other = Some otherPub → public_key_ok otherPub = true →
     me ∈ user_profiles db → other ∈ user_profiles db →
     shareChatKeySchema_ok me (rsa_oaep_encrypt myPub freshKey) = true →
     (recipientId ∈ participants chat →
      shareChatKeySchema_ok recipientId (rsa_oaep_encrypt otherPub freshKey) = true →
      ∃ db' a',
        AppJs.resolveChatKey db a me chatId recipientId freshKey
        = (db', a', Ok freshKey)
        ∧ chatKeys (device a') !! chatId = Some freshKey
        ∧ KeysModel.getAllChatKeys db' chatId
          = [mkChatKey chatId me me (rsa_oaep_encrypt myPub freshKey);
             mkChatKey chatId me other (rsa_oaep_encrypt otherPub freshKey)]
        ∧ length (KeysModel.getAllChatKeys db' chatId) = 2
        ∧ KeysModel.slot chatId me (chat_keys db')
          = [mkChatKey chatId me me (rsa_oaep_encrypt myPub freshKey)]
        ∧ KeysModel.slot chatId other (chat_keys db')
          = [mkChatKey chatId me other (rsa_oaep_encrypt otherPub freshKey)])
     ∧ (recipientId ∉ participants chat →
        ∃ db' a',
          AppJs.resolveChatKey db a me chatId recipientId freshKey
          = (db', a', Ok freshKey)
          ∧ chatKeys (device a') !! chatId = Some freshKey
          ∧ last (sent a')
            = Some (AppJs.share_key_request chatId recipientId
                      (rsa_oaep_encrypt otherPub freshKey))
          ∧ KeysModel.getAllChatKeys db' chatId
            = [mkChatKey chatId me me (rsa_oaep_encrypt myPub freshKey)]
          ∧ length (KeysModel.getAllChatKeys db' chatId) = 1
          ∧ KeysModel.slot chatId other (chat_keys db') = []
          ∧ KeysModel.getChatKey db' chatId other = None
          ∧ ChatRoutes.get_my_key db' other chatId
            = res_error 404 "Chat key not found")).
Proof.
  split_and!.
  - apply resolve_cached.
  - intros Hmiss Hme Hcid Hchat Hmember Hfind Hunwrap.
    rewrite (resolve_fetched db a me chatId recipientId freshKey me k chat ourKey)
      by done.
    eexists. split; [reflexivity|]. cbn [device with_device].
    revert Hunwrap. unfold CryptoHelper.decryptChatKey.
    destruct (privateKey (device a)) as [priv|]; [|done].
    destruct (rsa_oaep_decrypt priv _) as [decrypted|]; [|done].
    destruct (aes_key_ok decrypted); [|done].
    cbn. intros [= ->]. apply lookup_insert_eq.
  - intros Hmiss Hme Hcid Hmid Hrid Hchat Hin1 Hin2 Hneq Hfresh Hmy _ Hmyok
      Hother Hotherok Hp1 Hp2 Hv1.
    destruct (resolve_generated db a me other recipientId chatId freshKey myPub
                otherPub chat) as (a' & Hres & Hcache & Hlast); try done.
    set (mine := mkChatKey chatId me me (rsa_oaep_encrypt myPub freshKey)) in *.
    set (theirs := mkChatKey chatId me other (rsa_oaep_encrypt otherPub freshKey)).
    set (db1 := set_chat_keys db (chat_keys db ++ [mine])) in *.
    assert (Hall1 : KeysModel.getAllChatKeys db1 chatId = [mine]).
    { unfold KeysModel.getAllChatKeys in *. subst db1. cbn [chat_keys set_chat_keys].
      rewrite filter_app, Hfresh.
      rewrite filter_cons, decide_True by done. done. }
    assert (Hslot1 : KeysModel.slot chatId other (chat_keys db1) = []).
    { subst db1. cbn [chat_keys set_chat_keys]. unfold KeysModel.slot.
      rewrite filter_app. fold (KeysModel.slot chatId other (chat_keys db)).
      rewrite (slot_of_chat_nil db chatId other Hfresh).
      rewrite filter_cons, decide_False; [done|].
      subst mine. cbn. intros [_ ?]. done. }
    split.
    + intros Hin Hv2.
      assert (Hshare2 :
        (ChatRoutes.route_share_key db1 me chatId recipientId
           (rsa_oaep_encrypt otherPub freshKey)).1
        = set_chat_keys db (chat_keys db ++ [mine; theirs])).
      { unfold ChatRoutes.route_share_key. rewrite Hv2.
        rewrite (post_share_key_insert db1 me chatId recipientId chatId other _ chat);
          try done.
        subst db1. unfold set_chat_keys. cbn. by rewrite <- app_assoc. }
      rewrite Hshare2 in Hres.
      eexists _, a'. split; [exact Hres|]. split; [exact Hcache|].
      assert (Hall : KeysModel.getAllChatKeys
                (set_chat_keys db (chat_keys db ++ [mine; theirs])) chatId
              = [mine; theirs]).
      { unfold KeysModel.getAllChatKeys in *. cbn [chat_keys set_chat_keys].
        rewrite filter_app, Hfresh.
        rewrite filter_cons, decide_True by done.
        rewrite filter_cons, decide_True by done. done. }
      split_and!.
      * exact Hall.
      * by rewrite Hall.
      * cbn [chat_keys set_chat_keys]. unfold KeysModel.slot. rewrite filter_app.
        fold (KeysModel.slot chatId me (chat_keys db)).
        rewrite (slot_of_chat_nil db chatId me Hfresh).
        rewrite filter_cons, decide_True by done.
        rewrite filter_cons, decide_False; [done|]. cbn. intros [_ ?]. congruence.
      * cbn [chat_keys set_chat_keys]. unfold KeysModel.slot. rewrite filter_app.
        fold (KeysModel.slot chatId other (chat_keys db)).
        rewrite (slot_of_chat_nil db chatId other Hfresh).
        rewrite filter_cons, decide_False; [|cbn; intros [_ ?]; congruence].
        rewrite filter_cons, decide_True by done. done.
    + intros Hout.
      rewrite route_share_key_refused in Hres.
      2:{ intros chat'. rewrite Hcid, read_bind. subst db1.
          rewrite getChatById_set_chat_keys, Hchat. by intros [= <-]. }
      eexists db1, a'. split; [exact Hres|]. split; [exact Hcache|].
      split; [exact Hlast|]. split; [exact Hall1|]. split; [by rewrite Hall1|].
      split; [exact Hslot1|].
      assert (Hnone : KeysModel.getChatKey db1 chatId other = None)
        by (unfold KeysModel.getChatKey; by rewrite Hslot1).
      split; [exact Hnone|].
      unfold ChatRoutes.get_my_key, ChatRoutes.with_chat.
      rewrite Hcid, !read_bind.
      change (ChatModel.getChatById db1 chatId) with (ChatModel.getChatById db chatId).
      rewrite Hchat, (bool_decide_true _ Hin2). cbn [negb]. by rewrite Hnone.
Qed.

End KeyResolutionClaim.


Section HistoryBound.
Context `{WebCrypto}.

Lemma string_app_inv_head (c s1 s2 : string) : c ++ s1 = c ++ s2 → s1 = s2.
Proof. induction c as [|x c IH]; [done|]. simpl. intros [= Heq]. by apply IH. Qed.

Lemma keys_path_not_history (chatId : string) :
  is_history_fetch chatId (HttpGet (AppJs.chat_keys_path chatId)) = false.
Proof.
  unfold is_history_fetch, AppJs.chat_keys_path. apply bool_decide_eq_false.
  intros Heq. apply string_app_inv_head in Heq.
  apply string_app_inv_head in Heq. discriminate.
Qed.

Lemma history_fetches_snoc (chatId : string) (l : list Request) (r : Request) :
  history_fetches chatId (l ++ [r])
  = (history_fetches chatId l + (if is_history_fetch chatId r then 1 else 0))%nat.
Proof.
  unfold history_fetches. rewrite filter_app, length_app, filter_cons.
  destruct (is_history_fetch chatId r).
  - by rewrite decide_True.
  - by rewrite decide_False.
Qed.

Lemma refetch_chat_key_sent (db : Db) (a : App) (token_user chatId : string) :
  sent (AppJs.refetch_chat_key db a token_user chatId).1
  = (sent a ++ [HttpGet (AppJs.chat_keys_path chatId)])%list.
Proof.
  unfold AppJs.refetch_chat_key. repeat case_match; reflexivity.
Qed.

Lemma decrypt_each_fetches (reload : App → App) (n : nat) (db : Db)
    (token_user chatId : string) (pending : list json) :
  (∀ x, (history_fetches chatId (sent (reload x))
         ≤ history_fetches chatId (sent x) + n)%nat) →
  ∀ firstDecryptFailed a,
    (history_fetches chatId
       (sent (AppJs.decrypt_each reload db token_user chatId pending firstDecryptFailed a))
     ≤ history_fetches chatId (sent a) + n)%nat.
Proof.
  intros Hreload. induction pending as [|message rest IH]; intros fdf a.
  { simpl. lia. }
  cbn [AppJs.decrypt_each].
  destruct (CryptoHelper.decryptMessage _ _ _ _) as [d r].
  assert (Hplace : ∀ b x, sent x = sent a →
    (history_fetches chatId
       (sent (AppJs.decrypt_each reload db token_user chatId rest b x))
     ≤ history_fetches chatId (sent a) + n)%nat).
  { intros b x Hx. rewrite <- Hx. apply IH. }
  assert (Hcatch :
    (history_fetches chatId
       (sent (if negb fdf
              then match AppJs.refetch_chat_key db (with_device a d) token_user chatId with
                   | (a0, true) => reload a0
                   | (a0, false) =>
                       AppJs.decrypt_each reload db token_user chatId rest true
                         (with_messagesDiv a0
                            (messagesDiv a0
                             ++ [Placeholder (default "" (str_field "created_at" message))]))
                   end
              else AppJs.decrypt_each reload db token_user chatId rest fdf
                     (with_messagesDiv (with_device a d)
                        (messagesDiv (with_device a d)
                         ++ [Placeholder (default "" (str_field "created_at" message))]))))
     ≤ history_fetches chatId (sent a) + n)%nat).
  { destruct (negb fdf); [|by apply Hplace].
    pose proof (refetch_chat_key_sent db (with_device a d) token_user chatId) as Hs.
    destruct (AppJs.refetch_chat_key db (with_device a d) token_user chatId) as [a0 b].
    cbn [fst] in Hs.
    assert (Hf : history_fetches chatId (sent a0) = history_fetches chatId (sent a)).
    { rewrite Hs, history_fetches_snoc, keys_path_not_history.
      cbn [sent with_device]. lia. }
    destruct b.
    - rewrite <- Hf. apply Hreload.
    - rewrite <- Hf. apply (IH true (with_messagesDiv a0 _)). }
  destruct r as [plaintext|e]; [|exact Hcatch].
  cbn [currentUser with_device].
  destruct (currentUser a) as [me|]; [|exact Hcatch].
  by apply Hplace.
Qed.

Lemma history_prologue_fetches (db : Db) (a : App) (chatId : string) :
  (history_fetches chatId (sent (AppJs.history_prologue db a chatId).1)
   ≤ history_fetches chatId (sent a) + 1)%nat.
Proof.
  unfold AppJs.history_prologue.
  repeat (case_match; simplify_eq);
    cbn [fst sent send with_device with_messagesDiv];
    rewrite ?history_fetches_snoc, ?keys_path_not_history;
    try destruct (is_history_fetch _ _); lia.
Qed.

(** The history of a chat is fetched at most [2 - retryAttempt] times by
    [loadMessageHistory(chatId, retryAttempt)]: the batch is loaded again
    at most once, and a call with [retryAttempt > 1] does nothing. *)
Lemma history_fetched_at_most_twice (db : Db) (a : App) (chatId : string)
    (retryAttempt : nat) :
  (history_fetches chatId (sent (AppJs.loadMessageHistory db a chatId retryAttempt))
   ≤ history_fetches chatId (sent a) + (2 - retryAttempt))%nat
  ∧ (1 < retryAttempt → AppJs.loadMessageHistory db a chatId retryAttempt = a)%nat.
Proof.
  unfold AppJs.loadMessageHistory. split.
  - generalize (2 - retryAttempt)%nat as left. intros left. revert a.
    induction left as [|left IH]; intros a; [simpl; lia|].
    cbn [AppJs.loadMessageHistory_from].
    pose proof (history_prologue_fetches db a chatId) as Hp.
    destruct (AppJs.history_prologue db a chatId) as [a1 [[token_user messages]|]];
      cbn [fst] in Hp; [|lia].
    pose proof (decrypt_each_fetches
      (λ x, AppJs.loadMessageHistory_from left db x chatId) left db token_user chatId
      messages IH false a1) as Hd.
    lia.
  - intros Hgt. replace (2 - retryAttempt)%nat with 0%nat by lia. reflexivity.
Qed.

End HistoryBound.

(** ** The properties at concrete states *)

Section Scenarios.

Lemma filter_unique {A K} (key : A → K) (t : list A) (P : A → Prop)
    `{∀ x, Decision (P x)} (k : K) :
  (∀ r, P r → key r = k) → NoDup (key <$> t) → (length (filter P t) ≤ 1)%nat.
Proof.
  intros HP. induction t as [|a t IH]; [simpl; lia|].
  rewrite fmap_cons, NoDup_cons. intros [Hnotin Hnd].
  rewrite filter_cons. destruct (decide (P a)) as [Ha|Ha]; [|by apply IH].
  assert (Hnil : filter P t = []).
  { destruct (filter P t) as [|r l] eqn:E; [done|]. exfalso. apply Hnotin.
    assert (Hr : r ∈ filter P t) by (rewrite E; apply list_elem_of_here).
    apply list_elem_of_filter in Hr as [HPr Hin].
    rewrite (HP a Ha), <- (HP r HPr). by apply list_elem_of_fmap_2. }
  rewrite Hnil. simpl. lia.
Qed.

Lemma pk_user_keys_NoDup (db : Db) :
  NoDup (user_id <$> user_keys db) → pk_user_keys db.
Proof. intros Hnd u. by apply (filter_unique user_id _ _ u). Qed.

Lemma unique_chat_keys_NoDup (db : Db) :
  NoDup ((λ r, (chat_id r, recipient_id r)) <$> chat_keys db) → unique_chat_keys db.
Proof.
  intros Hnd c u.
  apply (filter_unique (λ r, (chat_id r, recipient_id r)) _ _ (c, u)); [|done].
  by intros r [-> ->].
Qed.

#[local] Existing Instance symbolic_crypto.
#[local] Existing Instance symbolic_encryption.
#[local] Existing Instance uuid_validation.

(** C1 (as stated) fails: Alice has a public key on file and uploads a new
    key set; the reply carries no [key_rotation] and her wrapped
    conversation keys are still on file. *)
Lemma post_keys_rotation_counterexample :
  KeysModel.getPublicKey db_chatting alice = Some "pub:alice"
  ∧ uploadKeysSchema (upload_body "alice2") = None
  ∧ ¬ (∃ b, jfield "key_rotation"
              (body (KeysRoutes.post_root db_chatting alice (upload_body "alice2") "t1").2)
            = Some (JBool b))
  ∧ ¬ (∀ k, k ∈ chat_keys (KeysRoutes.post_root db_chatting alice
                             (upload_body "alice2") "t1").1 →
            recipient_id k ≠ alice ∧ sender_id k ≠ alice).
Proof.
  split_and!; try (vm_compute; reflexivity).
  - intros [b Hb]. vm_compute in Hb. discriminate.
  - intros Hall.
    destruct (Hall (mkChatKey chat1 alice alice "rsa[pub:alice]aes:k1")) as [Hr _].
    + vm_compute. apply list_elem_of_here.
    + by apply Hr.
Qed.

Lemma post_keys_upserts_without_rotation_witness :
  uploadKeysSchema (upload_body "alice2") = None
  ∧ chat_keys (KeysRoutes.post_root db_chatting alice (upload_body "alice2") "t1").1
    = chat_keys db_chatting
  ∧ (KeysRoutes.post_root db_chatting alice (upload_body "alice2") "t1").2
    = res_json (JObj [("message", JStr "Keys uploaded successfully")]).
Proof.
  split; [vm_compute; reflexivity|].
  destruct (post_keys_upserts_without_rotation db_chatting alice
              (upload_body "alice2") "t1")
    as (pk & emk & epk & _ & _ & _ & _ & Hresp & _ & Hkeys & _);
    [vm_compute; reflexivity|].
  split; assumption.
Defined.

Lemma public_key_rotation_deletes_chat_keys_witness :
  KeysModel.getPublicKey db_chatting alice ≠ None
  ∧ status (UserRoutes.post_public_key db_chatting alice "pub:alice2" "t1").2 = 200
  ∧ jfield "key_rotation"
      (body (UserRoutes.post_public_key db_chatting alice "pub:alice2" "t1").2)
    = Some (JBool true).
Proof.
  assert (Hkey : KeysModel.getPublicKey db_chatting alice ≠ None)
    by (vm_compute; discriminate).
  split; [exact Hkey|].
  destruct (public_key_rotation_deletes_chat_keys db_chatting alice "pub:alice2" "t1" Hkey)
    as (Hst & Hrot & _).
  split; assumption.
Defined.

Lemma account_keys_own_only_public_key_for_all_witness :
  bob_in_capitals ≠ alice
  ∧ KeysRoutes.get_userId db_chatting alice bob_in_capitals = res_error 403 "Forbidden"
  ∧ UserRoutes.get_public_key db_chatting alice bob_in_capitals
    = mkResponse 200 (JObj [("public_key", JStr "pub:bob")])
  ∧ UserRoutes.get_public_key db_chatting alice dave
    = res_error 404 "Public key not found".
Proof.
  assert (Hne : bob_in_capitals ≠ alice) by (vm_compute; discriminate).
  destruct (account_keys_own_only_public_key_for_all db_chatting alice bob_in_capitals)
    as (Hkeys & Hpub & _).
  destruct (account_keys_own_only_public_key_for_all db_chatting alice dave)
    as (_ & _ & Hnone & _).
  split_and!.
  - exact Hne.
  - exact (proj1 (Hkeys Hne)).
  - apply (Hpub bob (key_row bob "bob")).
    + vm_compute. reflexivity.
    + apply pk_user_keys_NoDup. compute_done.
    + unfold db_chatting. cbn [user_keys].
      apply list_elem_of_further, list_elem_of_here.
    + reflexivity.
    + vm_compute. discriminate.
  - apply (Hnone dave).
    + vm_compute. reflexivity.
    + intros row Hrow Hid. unfold db_chatting in Hrow. cbn [user_keys] in Hrow.
      apply list_elem_of_In in Hrow. simpl in Hrow.
      destruct Hrow as [<-|[<-|[<-|[]]]]; vm_compute in Hid; discriminate Hid.
Defined.

Lemma key_writes_are_upserts_witness :
  KeysModel.rows_of carol
    (user_keys (KeysModel.uploadUserKeys
                  (KeysModel.uploadUserKeys db_chatting carol "pub:carol"
                     (wrapped_master "carol") (wrapped_private "carol") "t1").1
                  carol "pub:carol" (wrapped_master "carol") (wrapped_private "carol")
                  "t2").1)
  = [mkUserKey carol "pub:carol" (Some (wrapped_master "carol"))
               (Some (wrapped_private "carol")) "t2"]
  ∧ KeysModel.slot chat1 bob
      (chat_keys (KeysModel.shareChatKey
                    (KeysModel.shareChatKey db_chatting chat1 alice bob "first").1
                    chat1 bob bob "second").1)
    = [mkChatKey chat1 bob bob "second"].
Proof.
  destruct (key_writes_are_upserts db_chatting carol "pub:carol"
              (wrapped_master "carol") (wrapped_private "carol") "t1" "t2"
              chat1 alice bob bob "first" "second")
    as (_ & _ & Hrows & _ & _ & Hslot).
  - apply pk_user_keys_NoDup. compute_done.
  - compute_done.
  - apply unique_chat_keys_NoDup. compute_done.
  - compute_done.
  - compute_done.
  - compute_done.
  - compute_done.
  - split; assumption.
Defined.

Lemma share_key_recipient_check_http_only_witness :
  (carol ∉ [alice; bob])
  ∧ ChatRoutes.post_share_key db_chatting alice chat1 carol "rsa[pub:carol]aes:k1"
    = (db_chatting, res_error 400 "Recipient is not in this chat")
  ∧ mkChatKey chat1 alice carol "rsa[pub:carol]aes:k1"
    ∈ chat_keys (Socket.chat_key_share db_chatting alice chat1 carol
                   "rsa[pub:carol]aes:k1").1.
Proof.
  assert (Hnot : carol ∉ [alice; bob]) by compute_done.
  split; [exact Hnot|].
  destruct (share_key_recipient_check_http_only db_chatting alice chat1 carol
              "rsa[pub:carol]aes:k1" chat1 carol (mkChat chat1 direct [alice; bob] alice))
    as (Hhttp & Hstored & _).
  - vm_compute. reflexivity.
  - vm_compute. reflexivity.
  - vm_compute. reflexivity.
  - compute_done.
  - exact Hnot.
  - compute_done.
  - compute_done.
  - apply unique_chat_keys_NoDup. compute_done.
  - split; assumption.
Defined.

Lemma logout_clears_keys_keeps_master_key_witness :
  localStorage (device (AppJs.handleLogout alice_app_stale)) !! ("chatKey_" ++ chat1) = None
  ∧ (CryptoHelper.loadMasterKeyFromIndexedDB
       (device (AppJs.handleLogout alice_app_stale))).2 = Some "aes:master-alice"
  ∧ AppJs.handleLogin [alice_account] db_chatting (AppJs.handleLogout alice_app_stale)
      alice_email alice_password
    = (let a1 :=
         with_currentUser
           (with_session
              (send (with_device (AppJs.handleLogout alice_app_stale)
                       (device (AppJs.handleLogout alice_app_stale)))
                 (AuthSignIn alice_email
                    (CryptoHelper.deriveAuthPassword alice_password alice_email)))
              (Some alice))
           (Some alice) in
       let '(a2, r) :=
         AppJs.handleLogin_fast db_chatting a1 alice alice_password "aes:master-alice" in
       match r with
       | Throw e => showAlert a2 "error" e
       | Ok _ =>
           AppJs.initializeChat
             (showAlert a2 "success" "Login successful! Loading your chats...")
       end).
Proof.
  destruct (logout_clears_keys_keeps_master_key alice_app_stale)
    as (_ & _ & _ & _ & Hchat & _ & _ & Hload & Hfast).
  split_and!.
  - apply Hchat.
  - rewrite Hload. vm_compute. reflexivity.
  - apply Hfast.
    + vm_compute. reflexivity.
    + vm_compute. discriminate.
    + vm_compute. discriminate.
    + vm_compute. reflexivity.
Defined.

Lemma auth_credential_is_derived_hash_witness :
  CryptoHelper.deriveAuthPassword alice_password alice_email
  = "base64(sha256(correct horse:auth:alice@example.org))"
  ∧ sent (AppJs.handleLogin [alice_account] db_chatting alice_app_foreign_vault
            alice_email alice_password)
    = [AuthSignIn alice_email "base64(sha256(correct horse:auth:alice@example.org))";
       HttpGet ("/api/keys/" ++ alice)]
  ∧ (∃ rest,
       sent (AppJs.handleSignup db_chatting fresh_app dave_email dave_password
               (AppJs.SignUpUser dave true) dave_draw "t1" "Bad Request").2
       = AuthSignUp dave_email "base64(sha256(tr0ub4dor:auth:dave@example.org))" :: rest)
  ∧ sent (AppJs.handleSignup db_chatting fresh_app dave_email "tr0ub"
            (AppJs.SignUpUser dave true) dave_draw "t1" "Bad Request").2 = []
  ∧ sent (AppJs.handleLogin [alice_account] db_chatting alice_app_foreign_vault
            "" alice_password) = [].
Proof.
  destruct (auth_credential_is_derived_hash alice_email alice_password)
    as (Heq & _ & _ & _ & Hlogin & _).
  destruct (auth_credential_is_derived_hash dave_email dave_password)
    as (_ & _ & Hsignup & _).
  destruct (auth_credential_is_derived_hash dave_email "tr0ub")
    as (_ & _ & _ & Hshort & _).
  destruct (auth_credential_is_derived_hash "" alice_password)
    as (_ & _ & _ & _ & _ & Hempty & _).
  split_and!; [| | |apply Hshort; right; vm_compute; lia|apply Hempty; by left].
  - rewrite Heq. vm_compute. reflexivity.
  - rewrite Hlogin.
    + vm_compute. reflexivity.
    + vm_compute. discriminate.
    + vm_compute. discriminate.
  - destruct (Hsignup db_chatting fresh_app (AppJs.SignUpUser dave true) dave_draw
                "t1" "Bad Request") as (rest & Hsent & _).
    + vm_compute. discriminate.
    + vm_compute. lia.
    + exists rest. rewrite Hsent. vm_compute. reflexivity.
Defined.

Lemma session_restore_mismatch_keeps_master_key_witness :
  indexedDB (device alice_app_foreign_vault) = DBKeys (Some "aes:master-mallory")
  ∧ session (AppJs.handleExistingSession db_chatting alice_app_foreign_vault alice) = None
  ∧ indexedDB (device (AppJs.handleExistingSession db_chatting alice_app_foreign_vault alice))
    = DBKeys (Some "aes:master-mallory")
  ∧ (CryptoHelper.loadMasterKeyFromIndexedDB
       (device (AppJs.handleExistingSession db_chatting alice_app_foreign_vault alice))).2
    = Some "aes:master-mallory".
Proof.
  split; [reflexivity|].
  destruct (session_restore_mismatch_keeps_master_key db_chatting alice_app_foreign_vault
              alice "aes:master-mallory" "OperationError" (key_row alice "alice"))
    as (_ & Hout & Hvault & Hnext).
  - reflexivity.
  - vm_compute. discriminate.
  - vm_compute. reflexivity.
  - reflexivity.
  - vm_compute. reflexivity.
  - vm_compute. reflexivity.
  - split_and!; assumption.
Defined.

Lemma chat_key_resolution_order_and_first_share_witness :
  AppJs.resolveChatKey db_chatting alice_app_stale alice chat1 bob "aes:k9"
  = (db_chatting,
     with_device alice_app_stale
       (CryptoHelper.loadChatKey (device alice_app_stale) chat1).1,
     Ok "aes:k0")
  ∧ (∃ a', AppJs.resolveChatKey db_chatting alice_app alice chat1 bob "aes:k9"
           = (db_chatting, a', Ok "aes:k1")
           ∧ chatKeys (device a') !! chat1 = Some "aes:k1")
  ∧ (∃ db' a',
       AppJs.resolveChatKey db_fresh_chat_of_bob alice_app alice chat1 bob "aes:k9"
       = (db', a', Ok "aes:k9")
       ∧ KeysModel.getAllChatKeys db' chat1
         = [mkChatKey chat1 alice alice "rsa[pub:alice]aes:k9";
            mkChatKey chat1 alice bob "rsa[pub:bob]aes:k9"]
       ∧ length (KeysModel.getAllChatKeys db' chat1) = 2)
  ∧ uuidRegex_test bob_in_capitals = true
  ∧ pg_uuid bob_in_capitals = Some bob
  ∧ (∃ db' a',
       AppJs.resolveChatKey db_fresh_chat alice_app alice chat1 bob_in_capitals "aes:k9"
       = (db', a', Ok "aes:k9")
       ∧ KeysModel.getAllChatKeys db' chat1
         = [mkChatKey chat1 alice alice "rsa[pub:alice]aes:k9"]
       ∧ length (KeysModel.getAllChatKeys db' chat1) = 1
       ∧ KeysModel.getChatKey db' chat1 bob = None
       ∧ ChatRoutes.get_my_key db' bob chat1 = res_error 404 "Chat key not found").
Proof.
  split_and!.
  - apply (proj1 (chat_key_resolution_order_and_first_share db_chatting alice_app_stale
                    alice bob bob chat1 "aes:k9" "pub:alice" "pub:bob" "aes:k0"
                    (mkChat chat1 direct [alice; bob] alice)
                    (mkChatKey chat1 alice alice "rsa[pub:alice]aes:k1"))).
    vm_compute. reflexivity.
  - apply (proj1 (proj2 (chat_key_resolution_order_and_first_share db_chatting alice_app
                    alice bob bob chat1 "aes:k9" "pub:alice" "pub:bob" "aes:k1"
                    (mkChat chat1 direct [alice; bob] alice)
                    (mkChatKey chat1 alice alice "rsa[pub:alice]aes:k1")))).
    + vm_compute. reflexivity.
    + reflexivity.
    + vm_compute. reflexivity.
    + vm_compute. reflexivity.
    + compute_done.
    + vm_compute. reflexivity.
    + vm_compute. reflexivity.
  - destruct (proj2 (proj2 (chat_key_resolution_order_and_first_share
                    db_fresh_chat_of_bob
                    alice_app alice bob bob chat1 "aes:k9" "pub:alice" "pub:bob" "aes:k1"
                    (mkChat chat1 direct [bob; alice] bob)
                    (mkChatKey chat1 alice alice "rsa[pub:alice]aes:k1"))))
      as [Htwo _].
    1-18: first [ reflexivity | vm_compute; reflexivity | compute_done
                | vm_compute; discriminate ].
    destruct Htwo as (db' & a' & Hres & _ & Hall & Hlen & _).
    + compute_done.
    + vm_compute. reflexivity.
    + exists db', a'. split_and!; assumption.
  - vm_compute. reflexivity.
  - vm_compute. reflexivity.
  - destruct (proj2 (proj2 (chat_key_resolution_order_and_first_share db_fresh_chat
                    alice_app alice bob bob_in_capitals chat1 "aes:k9" "pub:alice"
                    "pub:bob" "aes:k1"
                    (mkChat chat1 direct [alice; bob] alice)
                    (mkChatKey chat1 alice alice "rsa[pub:alice]aes:k1"))))
      as [_ Hone].
    1-18: first [ reflexivity | vm_compute; reflexivity | compute_done
                | vm_compute; discriminate ].
    destruct Hone as (db' & a' & Hres & _ & _ & Hall & Hlen & _ & Hnone & Hget).
    + compute_done.
    + exists db', a'. split_and!; assumption.
Defined.

(** The scenario of the specification, from the creation of the chat:
    Alice starts a chat with Bob; the directory then holds the two
    records, and nothing else. *)
Lemma start_chat_creates_two_records :
  chat_keys (AppJs.handleStartChat db_signed_up alice_app bob chat1 "aes:k9").1
  = [mkChatKey chat1 alice alice "rsa[pub:alice]aes:k9";
     mkChatKey chat1 alice bob "rsa[pub:bob]aes:k9"]
  ∧ alerts (AppJs.handleStartChat db_signed_up alice_app bob chat1 "aes:k9").2
    = [("success", "Chat ready! You can now send messages.")].
Proof. split; vm_compute; reflexivity. Qed.

(** The same start with Bob's id typed in capitals, which the form
    accepts: the chat is created for Alice and Bob, Alice's record is the
    only one stored, the handler reports the chat ready, and there is no
    record for Bob to fetch. *)
Lemma start_chat_in_capitals_stores_one_record :
  chats (AppJs.handleStartChat db_signed_up alice_app bob_in_capitals chat1 "aes:k9").1
  = [mkChat chat1 direct [alice; bob] alice]
  ∧ chat_keys (AppJs.handleStartChat db_signed_up alice_app bob_in_capitals chat1
                 "aes:k9").1
    = [mkChatKey chat1 alice alice "rsa[pub:alice]aes:k9"]
  ∧ alerts (AppJs.handleStartChat db_signed_up alice_app bob_in_capitals chat1
              "aes:k9").2
    = [("success", "Chat ready! You can now send messages.")]
  ∧ ChatRoutes.get_my_key
      (AppJs.handleStartChat db_signed_up alice_app bob_in_capitals chat1 "aes:k9").1
      bob chat1
    = res_error 404 "Chat key not found".
Proof. split_and!; vm_compute; reflexivity. Qed.

(** C4 (the code at the failing input).  The history holds one message
    that no key on file decrypts.  The first pass fails on it, fetches the
    record on file and loads the history again; the second pass fails on
    it, fetches the record once more, and the call with [retryAttempt = 2]
    returns at its guard: the pane is left empty, with no placeholder for
    the message; a later message that the key on file does decrypt is not
    shown either.  When the first fetch recovers the right key the reload
    shows every message.  A placeholder is shown only when the fetch of
    the first pass gives no usable record; the stale key then stays
    cached, since the entry that is removed is 'chatKeys_...', not
    'chatKey_...'. *)
Theorem history_retry_ends_without_placeholder :
  messagesDiv (AppJs.loadMessageHistory db_rekeyed alice_app_stale chat1 0) = []
  ∧ sent (AppJs.loadMessageHistory db_rekeyed alice_app_stale chat1 0)
    = [HttpGet ("/api/chats/" ++ chat1 ++ "/messages?limit=50");
       HttpGet ("/api/chats/" ++ chat1 ++ "/keys");
       HttpGet ("/api/chats/" ++ chat1 ++ "/messages?limit=50");
       HttpGet ("/api/chats/" ++ chat1 ++ "/keys")]
  ∧ (CryptoHelper.decryptMessage
       (device (AppJs.loadMessageHistory db_rekeyed alice_app_stale chat1 0))
       "gcm[aes:k1,iv7]see you at noon" "iv7" chat1).2 = Throw "OperationError"
  ∧ messagesDiv (AppJs.loadMessageHistory db_rekeyed_later alice_app_stale chat1 0) = []
  ∧ (CryptoHelper.decryptMessage
       (device (AppJs.loadMessageHistory db_rekeyed_later alice_app_stale chat1 0))
       "gcm[aes:k2,iv9]are you there" "iv9" chat1).2 = Ok "are you there"
  ∧ messagesDiv (AppJs.loadMessageHistory db_history alice_app_stale chat1 0)
    = [Shown "see you at noon" false; Shown "fine" true]
  ∧ messagesDiv (AppJs.loadMessageHistory db_history_no_record alice_app_stale chat1 0)
    = [Placeholder "t7"; Placeholder "t8"]
  ∧ chatKeys (device (AppJs.loadMessageHistory db_history_no_record alice_app_stale
                        chat1 0)) !! chat1 = Some "aes:k0"
  ∧ localStorage (device (AppJs.loadMessageHistory db_history_no_record alice_app_stale
                            chat1 0)) !! ("chatKey_" ++ chat1) = Some "aes:k0".
Proof. split_and!; vm_compute; reflexivity. Qed.

End Scenarios.


(** ** Further properties of the key directory *)

Section DirectoryRoundTrips.

Lemma slot_other (c u c' u' : string) (row : ChatKey) (t : list ChatKey) :
  (c', u') ≠ (c, u) → chat_id row = c → recipient_id row = u →
  KeysModel.slot c' u'
    ((λ r, if bool_decide (chat_id r = c ∧ recipient_id r = u) then row else r) <$> t)
  = KeysModel.slot c' u' t.
Proof.
  intros Hne Hc Hu. unfold KeysModel.slot.
  induction t as [|r t IH]; [done|].
  rewrite fmap_cons, !filter_cons. case_bool_decide as Hr.
  - rewrite !decide_False; [exact IH| |].
    + intros [? ?]. apply Hne. destruct Hr. congruence.
    + intros [? ?]. apply Hne. congruence.
  - destruct (decide (chat_id r = c' ∧ recipient_id r = u')); by rewrite IH.
Qed.

(** A share that returns a row leaves exactly that row in its slot, and
    every other slot, the chats and the profiles as they were. *)
Lemma shareChatKey_Some (db : Db) (c s r e : string) (x : ChatKey) :
  (KeysModel.shareChatKey db c s r e).2 = Some x →
  KeysModel.slot c r (chat_keys (KeysModel.shareChatKey db c s r e).1)
  = [mkChatKey c s r e]
  ∧ (∀ c' u', (c', u') ≠ (c, r) →
       KeysModel.slot c' u' (chat_keys (KeysModel.shareChatKey db c s r e).1)
       = KeysModel.slot c' u' (chat_keys db))
  ∧ chats (KeysModel.shareChatKey db c s r e).1 = chats db
  ∧ user_profiles (KeysModel.shareChatKey db c s r e).1 = user_profiles db
  ∧ user_keys (KeysModel.shareChatKey db c s r e).1 = user_keys db
  ∧ messages (KeysModel.shareChatKey db c s r e).1 = messages db.
Proof.
  unfold KeysModel.shareChatKey. case_bool_decide as Hold.
  - destruct (_ || _); cbn [fst snd chat_keys set_chat_keys]; [|done].
    rewrite slot_rewrite by done. intros Hx.
    split_and!; try done.
    + apply single_Some in Hx.
      destruct (KeysModel.slot c r (chat_keys db)) as [|r0 [|r1 l]]; done.
    + intros c' u' Hne. by apply slot_other.
  - destruct (_ && _); cbn [fst snd chat_keys set_chat_keys]; [|done].
    intros _. unfold KeysModel.slot in *. split_and!; try done.
    + rewrite filter_app, Hold. by rewrite filter_cons, decide_True.
    + intros c' u' Hne. rewrite filter_app, filter_cons, decide_False.
      * by rewrite filter_nil, app_nil_r.
      * cbn. intros [? ?]. apply Hne. congruence.
Qed.

Lemma getChatById_chats (db db' : Db) (c : string) :
  chats db' = chats db → ChatModel.getChatById db' c = ChatModel.getChatById db c.
Proof. unfold ChatModel.getChatById. by intros ->. Qed.

Lemma getChatKey_slot (db db' : Db) (c u : string) :
  KeysModel.slot c u (chat_keys db') = KeysModel.slot c u (chat_keys db) →
  KeysModel.getChatKey db' c u = KeysModel.getChatKey db c u.
Proof. unfold KeysModel.getChatKey. by intros ->. Qed.

Lemma getChatById_in (db : Db) (c : string) (chat : Chat) :
  ChatModel.getChatById db c = Some chat → chat ∈ chats db.
Proof.
  unfold ChatModel.getChatById. intros Hs. apply single_Some in Hs.
  assert (Hin : chat ∈ filter (λ x, c_id x = c) (chats db))
    by (rewrite Hs; apply list_elem_of_here).
  apply list_elem_of_filter in Hin. tauto.
Qed.

(** X1.  A chat key that POST /api/chats/:chatId/share-key accepts is
    the one GET /api/chats/:chatId/my-key then serves to its recipient,
    and the key on file in every other slot is left as it was.  The
    texts of the request are read as uuids; the slot written is the one
    of the chat read from [chatId]. *)
Theorem shared_key_is_served_to_recipient
    (db : Db) (caller chatId recipient key : string) :
  key ≠ "" →
  uuid_participants db →
  ok (ChatRoutes.post_share_key db caller chatId recipient key).2 = true →
  ChatRoutes.get_my_key
    (ChatRoutes.post_share_key db caller chatId recipient key).1 recipient chatId
  = res_json (JObj [("encrypted_chat_key", JStr key)])
  ∧ (∀ c u, (Some c, u) ≠ (pg_uuid chatId, recipient) →
       KeysModel.getChatKey
         (ChatRoutes.post_share_key db caller chatId recipient key).1 c u
       = KeysModel.getChatKey db c u).
Proof.
  intros Hkey Huuid. unfold ChatRoutes.post_share_key, ChatRoutes.with_chat.
  destruct (pg_uuid chatId) as [c0|] eqn:Hcid; cbn [mbind option_bind fst snd];
    [|by rewrite not_ok_error by lia].
  destruct (ChatModel.getChatById db c0) as [chat|] eqn:Hchat;
    cbn [fst snd]; [|by rewrite not_ok_error by lia].
  destruct (bool_decide (caller ∈ participants chat)); cbn [negb fst snd];
    [|by rewrite not_ok_error by lia].
  case_bool_decide as Hin; cbn [negb fst snd]; [|by rewrite not_ok_error by lia].
  rewrite (Huuid chat recipient (getChatById_in _ _ _ Hchat) Hin).
  pose proof (shareChatKey_Some db c0 caller recipient key) as Hs.
  destruct (KeysModel.shareChatKey db c0 caller recipient key) as [db1 [x|]];
    cbn [fst snd] in *; [|by rewrite not_ok_error by lia].
  intros _. destruct (Hs x eq_refl) as (Hslot & Hother & Hchats & _).
  split.
  - unfold ChatRoutes.get_my_key, ChatRoutes.with_chat.
    rewrite Hcid, !read_bind.
    rewrite (getChatById_chats _ _ _ Hchats), Hchat, (bool_decide_true _ Hin).
    cbn [negb]. unfold KeysModel.getChatKey. rewrite Hslot. cbn [single encrypted_chat_key].
    by rewrite (bool_decide_false _ Hkey).
  - intros c u Hne. apply getChatKey_slot. apply Hother. congruence.
Qed.

Lemma db_chatting_uuid_participants (db : Db) :
  chats db = chats db_chatting → uuid_participants db.
Proof.
  intros Hchats chat p Hchat Hp. rewrite Hchats in Hchat.
  apply list_elem_of_singleton in Hchat as ->.
  apply list_elem_of_In in Hp. simpl in Hp.
  destruct Hp as [<-|[<-|[]]]; vm_compute; reflexivity.
Qed.

Lemma shared_key_is_served_to_recipient_witness :
  ChatRoutes.get_my_key
    (ChatRoutes.post_share_key db_fresh_chat alice chat1 bob "rsa[pub:bob]aes:k1").1
    bob chat1
  = res_json (JObj [("encrypted_chat_key", JStr "rsa[pub:bob]aes:k1")])
  ∧ KeysModel.getChatKey
      (ChatRoutes.post_share_key db_chatting alice chat1 bob "rsa[pub:bob]aes:k2").1
      chat1 alice
    = Some "rsa[pub:alice]aes:k1".
Proof.
  split.
  - apply (shared_key_is_served_to_recipient db_fresh_chat alice chat1 bob
             "rsa[pub:bob]aes:k1");
      [done | by apply db_chatting_uuid_participants | vm_compute; reflexivity].
  - destruct (shared_key_is_served_to_recipient db_chatting alice chat1 bob
                "rsa[pub:bob]aes:k2") as [_ Hother];
      [done | by apply db_chatting_uuid_participants | vm_compute; reflexivity |].
    rewrite Hother; [vm_compute; reflexivity|]. by intros [= E].
Defined.

End DirectoryRoundTrips.

Section DirectoryInvariants.

Lemma filter_key_fmap {A K} (key : A → K) `{EqDecision K} (g : A → A) (k : K)
    (t : list A) :
  (∀ r, key (g r) = key r) →
  length (filter (λ r, key r = k) (g <$> t)) = length (filter (λ r, key r = k) t).
Proof.
  intros Hg. induction t as [|r t IH]; [done|].
  rewrite fmap_cons, !filter_cons, Hg.
  destruct (decide (key r = k)); cbn [length]; by rewrite IH.
Qed.

Lemma length_filter_filter {A} (P Q : A → Prop) `{∀ x, Decision (P x)}
    `{∀ x, Decision (Q x)} (t : list A) :
  (length (filter P (filter Q t)) ≤ length (filter P t))%nat.
Proof.
  induction t as [|r t IH]; [done|].
  rewrite !filter_cons. destruct (decide (Q r)), (decide (P r));
    rewrite ?filter_cons, ?decide_True, ?decide_False by done; cbn [length]; lia.
Qed.

Lemma upsert_user_key_pk (db : Db) (u : string) (f : UserKey → UserKey)
    (fresh : UserKey) :
  (∀ r, user_id (f r) = u) → user_id fresh = u →
  pk_user_keys db → pk_user_keys (KeysModel.upsert_user_key db u f fresh).1.
Proof.
  intros Hf Hfresh Hpk u'. unfold KeysModel.upsert_user_key.
  case_bool_decide as Hrows; [|case_bool_decide as Hprof];
    cbn [fst user_keys set_user_keys]; [| |apply Hpk].
  - rewrite (filter_key_fmap user_id); [apply Hpk|].
    intros r. case_bool_decide; [by rewrite Hf|done].
  - rewrite filter_app, length_app, filter_cons.
    destruct (decide (user_id fresh = u')) as [Hu|Hu]; cbn [length filter].
    + assert (u' = u) as -> by congruence.
      unfold KeysModel.rows_of in Hrows. rewrite Hrows. cbn. lia.
    + rewrite filter_nil. cbn. pose proof (Hpk u'). lia.
Qed.

Lemma shareChatKey_unique (db : Db) (c s r e : string) :
  unique_chat_keys db → unique_chat_keys (KeysModel.shareChatKey db c s r e).1.
Proof.
  intros Huq c' u'. unfold KeysModel.shareChatKey.
  case_bool_decide as Hold.
  - destruct (_ || _); cbn [fst chat_keys set_chat_keys]; [|apply Huq].
    destruct (decide ((c', u') = (c, r))) as [[= -> ->]|Hne].
    + pose proof (slot_rewrite c r (mkChatKey c s r e) (chat_keys db)
                    eq_refl eq_refl) as E.
      unfold KeysModel.slot in E. rewrite E, length_fmap. apply Huq.
    + pose proof (slot_other c r c' u' (mkChatKey c s r e) (chat_keys db)
                    Hne eq_refl eq_refl) as E.
      unfold KeysModel.slot in E. rewrite E. apply Huq.
  - destruct (_ && _); cbn [fst chat_keys set_chat_keys]; [|apply Huq].
    rewrite filter_app, length_app, filter_cons. cbn [chat_id recipient_id].
    destruct (decide (c = c' ∧ r = u')) as [[<- <-]|Hne].
    + unfold KeysModel.slot in Hold. rewrite Hold. cbn. lia.
    + rewrite filter_nil. cbn. pose proof (Huq c' u'). lia.
Qed.

(** X2.  Every statement the key directory executes keeps the two
    uniqueness constraints of the schema: one key row per user, one chat
    key per chat and recipient. *)
Theorem key_directory_writes_keep_constraints (db : Db) :
  pk_user_keys db → unique_chat_keys db →
  (∀ u pk now,
     pk_user_keys (KeysModel.upsertPublicKey db u pk now).1
     ∧ unique_chat_keys (KeysModel.upsertPublicKey db u pk now).1)
  ∧ (∀ u pk emk epk now,
       pk_user_keys (KeysModel.uploadUserKeys db u pk emk epk now).1
       ∧ unique_chat_keys (KeysModel.uploadUserKeys db u pk emk epk now).1)
  ∧ (∀ u emk now,
       pk_user_keys (KeysModel.updateEncryptedMasterKey db u emk now).1
       ∧ unique_chat_keys (KeysModel.updateEncryptedMasterKey db u emk now).1)
  ∧ (∀ u,
       pk_user_keys (KeysModel.deleteUserChatKeys db u).1
       ∧ unique_chat_keys (KeysModel.deleteUserChatKeys db u).1)
  ∧ (∀ c s r e,
       pk_user_keys (KeysModel.shareChatKey db c s r e).1
       ∧ unique_chat_keys (KeysModel.shareChatKey db c s r e).1)
  ∧ (∀ c u,
       pk_user_keys (KeysModel.deleteChatKey db c u).1
       ∧ unique_chat_keys (KeysModel.deleteChatKey db c u).1).
Proof.
  intros Hpk Huq. split_and!.
  - intros u pk now. split.
    + by apply upsert_user_key_pk.
    + intros c' u'. unfold KeysModel.upsertPublicKey.
      rewrite upsert_user_key_chat_keys. apply Huq.
  - intros u pk emk epk now. split.
    + by apply upsert_user_key_pk.
    + intros c' u'. unfold KeysModel.uploadUserKeys.
      rewrite upsert_user_key_chat_keys. apply Huq.
  - intros u emk now. split; [|exact Huq].
    intros u'. cbn [KeysModel.updateEncryptedMasterKey fst user_keys set_user_keys].
    rewrite (filter_key_fmap user_id); [apply Hpk|].
    intros r. by case_bool_decide.
  - intros u. split; [exact Hpk|].
    intros c' u'. cbn [KeysModel.deleteUserChatKeys fst chat_keys set_chat_keys].
    etrans; [apply length_filter_filter|]. etrans; [apply length_filter_filter|].
    apply Huq.
  - intros c s r e. split; [|by apply shareChatKey_unique].
    intros u'. unfold KeysModel.shareChatKey.
    repeat case_match; cbn [fst user_keys set_chat_keys]; apply Hpk.
  - intros c u. split; [exact Hpk|].
    intros c' u'. cbn [KeysModel.deleteChatKey fst chat_keys set_chat_keys].
    etrans; [apply length_filter_filter|]. apply Huq.
Qed.

Lemma key_directory_writes_keep_constraints_witness :
  pk_user_keys (KeysModel.shareChatKey db_chatting chat1 bob alice
                  "rsa[pub:alice]aes:k2").1
  ∧ unique_chat_keys (KeysModel.shareChatKey db_chatting chat1 bob alice
                        "rsa[pub:alice]aes:k2").1.
Proof.
  destruct (key_directory_writes_keep_constraints db_chatting)
    as (_ & _ & _ & _ & Hshare & _).
  - apply pk_user_keys_NoDup. compute_done.
  - apply unique_chat_keys_NoDup. compute_done.
  - apply Hshare.
Defined.

End DirectoryInvariants.

Section DirectoryDeletes.

Lemma filter_nil_intro {A} (P : A → Prop) `{∀ x, Decision (P x)} (l : list A) :
  (∀ x, x ∈ l → ¬ P x) → filter P l = [].
Proof.
  intros Hno. destruct (filter P l) as [|x t] eqn:E; [done|].
  assert (x ∈ filter P l) as Hx by (rewrite E; apply list_elem_of_here).
  apply list_elem_of_filter in Hx as [HP Hx]. by destruct (Hno x Hx).
Qed.

(** X3.  After [deleteChatKey] no key is on file for that chat and
    user, the chat is no longer among the user's chats, and every other
    slot is as it was. *)
Theorem deleteChatKey_removes_one_slot (db : Db) (chatId userId : string) :
  KeysModel.getChatKey (KeysModel.deleteChatKey db chatId userId).1 chatId userId = None
  ∧ (chatId ∉ KeysModel.getUserChats (KeysModel.deleteChatKey db chatId userId).1 userId)
  ∧ (∀ c u, (c, u) ≠ (chatId, userId) →
       KeysModel.slot c u (chat_keys (KeysModel.deleteChatKey db chatId userId).1)
       = KeysModel.slot c u (chat_keys db)).
Proof.
  cbn [KeysModel.deleteChatKey fst chat_keys set_chat_keys]. split_and!.
  - unfold KeysModel.getChatKey, KeysModel.slot.
    cbn [chat_keys set_chat_keys].
    assert ((filter (λ r, chat_id r = chatId ∧ recipient_id r = userId)
               (filter (λ r, ¬ (chat_id r = chatId ∧ recipient_id r = userId))
                  (chat_keys db))) = []) as ->; [|done].
    induction (chat_keys db) as [|r t IH]; [done|].
    rewrite filter_cons.
    destruct (decide (¬ (chat_id r = chatId ∧ recipient_id r = userId))) as [Hn|Hn];
      [|exact IH].
    by rewrite filter_cons, decide_False.
  - unfold KeysModel.getUserChats. cbn [chat_keys set_chat_keys].
    intros (r & -> & Hr)%list_elem_of_fmap.
    apply list_elem_of_filter in Hr as [Hu Hr].
    apply list_elem_of_filter in Hr as [Hn _]. by apply Hn.
  - intros c u Hne. unfold KeysModel.slot.
    induction (chat_keys db) as [|r t IH]; [done|].
    rewrite !filter_cons.
    destruct (decide (¬ (chat_id r = chatId ∧ recipient_id r = userId))) as [Hn|Hn].
    + rewrite filter_cons. by rewrite IH.
    + rewrite decide_False; [exact IH|].
      intros [? ?]. apply Hn. intros [? ?]. apply Hne. congruence.
Qed.

Lemma deleteChatKey_removes_one_slot_witness :
  KeysModel.getChatKey (KeysModel.deleteChatKey db_chatting chat1 bob).1 chat1 bob = None
  ∧ KeysModel.slot chat1 alice
      (chat_keys (KeysModel.deleteChatKey db_chatting chat1 bob).1)
    = [mkChatKey chat1 alice alice "rsa[pub:alice]aes:k1"].
Proof.
  destruct (deleteChatKey_removes_one_slot db_chatting chat1 bob)
    as (Hnone & _ & Hother).
  split; [exact Hnone|].
  rewrite Hother; [reflexivity|]. by intros [= E].
Defined.

Lemma deleteUserChatKeys_clears (db : Db) (u : string) :
  KeysModel.getUserChats (KeysModel.deleteUserChatKeys db u).1 u = []
  ∧ (∀ c peer row,
       KeysModel.slot c peer (chat_keys db) = [row] → sender_id row = u →
       KeysModel.getChatKey (KeysModel.deleteUserChatKeys db u).1 c peer = None).
Proof.
  pose proof (deleteUserChatKeys_spec db u) as Hspec. split.
  - unfold KeysModel.getUserChats.
    assert ((filter (λ r, recipient_id r = u)
               (chat_keys (KeysModel.deleteUserChatKeys db u).1)) = []) as ->; [|done].
    apply filter_nil_intro. intros k Hk%Hspec. tauto.
  - intros c peer row Hslot Hsender. unfold KeysModel.getChatKey.
    assert (KeysModel.slot c peer (chat_keys (KeysModel.deleteUserChatKeys db u).1) = [])
      as ->; [|done].
    apply filter_nil_intro. intros k Hk%Hspec [Hc Hp].
    assert (k ∈ KeysModel.slot c peer (chat_keys db)) as Hin
      by (apply list_elem_of_filter; tauto).
    rewrite Hslot in Hin. apply list_elem_of_singleton in Hin. subst k. tauto.
Qed.

(** X4.  POST /api/auth/sync with a falsy [has_keys] removes every chat
    key the caller received and every chat key the caller sent, so a
    peer whose key came from the caller finds none on file; with a
    truthy [has_keys] the directory is left as it is. *)
Theorem sync_without_keys_clears_both_directions
    (db : Db) (caller : string) (reqbody : json) :
  reqbody ≠ JNull →
  (truthy (jfield "has_keys" reqbody) = false →
     jfield "keys_cleared" (body (AuthRoutes.post_sync db caller reqbody).2)
     = Some (JBool true)
     ∧ KeysModel.getUserChats (AuthRoutes.post_sync db caller reqbody).1 caller = []
     ∧ (∀ k, k ∈ chat_keys (AuthRoutes.post_sync db caller reqbody).1
             ↔ k ∈ chat_keys db ∧ recipient_id k ≠ caller ∧ sender_id k ≠ caller)
     ∧ (∀ c peer row,
          KeysModel.slot c peer (chat_keys db) = [row] → sender_id row = caller →
          KeysModel.getChatKey (AuthRoutes.post_sync db caller reqbody).1 c peer = None))
  ∧ (truthy (jfield "has_keys" reqbody) = true →
       AuthRoutes.post_sync db caller reqbody
       = (db, res_json (JObj [("success", JBool true);
                              ("keys_cleared", JBool false);
                              ("message", JStr "Keys are synced.")]))).
Proof.
  intros Hbody. unfold AuthRoutes.post_sync.
  split; intros Ht; rewrite Ht; cbn [negb]; [|by destruct reqbody].
  destruct (deleteUserChatKeys_clears db caller) as [Hchats Hpeers].
  pose proof (deleteUserChatKeys_spec db caller) as Hspec.
  destruct reqbody; done.
Qed.

Lemma sync_without_keys_clears_both_directions_witness :
  KeysModel.getUserChats
    (AuthRoutes.post_sync db_chatting alice (JObj [("has_keys", JBool false)])).1 alice
  = []
  ∧ KeysModel.getChatKey
      (AuthRoutes.post_sync db_chatting alice (JObj [("has_keys", JBool false)])).1
      chat1 bob
    = None
  ∧ (AuthRoutes.post_sync db_chatting alice (JObj [("has_keys", JBool true)])).1
    = db_chatting.
Proof.
  destruct (sync_without_keys_clears_both_directions db_chatting alice
              (JObj [("has_keys", JBool false)])) as [Hfalsy _]; [done|].
  destruct (Hfalsy eq_refl) as (_ & Hchats & _ & Hpeers).
  destruct (sync_without_keys_clears_both_directions db_chatting alice
              (JObj [("has_keys", JBool true)])) as [_ Htruthy]; [done|].
  split_and!.
  - exact Hchats.
  - apply (Hpeers chat1 bob (mkChatKey chat1 alice bob "rsa[pub:bob]aes:k1"));
      reflexivity.
  - by rewrite (Htruthy eq_refl).
Defined.

End DirectoryDeletes.

Section AccountKeyRoutes.

Lemma updateMasterKeySchema_fields (reqbody : json) :
  updateMasterKeySchema reqbody = None →
  ∃ emk, jfield "encrypted_master_key" reqbody = Some emk.
Proof.
  unfold updateMasterKeySchema. destruct reqbody as [| | | |fields]; try discriminate.
  unfold joi_object at 1. unfold joi_first_error.
  cbn -[jfield joi_object joi_string_required].
  destruct (joi_object "encrypted_master_key" _ _) as [e|] eqn:E2.
  { rewrite bool_decide_true by done. discriminate. }
  intros _. unfold joi_object in E2.
  destruct (jfield "encrypted_master_key" (JObj fields)) as [emk|] eqn:F2; [|done].
  by exists emk.
Qed.

Lemma rows_of_updated (u u' : string) (g : UserKey → UserKey) (t : list UserKey) :
  (∀ r, user_id (g r) = user_id r) →
  KeysModel.rows_of u' ((λ r, if bool_decide (user_id r = u) then g r else r) <$> t)
  = (λ r, if bool_decide (user_id r = u) then g r else r) <$> KeysModel.rows_of u' t.
Proof.
  intros Hg. unfold KeysModel.rows_of.
  induction t as [|r t IH]; [done|].
  rewrite fmap_cons, !filter_cons.
  assert (user_id (if bool_decide (user_id r = u) then g r else r) = user_id r) as ->
    by (case_bool_decide; [apply Hg|done]).
  destruct (decide (user_id r = u')); by rewrite ?fmap_cons, IH.
Qed.

Lemma rows_of_untouched (u u' : string) (g : UserKey → UserKey) (t : list UserKey) :
  u' ≠ u → (∀ r, user_id (g r) = user_id r) →
  KeysModel.rows_of u' ((λ r, if bool_decide (user_id r = u) then g r else r) <$> t)
  = KeysModel.rows_of u' t.
Proof.
  intros Hne Hg. unfold KeysModel.rows_of.
  induction t as [|r t IH]; [done|].
  rewrite fmap_cons, !filter_cons. case_bool_decide as Hr.
  - rewrite Hg, !decide_False by congruence. exact IH.
  - destruct (decide (user_id r = u')); by rewrite IH.
Qed.

(** X5.  PATCH /api/keys with a valid body, for a caller whose keys are
    on file, replaces the wrapped master key and leaves the other keys: GET
    /api/keys/:me then returns the new wrapped master key with the
    wrapped private key and the public key as before, and no chat key
    and no other user's row changes. *)
Theorem master_key_update_replaces_one_column
    (db : Db) (caller : string) (reqbody : json) (now : string) (keys : UserKey) :
  updateMasterKeySchema reqbody = None →
  KeysModel.getUserKeys db caller = Some keys →
  ∃ emk,
    jfield "encrypted_master_key" reqbody = Some emk
    ∧ (KeysRoutes.patch_root db caller reqbody now).2
      = res_json (JObj [("message", JStr "Master key updated successfully")])
    ∧ KeysRoutes.get_userId (KeysRoutes.patch_root db caller reqbody now).1 caller caller
      = res_json (JObj
          [("encrypted_master_key", emk);
           ("encrypted_rsa_private_key", default JNull (encrypted_rsa_private_key keys));
           ("rsa_public_key", JStr (public_key keys))])
    ∧ chat_keys (KeysRoutes.patch_root db caller reqbody now).1 = chat_keys db
    ∧ (∀ u, u ≠ caller →
         KeysModel.getUserKeys (KeysRoutes.patch_root db caller reqbody now).1 u
         = KeysModel.getUserKeys db u).
Proof.
  intros Hvalid Hkeys.
  destruct (updateMasterKeySchema_fields reqbody Hvalid) as [emk F].
  exists emk. unfold KeysRoutes.patch_root. rewrite Hvalid, F.
  cbn [fst snd KeysModel.updateEncryptedMasterKey].
  split_and!; try done.
  - unfold KeysRoutes.get_userId. rewrite (bool_decide_true (caller = caller)) by done.
    cbn [negb]. unfold KeysModel.getUserKeys in *. cbn [user_keys set_user_keys].
    rewrite rows_of_updated by done.
    apply single_Some in Hkeys. rewrite Hkeys.
    assert (user_id keys = caller) as Hid.
    { assert (keys ∈ KeysModel.rows_of caller (user_keys db)) as Hin
        by (rewrite Hkeys; apply list_elem_of_here).
      by apply list_elem_of_filter in Hin as [? _]. }
    cbn [fmap list_fmap single]. by rewrite (bool_decide_true _ Hid).
  - intros u Hne. unfold KeysModel.getUserKeys. cbn [user_keys set_user_keys].
    by rewrite rows_of_untouched.
Qed.

Lemma master_key_update_replaces_one_column_witness :
  KeysRoutes.get_userId
    (KeysRoutes.patch_root db_chatting alice
       (JObj [("encrypted_master_key", wrapped_master "alice2")]) "t1").1 alice alice
  = res_json (JObj
      [("encrypted_master_key", wrapped_master "alice2");
       ("encrypted_rsa_private_key", wrapped_private "alice");
       ("rsa_public_key", JStr "pub:alice")]).
Proof.
  destruct (master_key_update_replaces_one_column db_chatting alice
              (JObj [("encrypted_master_key", wrapped_master "alice2")]) "t1"
              (key_row alice "alice")) as (emk & F & _ & Hget & _).
  - vm_compute. reflexivity.
  - vm_compute. reflexivity.
  - rewrite Hget. vm_compute in F. injection F as <-. reflexivity.
Defined.

(** X6.  PATCH /api/keys is an update, not an upsert: for a caller with
    no key row it answers 200 'Master key updated successfully', stores
    nothing, and GET /api/keys/:me still answers 404. *)
Theorem master_key_update_without_row_is_lost
    (db : Db) (caller : string) (reqbody : json) (now : string) :
  updateMasterKeySchema reqbody = None →
  KeysModel.rows_of caller (user_keys db) = [] →
  KeysRoutes.patch_root db caller reqbody now
  = (db, res_json (JObj [("message", JStr "Master key updated successfully")]))
  ∧ KeysRoutes.get_userId (KeysRoutes.patch_root db caller reqbody now).1 caller caller
    = res_error 404 "Keys not found".
Proof.
  intros Hvalid Hrows.
  destruct (updateMasterKeySchema_fields reqbody Hvalid) as [emk F].
  unfold KeysRoutes.patch_root. rewrite Hvalid, F.
  cbn [fst snd KeysModel.updateEncryptedMasterKey].
  rewrite rewrite_none by exact Hrows.
  assert (set_user_keys db (user_keys db) = db) as -> by by destruct db.
  split; [done|].
  unfold KeysRoutes.get_userId. rewrite (bool_decide_true (caller = caller)) by done.
  cbn [negb]. unfold KeysModel.getUserKeys. by rewrite Hrows.
Qed.

Lemma master_key_update_without_row_is_lost_witness :
  KeysRoutes.get_userId
    (KeysRoutes.patch_root db_chatting dave
       (JObj [("encrypted_master_key", wrapped_master "dave")]) "t1").1 dave dave
  = res_error 404 "Keys not found".
Proof.
  apply (master_key_update_without_row_is_lost db_chatting dave
           (JObj [("encrypted_master_key", wrapped_master "dave")]) "t1");
    vm_compute; reflexivity.
Defined.

Lemma get_me_creates_profile (db : Db) (caller : string) :
  caller ∉ user_profiles db →
  AuthRoutes.get_me db caller
  = (set_user_profiles db (user_profiles db ++ [caller]),
     res_json (JObj [("profile", JObj [("id", JStr caller)])])).
Proof.
  intros Hprof.
  assert (UserModel.getProfile db caller = None) as Hnone.
  { unfold UserModel.getProfile.
    rewrite (filter_nil_intro (λ p, p = caller)); [done|]. by intros x Hx ->. }
  unfold AuthRoutes.get_me, UserModel.upsertProfile.
  by rewrite Hnone, (bool_decide_false _ Hprof).
Qed.

(** An upload by a caller who has a profile and no key row yet. *)
Lemma first_upload_stored (db : Db) (caller : string) (reqbody : json) (now : string)
    (pk : string) (emk epk : json) :
  uploadKeysSchema reqbody = None →
  jfield "rsa_public_key" reqbody = Some (JStr pk) →
  jfield "encrypted_master_key" reqbody = Some emk →
  jfield "encrypted_rsa_private_key" reqbody = Some epk →
  caller ∈ user_profiles db →
  KeysModel.rows_of caller (user_keys db) = [] →
  KeysRoutes.post_root db caller reqbody now
  = (set_user_keys db (user_keys db ++ [mkUserKey caller pk (Some emk) (Some epk) now]),
     res_json (JObj [("message", JStr "Keys uploaded successfully")]))
  ∧ KeysRoutes.get_userId (KeysRoutes.post_root db caller reqbody now).1 caller caller
    = res_json (JObj [("encrypted_master_key", emk);
                      ("encrypted_rsa_private_key", epk);
                      ("rsa_public_key", JStr pk)]).
Proof.
  intros Hvalid F1 F2 F3 Hprof Hrows.
  unfold KeysRoutes.post_root. rewrite Hvalid, F1, F2, F3. cbn [fst snd].
  unfold KeysModel.uploadUserKeys, KeysModel.upsert_user_key.
  rewrite Hrows, (bool_decide_false ([] ≠ [])) by (by intros []).
  rewrite (bool_decide_true _ Hprof). cbn [fst snd]. split; [done|].
  unfold KeysRoutes.get_userId. rewrite (bool_decide_true (caller = caller)) by done.
  cbn [negb]. unfold KeysModel.getUserKeys, KeysModel.rows_of in *.
  cbn [user_keys set_user_keys].
  by rewrite filter_app, Hrows, filter_cons, decide_True.
Qed.

(** X7.  POST /api/keys answers 200 'Keys uploaded successfully' whether
    or not the row was stored.  For a caller with neither a profile nor
    a key row nothing is stored and GET /api/keys/:me answers 404; once
    GET /api/auth/me has created the profile, the same upload is stored
    and GET /api/keys/:me returns the three uploaded values. *)
Theorem key_upload_needs_a_profile
    (db : Db) (caller : string) (reqbody : json) (now : string) :
  uploadKeysSchema reqbody = None →
  caller ∉ user_profiles db →
  KeysModel.rows_of caller (user_keys db) = [] →
  KeysRoutes.post_root db caller reqbody now
  = (db, res_json (JObj [("message", JStr "Keys uploaded successfully")]))
  ∧ KeysRoutes.get_userId db caller caller = res_error 404 "Keys not found"
  ∧ (KeysRoutes.post_root (AuthRoutes.get_me db caller).1 caller reqbody now).2
    = res_json (JObj [("message", JStr "Keys uploaded successfully")])
  ∧ KeysRoutes.get_userId
      (KeysRoutes.post_root (AuthRoutes.get_me db caller).1 caller reqbody now).1
      caller caller
    = res_json (JObj
        [("encrypted_master_key", default JNull (jfield "encrypted_master_key" reqbody));
         ("encrypted_rsa_private_key",
            default JNull (jfield "encrypted_rsa_private_key" reqbody));
         ("rsa_public_key", default JNull (jfield "rsa_public_key" reqbody))]).
Proof.
  intros Hvalid Hprof Hrows.
  destruct (uploadKeysSchema_fields reqbody Hvalid) as (pk & emk & epk & _ & F1 & F2 & F3).
  rewrite (get_me_creates_profile db caller Hprof). cbn [fst].
  destruct (first_upload_stored
              (set_user_profiles db (user_profiles db ++ [caller])) caller reqbody now
              pk emk epk Hvalid F1 F2 F3) as [Hpost Hget].
  { apply elem_of_app. right. apply list_elem_of_here. }
  { exact Hrows. }
  rewrite Hget, Hpost, F1, F2, F3. cbn [fst snd default from_option id].
  split_and!; try done.
  - unfold KeysRoutes.post_root. rewrite Hvalid, F1, F2, F3. cbn [fst snd].
    unfold KeysModel.uploadUserKeys, KeysModel.upsert_user_key.
    rewrite Hrows, (bool_decide_false ([] ≠ [])) by (by intros []).
    by rewrite (bool_decide_false _ Hprof).
  - unfold KeysRoutes.get_userId. rewrite (bool_decide_true (caller = caller)) by done.
    cbn [negb]. unfold KeysModel.getUserKeys. by rewrite Hrows.
Qed.

Lemma key_upload_needs_a_profile_witness :
  KeysRoutes.post_root db_chatting dave (upload_body "dave") "t1"
  = (db_chatting, res_json (JObj [("message", JStr "Keys uploaded successfully")]))
  ∧ KeysRoutes.get_userId db_chatting dave dave = res_error 404 "Keys not found"
  ∧ KeysRoutes.get_userId
      (KeysRoutes.post_root (AuthRoutes.get_me db_chatting dave).1 dave
         (upload_body "dave") "t1").1 dave dave
    = res_json (JObj [("encrypted_master_key", wrapped_master "dave");
                      ("encrypted_rsa_private_key", wrapped_private "dave");
                      ("rsa_public_key", JStr "pub:dave")]).
Proof.
  destruct (key_upload_needs_a_profile db_chatting dave (upload_body "dave") "t1")
    as (Hpost & Hget & _ & Hstored).
  - vm_compute. reflexivity.
  - compute_done.
  - vm_compute. reflexivity.
  - split_and!; [exact Hpost | exact Hget | rewrite Hstored; reflexivity].
Defined.

End AccountKeyRoutes.

(** ** Properties of the chat routes and of the socket *)

Section AccessControl.

Lemma with_chat_outsider (db : Db) (caller chatId c : string) :
  pg_uuid chatId = Some c →
  ChatModel.isUserInChat db c caller = false →
  ∃ n msg, n ∈ [403; 404]
           ∧ ∀ k, ChatRoutes.with_chat db caller chatId k = (db, res_error n msg).
Proof.
  intros Hcid. unfold ChatModel.isUserInChat, ChatRoutes.with_chat.
  rewrite Hcid, read_bind.
  destruct (ChatModel.getChatById db c) as [chat|].
  - intros ->. exists 403, "Not authorized". split; [set_solver|done].
  - intros _. exists 404, "Chat not found". split; [set_solver|done].
Qed.

(** X8.  A caller who is not a participant of a chat (or names a chat
    that does not exist) gets nothing from it and changes nothing in it:
    the four per-chat routes answer 403 or 404 without any payload, and
    the two socket handlers only send an error back to the caller's own
    socket.  [chatId] is the text of the request, in any spelling, and
    [c] the uuid Postgres reads from it. *)
Theorem outsiders_are_refused (db : Db) (caller chatId c : string) :
  pg_uuid chatId = Some c →
  ChatModel.isUserInChat db c caller = false →
  (∀ recipient key,
     (ChatRoutes.post_share_key db caller chatId recipient key).1 = db
     ∧ status (ChatRoutes.post_share_key db caller chatId recipient key).2 ∈ [403; 404])
  ∧ (status (ChatRoutes.get_my_key db caller chatId) ∈ [403; 404]
     ∧ jfield "encrypted_chat_key" (body (ChatRoutes.get_my_key db caller chatId)) = None)
  ∧ (status (ChatRoutes.get_keys db caller chatId) ∈ [403; 404]
     ∧ jfield "chat_keys" (body (ChatRoutes.get_keys db caller chatId)) = None)
  ∧ (∀ limit,
       status (ChatRoutes.get_messages db caller chatId limit) ∈ [403; 404]
       ∧ jfield "messages" (body (ChatRoutes.get_messages db caller chatId limit)) = None)
  ∧ (∀ recipient key,
       Socket.chat_key_share db caller chatId recipient key
       = (db, [EmitToSocket "error" (JObj [("message", JStr "Not authorized")])]))
  ∧ (∀ content iv type now,
       Socket.message_send db caller chatId content iv type now
       = (db, [EmitToSocket "error"
                 (JObj [("message", JStr "Not authorized for this chat")])])).
Proof.
  intros Hcid Hout.
  destruct (with_chat_outsider db caller chatId c Hcid Hout) as (n & msg & Hn & Hk).
  unfold ChatRoutes.post_share_key, ChatRoutes.get_my_key, ChatRoutes.get_keys,
    ChatRoutes.get_messages, Socket.chat_key_share, Socket.message_send.
  split_and!; intros; rewrite ?Hk, ?Hcid, ?read_default, ?Hout; done.
Qed.

Lemma outsiders_are_refused_witness :
  ChatRoutes.get_my_key db_chatting carol chat1 = res_error 403 "Not authorized"
  ∧ Socket.message_send db_chatting carol chat1 "gcm[aes:k1,iv1]hello" "iv1" "text" "t1"
    = (db_chatting,
       [EmitToSocket "error" (JObj [("message", JStr "Not authorized for this chat")])]).
Proof.
  destruct (outsiders_are_refused db_chatting carol chat1 chat1)
    as (_ & _ & _ & _ & _ & Hsend).
  - vm_compute. reflexivity.
  - vm_compute. reflexivity.
  - split; [vm_compute; reflexivity | apply Hsend].
Defined.

End AccessControl.

Section DirectChats.

Lemma getProfile_Some (db : Db) (u p : string) :
  UserModel.getProfile db u = Some p → p = u.
Proof.
  unfold UserModel.getProfile. intros Hs%single_Some.
  assert (p ∈ filter (λ q, q = u) (user_profiles db)) as Hin
    by (rewrite Hs; apply list_elem_of_here).
  by apply list_elem_of_filter in Hin as [? _].
Qed.

Lemma getDirectChat_sym (db : Db) (u v : string) :
  ChatModel.getDirectChat db u v = ChatModel.getDirectChat db v u.
Proof.
  unfold ChatModel.getDirectChat. f_equal. apply list_filter_iff. tauto.
Qed.

(** With both profiles and the direct chat on file the route only reads.
    [other] is the text of the path and [o] the uuid read from it. *)
Lemma post_direct_settled (db : Db) (caller other o uuid : string) (c : Chat) :
  pg_uuid other = Some o →
  caller ≠ other →
  UserModel.getProfile db caller = Some caller →
  UserModel.getProfile db o = Some o →
  ChatModel.getDirectChat db caller o = Some c →
  ChatRoutes.post_direct db caller other uuid
  = (db, res_json (JObj [("chat", json_of_Chat c)])).
Proof.
  intros Hoid Hne Hme Hother Hchat. unfold ChatRoutes.post_direct.
  by rewrite (bool_decide_false _ Hne), Hme, Hoid, !read_bind, Hother, Hchat.
Qed.

(** What a successful call leaves behind. *)
Lemma post_direct_ok (db : Db) (caller other o uuid : string) :
  pg_uuid other = Some o →
  (length (filter (λ c, c_type c = direct
                        ∧ caller ∈ participants c ∧ o ∈ participants c)
                  (chats db)) ≤ 1)%nat →
  ok (ChatRoutes.post_direct db caller other uuid).2 = true →
  ∃ c, (ChatRoutes.post_direct db caller other uuid).2
       = res_json (JObj [("chat", json_of_Chat c)])
       ∧ caller ≠ other
       ∧ UserModel.getProfile (ChatRoutes.post_direct db caller other uuid).1 caller
         = Some caller
       ∧ UserModel.getProfile (ChatRoutes.post_direct db caller other uuid).1 o
         = Some o
       ∧ ChatModel.getDirectChat (ChatRoutes.post_direct db caller other uuid).1
           caller o = Some c.
Proof.
  intros Hoid Hone. unfold ChatRoutes.post_direct. rewrite Hoid.
  case_bool_decide as Hne; cbn [fst snd]; [by rewrite not_ok_error by lia|].
  assert (∃ db1, (match UserModel.getProfile db caller with
                  | Some p => (db, Some p)
                  | None => UserModel.upsertProfile db caller
                  end = (db1, Some caller)
                  ∧ UserModel.getProfile db1 caller = Some caller
                  ∧ chats db1 = chats db)
                 ∨ match UserModel.getProfile db caller with
                   | Some p => (db, Some p)
                   | None => UserModel.upsertProfile db caller
                   end = (db1, None)) as (db1 & [(-> & Hme & Hchats) | ->]).
  { destruct (UserModel.getProfile db caller) as [p|] eqn:Hp.
    - pose proof (getProfile_Some _ _ _ Hp) as ->. exists db. by left.
    - unfold UserModel.upsertProfile. case_bool_decide as Hin.
      + exists db. right. by rewrite Hp.
      + exists (set_user_profiles db (user_profiles db ++ [caller])). left.
        split_and!; [done| |done].
        unfold UserModel.getProfile. cbn [user_profiles set_user_profiles].
        rewrite filter_app, (filter_nil_intro (λ p, p = caller) (user_profiles db))
          by (by intros x Hx ->).
        by rewrite filter_cons, decide_True. }
  2: { cbn [fst snd]. by rewrite not_ok_error by lia. }
  rewrite !read_bind.
  destruct (UserModel.getProfile db1 o) as [p|] eqn:Hother; cbn [fst snd];
    [|by rewrite not_ok_error by lia].
  rewrite (getProfile_Some _ _ _ Hother) in Hother.
  destruct (ChatModel.getDirectChat db1 caller o) as [c|] eqn:Hchat.
  { intros _. exists c. cbn [fst snd]. by rewrite Hme, Hother, Hchat. }
  unfold ChatModel.createChat. rewrite Hchat.
  destruct (_ && _) eqn:Hins; cbn [fst snd]; [|by rewrite not_ok_error by lia].
  intros _. eexists. split; [reflexivity|]. split; [done|].
  unfold UserModel.getProfile, ChatModel.getDirectChat in *.
  cbn [user_profiles chats set_chats]. rewrite Hme, Hother. split_and!; try done.
  rewrite filter_app, filter_cons, decide_True
    by (cbn; split_and!; [done|set_solver|set_solver]).
  rewrite Hchats in *.
  destruct (filter _ (chats db)) as [|x [|y l]]; [done|done|cbn in Hone; lia].
Qed.

(** X9.  POST /api/chats/direct/:userId creates the direct chat of two
    users once: when at most one direct chat of the two is on file and a
    call has succeeded, a repeated call, by the caller or by the other
    user, returns the same chat and changes nothing.  [other] is the
    text of the path, in any spelling, and [o] the user Postgres reads
    from it; the other user names the caller by the caller's id, in any
    spelling. *)
Theorem direct_chat_is_created_once
    (db : Db) (caller other o uuid uuid' : string) :
  pg_uuid other = Some o →
  (length (filter (λ c, c_type c = direct
                        ∧ caller ∈ participants c ∧ o ∈ participants c)
                  (chats db)) ≤ 1)%nat →
  ok (ChatRoutes.post_direct db caller other uuid).2 = true →
  ChatRoutes.post_direct (ChatRoutes.post_direct db caller other uuid).1
    caller other uuid'
  = ChatRoutes.post_direct db caller other uuid
  ∧ (∀ caller_text,
       pg_uuid caller_text = Some caller → o ≠ caller_text →
       ChatRoutes.post_direct (ChatRoutes.post_direct db caller other uuid).1
         o caller_text uuid'
       = ChatRoutes.post_direct db caller other uuid).
Proof.
  intros Hoid Hone Hok.
  destruct (post_direct_ok db caller other o uuid Hoid Hone Hok)
    as (c & Hr & Hne & Hme & Hother & Hchat).
  destruct (ChatRoutes.post_direct db caller other uuid) as [db' r].
  cbn [fst snd] in *. subst r. split.
  - by apply (post_direct_settled db' caller other o).
  - intros caller_text Hcid Hne'.
    apply (post_direct_settled db' o caller_text caller); try done.
    by rewrite getDirectChat_sym.
Qed.

Lemma direct_chat_is_created_once_witness :
  ChatRoutes.post_direct (ChatRoutes.post_direct db_signed_up alice bob chat1).1
    bob alice "c4a70000-0000-4000-8000-00000000000d"
  = ChatRoutes.post_direct db_signed_up alice bob chat1
  ∧ chats (ChatRoutes.post_direct db_signed_up alice bob chat1).1
    = [mkChat chat1 direct [alice; bob] alice].
Proof.
  split; [|vm_compute; reflexivity].
  apply (direct_chat_is_created_once db_signed_up alice bob bob chat1
           "c4a70000-0000-4000-8000-00000000000d");
    [vm_compute; reflexivity | vm_compute; lia | vm_compute; reflexivity
    | vm_compute; reflexivity | vm_compute; discriminate].
Defined.

End DirectChats.

Section Participants.





End Participants.

Section Messages.

(** X11.  A 'message:send' from a participant who has a profile stores
    the ciphertext and its nonce as the newest message of the chat,
    broadcasts the stored row with the nonce to the room of the chat,
    and GET /api/chats/:chatId/messages then lists it last for every
    participant.  [chatId] is the text of the event and of the path and
    [c] the uuid Postgres reads from it: the row is stored under [c],
    the room is named by the text. *)
Theorem sent_message_is_stored_and_served
    (db : Db) (sender chatId c content iv type now reader : string) (chat : Chat)
    (limit : nat) :
  pg_uuid chatId = Some c →
  ChatModel.getChatById db c = Some chat →
  sender ∈ participants chat → sender ∈ user_profiles db →
  type ∈ ["text"; "image"; "file"; "voice"] →
  reader ∈ participants chat → (1 ≤ limit)%nat →
  messages (Socket.message_send db sender chatId content iv type now).1
  = (messages db ++ [mkMessage c sender content iv now])%list
  ∧ (Socket.message_send db sender chatId content iv type now).2
    = [EmitToRoom ("chat:" ++ chatId) "message:receive"
         (JObj [("chat_id", JStr c);
                ("sender_id", JStr sender);
                ("encrypted_content", JStr content);
                ("metadata", JObj [("iv", JStr iv)]);
                ("created_at", JStr now);
                ("iv", JStr iv)])]
  ∧ ChatRoutes.get_messages
      (Socket.message_send db sender chatId content iv type now).1 reader chatId limit
    = res_json (JObj [("messages",
        JArr (json_of_Message
                <$> (drop (S (length (filter (λ m, m_chat_id m = c) (messages db)))
                             - limit)
                          (filter (λ m, m_chat_id m = c) (messages db))
                       ++ [mkMessage c sender content iv now])%list))]).
Proof.
  intros Hcid Hchat Hsender Hprof Htype Hreader Hlimit.
  destruct (getChatById_elem _ _ _ Hchat) as [Hin _].
  unfold Socket.message_send, ChatModel.isUserInChat, MessageModel.createMessage.
  rewrite Hcid, read_default.
  rewrite Hchat, (bool_decide_true _ Hsender), (bool_decide_true _ Hin),
    (bool_decide_true _ Hprof), (bool_decide_true _ Htype).
  cbn [negb andb fst snd messages set_messages]. split_and!; try done.
  unfold ChatRoutes.get_messages, ChatRoutes.with_chat.
  rewrite Hcid, read_bind, read_default.
  rewrite (getChatById_chats db) by done.
  rewrite Hchat, (bool_decide_true _ Hreader). cbn [negb snd].
  rewrite bool_decide_false by lia.
  unfold MessageModel.getMessages. cbn [messages set_messages].
  rewrite filter_app, filter_cons, decide_True, filter_nil by done.
  rewrite length_app. cbn [length].
  rewrite drop_app_le by lia. by rewrite Nat.add_1_r.
Qed.

Lemma sent_message_is_stored_and_served_witness :
  ChatRoutes.get_messages
    (Socket.message_send db_chatting alice chat1 "gcm[aes:k1,iv1]hello" "iv1"
       "text" "t1").1 bob chat1 50
  = res_json (JObj [("messages",
      JArr [json_of_Message (mkMessage chat1 alice "gcm[aes:k1,iv1]hello" "iv1" "t1")])]).
Proof.
  destruct (sent_message_is_stored_and_served db_chatting alice chat1 chat1
              "gcm[aes:k1,iv1]hello" "iv1" "text" "t1" bob
              (mkChat chat1 direct [alice; bob] alice) 50) as (_ & _ & Hget).
  - vm_compute. reflexivity.
  - vm_compute. reflexivity.
  - compute_done.
  - compute_done.
  - compute_done.
  - compute_done.
  - lia.
  - rewrite Hget. reflexivity.
Defined.

(** X12.  A 'message:send' from a participant that the database refuses
    (the sender has no profile, or the message type is none of the four
    the schema allows) is dropped in silence: nothing is stored, nothing
    is broadcast and no error is sent back.  [c] is the uuid Postgres
    reads from the text [chatId] of the event. *)
Theorem refused_message_is_dropped_silently
    (db : Db) (sender chatId c content iv type now : string) :
  pg_uuid chatId = Some c →
  ChatModel.isUserInChat db c sender = true →
  sender ∉ user_profiles db ∨ type ∉ ["text"; "image"; "file"; "voice"] →
  Socket.message_send db sender chatId content iv type now = (db, []).
Proof.
  intros Hcid Hin Hbad. unfold Socket.message_send, MessageModel.createMessage.
  rewrite Hcid, read_default, Hin. cbn [negb].
  destruct Hbad as [Hbad|Hbad]; rewrite (bool_decide_false _ Hbad);
    by rewrite ?andb_false_r.
Qed.

Lemma refused_message_is_dropped_silently_witness :
  Socket.message_send db_chatting alice chat1 "gcm[aes:k1,iv1]hello" "iv1" "sticker" "t1"
  = (db_chatting, []).
Proof.
  apply (refused_message_is_dropped_silently db_chatting alice chat1 chat1
           "gcm[aes:k1,iv1]hello" "iv1" "sticker" "t1").
  - vm_compute. reflexivity.
  - vm_compute. reflexivity.
  - right. compute_done.
Defined.

End Messages.

Section Rooms.

Lemma chat_room_joined (c : string) (l : list Chat) :
  "chat:" ++ c ∈ (λ chat, "chat:" ++ c_id chat) <$> l ↔ c ∈ c_id <$> l.
Proof.
  rewrite !list_elem_of_fmap. split; intros (chat & E & Hin); exists chat.
  - split; [|done]. by apply (string_app_inv_head "chat:").
  - by rewrite E.
Qed.

(** X13.  A socket is in the rooms of the chats its user was in when it
    connected, and in no others: whether the broadcast of a message
    reaches it is decided by the chats at the time of the connection,
    not by the participants at the time of the message.  The room of the
    broadcast is named by the text [chatId] of the event, the rooms of
    the socket by the ids of the chats as Postgres prints them; [c] is
    the uuid Postgres reads from [chatId]. *)
Theorem broadcast_reaches_rooms_joined_at_connection
    (db0 db : Db) (socketId userId origin sender chatId c content iv type now : string)
    (e : Emit) :
  socketId ≠ "chat:" ++ chatId →
  pg_uuid chatId = Some c →
  ChatModel.isUserInChat db c sender = true →
  e ∈ (Socket.message_send db sender chatId content iv type now).2 →
  Socket.reaches origin e (Socket.connection db0 socketId userId)
  = bool_decide (chatId ∈ c_id <$> ChatModel.getUserChats db0 userId).
Proof.
  intros Hsid Hcid Hin. unfold Socket.message_send.
  rewrite Hcid, read_default, Hin. cbn [negb].
  destruct (MessageModel.createMessage db c sender content type iv now)
    as [db1 [message|]]; cbn [snd]; [|by intros ?%elem_of_nil].
  intros ->%list_elem_of_singleton.
  cbn [Socket.reaches Socket.connection Socket.rooms].
  apply bool_decide_ext. rewrite !elem_of_cons, chat_room_joined.
  split; [|tauto]. intros [E|[E|H]]; [by destruct Hsid|discriminate E|done].
Qed.

Lemma broadcast_reaches_rooms_joined_at_connection_witness :
  (∀ e, e ∈ (Socket.message_send db_chatting alice chat1 "gcm[aes:k1,iv1]hello" "iv1"
               "text" "t1").2 →
        Socket.reaches "socket-a" e (Socket.connection db_signed_up "socket-b" bob)
        = false)
  ∧ ChatModel.isUserInChat db_chatting chat1 bob = true.
Proof.
  split; [|vm_compute; reflexivity].
  intros e He.
  rewrite (broadcast_reaches_rooms_joined_at_connection db_signed_up db_chatting
             "socket-b" bob "socket-a" alice chat1 chat1 "gcm[aes:k1,iv1]hello" "iv1"
             "text" "t1" e);
    [vm_compute; reflexivity|discriminate|vm_compute; reflexivity| |exact He].
  vm_compute. reflexivity.
Defined.

End Rooms.

Section Presence.

Lemma last_socket (s : gset string) (socketId : string) :
  s ≠ ∅ → size (s ∖ {[socketId]}) = 0%nat ↔ s = {[socketId]}.
Proof.
  intros Hs. rewrite size_empty_iff. split.
  - intros Hempty. apply set_choose_L in Hs as [y Hy].
    apply set_eq. intros x. rewrite elem_of_singleton. split.
    + intros Hx. destruct (decide (x = socketId)) as [|Hne]; [done|].
      exfalso. apply (not_elem_of_empty (C:=gset string) x). rewrite <- Hempty.
      apply elem_of_difference. split; [done|]. by rewrite elem_of_singleton.
    + intros ->. destruct (decide (y = socketId)) as [<-|Hne]; [done|].
      exfalso. apply (not_elem_of_empty (C:=gset string) y). rewrite <- Hempty.
      apply elem_of_difference. split; [done|]. by rewrite elem_of_singleton.
  - intros ->. apply equiv_empty. intros x [Hx Hnx]%elem_of_difference. done.
Qed.

Lemma on_connection_eq (connectedUsers : gmap string (gset string))
    (userId socketId : string) :
  Socket.on_connection connectedUsers userId socketId
  = (<[userId := {[socketId]} ∪ default ∅ (connectedUsers !! userId)]> connectedUsers,
     [(userId, "online")]).
Proof.
  unfold Socket.on_connection.
  destruct (connectedUsers !! userId) as [s|] eqn:Hs.
  - rewrite bool_decide_true by (by eexists). by rewrite Hs.
  - rewrite bool_decide_false by (by intros [? ?]).
    by rewrite lookup_insert_eq, insert_insert_eq.
Qed.

(** X23.  A user is announced offline exactly when the socket that
    disconnects is the only one open for them.  While every user on
    record has a socket open: a connection records the socket and
    announces the user online; a disconnect of the only open socket
    forgets the user and announces them offline; a disconnect of one of
    several, or of a socket that is not on record, announces nothing and
    keeps the user; and both handlers leave every other user's sockets
    alone and never leave a user on record without a socket. *)
Theorem offline_only_when_last_socket_closes
    (connectedUsers : gmap string (gset string)) (userId socketId : string) :
  (∀ u s, connectedUsers !! u = Some s → s ≠ ∅) →
  ((Socket.on_connection connectedUsers userId socketId).2 = [(userId, "online")]
   ∧ (Socket.on_connection connectedUsers userId socketId).1 !! userId
     = Some ({[socketId]} ∪ default ∅ (connectedUsers !! userId))
   ∧ (∀ u, u ≠ userId →
        (Socket.on_connection connectedUsers userId socketId).1 !! u
        = connectedUsers !! u)
   ∧ (∀ u s, (Socket.on_connection connectedUsers userId socketId).1 !! u = Some s →
             s ≠ ∅))
  ∧ ((Socket.on_disconnect connectedUsers userId socketId).2 = [(userId, "offline")]
     ↔ connectedUsers !! userId = Some {[socketId]})
  ∧ (connectedUsers !! userId = Some {[socketId]} →
       (Socket.on_disconnect connectedUsers userId socketId).1 !! userId = None)
  ∧ (connectedUsers !! userId ≠ Some {[socketId]} →
       (Socket.on_disconnect connectedUsers userId socketId).2 = []
       ∧ (Socket.on_disconnect connectedUsers userId socketId).1 !! userId
         = (λ s, s ∖ {[socketId]}) <$> connectedUsers !! userId)
  ∧ (∀ u, u ≠ userId →
       (Socket.on_disconnect connectedUsers userId socketId).1 !! u
       = connectedUsers !! u)
  ∧ (∀ u s, (Socket.on_disconnect connectedUsers userId socketId).1 !! u = Some s →
            s ≠ ∅).
Proof.
  intros Hinv.
  pose proof (λ s, last_socket s socketId) as Hlast.
  split; [|].
  - rewrite on_connection_eq. cbn [fst snd]. split_and!; [done| | |].
    + by rewrite lookup_insert_eq.
    + intros u Hu. by rewrite lookup_insert_ne.
    + intros u s. destruct (decide (u = userId)) as [->|Hu].
      * rewrite lookup_insert_eq. intros [= <-].
        apply (non_empty_inhabited_L socketId), elem_of_union. left.
        by apply elem_of_singleton.
      * rewrite lookup_insert_ne by done. apply Hinv.
  - unfold Socket.on_disconnect.
    destruct (connectedUsers !! userId) as [userSockets|] eqn:Hsockets; cbn [fst snd].
    + pose proof (Hlast userSockets (Hinv _ _ Hsockets)) as Hl.
      case_bool_decide as Hsize; cbn [fst snd].
      * apply Hl in Hsize. subst userSockets. split_and!; try done.
        -- intros _. apply lookup_delete_eq.
        -- intros u Hu. by rewrite lookup_delete_ne.
        -- intros u s. destruct (decide (u = userId)) as [->|Hu].
           ++ by rewrite lookup_delete_eq.
           ++ rewrite lookup_delete_ne by done. apply Hinv.
      * assert (userSockets ≠ {[socketId]}) as Hne by (intros E; by apply Hsize, Hl).
        split_and!.
        -- split; [done|]. intros [= E]. done.
        -- intros [= E]. done.
        -- intros _. by rewrite lookup_insert_eq.
        -- intros u Hu. by rewrite lookup_insert_ne.
        -- intros u s. destruct (decide (u = userId)) as [->|Hu].
           ++ rewrite lookup_insert_eq. intros [= <-].
              intros E. apply Hsize. by rewrite E, size_empty.
           ++ rewrite lookup_insert_ne by done. apply Hinv.
    + split_and!; done.
Qed.

Lemma offline_only_when_last_socket_closes_witness :
  (Socket.on_disconnect {[alice := {[ "socket-1" ]}]} alice "socket-1").2
  = [(alice, "offline")]
  ∧ (Socket.on_disconnect (Socket.on_connection {[alice := {[ "socket-1" ]}]} alice
                              "socket-2").1 alice "socket-1").2
    = [].
Proof.
  split.
  - apply (offline_only_when_last_socket_closes {[alice := {[ "socket-1" ]}]} alice
             "socket-1").
    + intros u s [<- <-]%lookup_singleton_Some.
      apply (non_empty_inhabited_L "socket-1"). by apply elem_of_singleton.
    + apply lookup_singleton_eq.
  - apply (offline_only_when_last_socket_closes
             (Socket.on_connection {[alice := {[ "socket-1" ]}]} alice "socket-2").1
             alice "socket-1").
    + apply (offline_only_when_last_socket_closes {[alice := {[ "socket-1" ]}]} alice
               "socket-2").
      intros u s [<- <-]%lookup_singleton_Some.
      apply (non_empty_inhabited_L "socket-1"). by apply elem_of_singleton.
    + rewrite on_connection_eq. cbn [fst].
      rewrite lookup_insert_eq, lookup_singleton_eq.
      cbn [default from_option id]. intros [= E].
Defined.

End Presence.

(** ** Further properties of the client *)

Section ClientCaches.
Context `{WebCrypto}.

(** X14.  A chat key that [generateChatKey] has stored is found again by
    [loadChatKey], also by a new instance of the helper after the page
    was loaded again (the memory empty, the storage kept), and is not
    found any more after [clearKeys]. *)
Theorem chat_key_survives_reload_not_logout (d : Device) (chatId chatKey : string) :
  chatKey ≠ "" → aes_key_ok chatKey = true →
  CryptoHelper.loadChatKey (CryptoHelper.generateChatKey d chatId chatKey).1 chatId
  = ((CryptoHelper.generateChatKey d chatId chatKey).1, Ok (Some chatKey))
  ∧ (CryptoHelper.loadChatKey
       (set_helper (CryptoHelper.generateChatKey d chatId chatKey).1 None None ∅)
       chatId).2
    = Ok (Some chatKey)
  ∧ CryptoHelper.loadChatKey
      (CryptoHelper.clearKeys (CryptoHelper.generateChatKey d chatId chatKey).1) chatId
    = (CryptoHelper.clearKeys (CryptoHelper.generateChatKey d chatId chatKey).1, Ok None).
Proof.
  intros Hne Hok. unfold CryptoHelper.generateChatKey, CryptoHelper.loadChatKey.
  cbn [fst snd chatKeys localStorage set_chatKeys set_localStorage set_helper].
  split_and!.
  - by rewrite lookup_insert_eq.
  - rewrite lookup_empty, lookup_insert_eq, (bool_decide_false _ Hne), Hok. done.
  - unfold CryptoHelper.clearKeys. cbn [chatKeys localStorage].
    rewrite lookup_empty.
    rewrite (proj2 (map_lookup_filter_None _ _ _)); [done|].
    right. intros v _ Hkeep. apply Hkeep. left. cbn [fst]. apply startsWith_app.
Qed.

(** X15.  The master key that [storeMasterKeyInIndexedDB] puts in the
    vault is the one [loadMasterKeyFromIndexedDB] returns, unless the
    database exists without its object store: then the store is skipped
    without an error and the load returns nothing.  That state is the
    one [clearMasterKeyFromIndexedDB] leaves on a browser that had no
    database. *)
Theorem master_key_vault_round_trip (d : Device) (masterKey : string) :
  masterKey ≠ "" → aes_key_ok masterKey = true →
  (indexedDB d ≠ DBNoStore →
     (CryptoHelper.loadMasterKeyFromIndexedDB
        (CryptoHelper.storeMasterKeyInIndexedDB d masterKey)).2 = Some masterKey)
  ∧ (indexedDB d = DBNoStore →
       (CryptoHelper.loadMasterKeyFromIndexedDB
          (CryptoHelper.storeMasterKeyInIndexedDB d masterKey)).2 = None)
  ∧ (indexedDB d = NoDB →
       (CryptoHelper.loadMasterKeyFromIndexedDB
          (CryptoHelper.storeMasterKeyInIndexedDB
             (CryptoHelper.clearMasterKeyFromIndexedDB d) masterKey)).2 = None).
Proof.
  intros Hne Hok.
  unfold CryptoHelper.loadMasterKeyFromIndexedDB, CryptoHelper.storeMasterKeyInIndexedDB,
    CryptoHelper.clearMasterKeyFromIndexedDB.
  cbn [indexedDB set_indexedDB]. split_and!.
  - intros Hdb. destruct (indexedDB d); try done;
      by rewrite (bool_decide_false _ Hne), Hok.
  - by intros ->.
  - by intros ->.
Qed.

End ClientCaches.

Section MessagingProps.
Context `{WebCrypto} `{Encryption} `{Validation}.

Lemma get_my_key_member (db : Db) (caller chatId c wrapped : string) (chat : Chat) :
  pg_uuid chatId = Some c →
  ChatModel.getChatById db c = Some chat → caller ∈ participants chat →
  KeysModel.getChatKey db c caller = Some wrapped →
  ChatRoutes.get_my_key db caller chatId
  = res_json (JObj [("encrypted_chat_key", JStr wrapped)])
  ∧ wrapped ≠ "".
Proof.
  intros Hcid Hchat Hin Hkey. unfold ChatRoutes.get_my_key, ChatRoutes.with_chat.
  rewrite Hcid, !read_bind, Hchat, (bool_decide_true _ Hin), Hkey. split; [done|].
  unfold KeysModel.getChatKey in Hkey.
  destruct (single _); [|done]. case_bool_decide; [done|]. congruence.
Qed.

(** A device without the chat key in memory fetches its record, unwraps
    it and shows the message. *)
Lemma display_fetches_and_decrypts
    (db : Db) (b : App) (data : json)
    (chatId ct iv peer priv wrapped k m : string) (chat : Chat) :
  str_field "chat_id" data = Some chatId →
  str_field "encrypted_content" data = Some ct →
  str_field "iv" data = Some iv →
  session b = Some peer →
  chatKeys (device b) !! chatId = None →
  privateKey (device b) = Some priv →
  pg_uuid chatId = Some chatId →
  ChatModel.getChatById db chatId = Some chat → peer ∈ participants chat →
  KeysModel.getChatKey db chatId peer = Some wrapped →
  rsa_oaep_decrypt priv wrapped = Some k → aes_key_ok k = true →
  aes_gcm_decrypt k iv ct = Some m →
  ∃ b', AppJs.displayReceivedMessage db b data = (b', None)
        ∧ messagesDiv b' = (messagesDiv b ++ [Shown m false])%list
        ∧ chatKeys (device b') !! chatId = Some k
        ∧ localStorage (device b') !! ("chatKey_" ++ chatId) = Some k
        ∧ sent b' = (sent b ++ [HttpGet ("/api/chats/" ++ chatId ++ "/my-key")])%list.
Proof.
  intros Hc Hct Hiv Hsession Hmiss Hpriv Hcid Hchat Hin Hkey Hrsa Hok Haes.
  destruct (get_my_key_member db peer chatId chatId wrapped chat Hcid Hchat Hin Hkey)
    as [Hget Hne].
  unfold AppJs.displayReceivedMessage. rewrite Hc, Hct, Hiv. cbn [default from_option id].
  set (b0 := match currentChatId b with
             | Some c =>
                 if bool_decide (c = "")
                 then with_chat_ids b (Some chatId) (currentRecipientId b)
                 else b
             | None => with_chat_ids b (Some chatId) (currentRecipientId b)
             end).
  assert (device b0 = device b ∧ session b0 = session b
          ∧ messagesDiv b0 = messagesDiv b ∧ sent b0 = sent b) as (Hd & Hs & Hm & Hsent).
  { subst b0. destruct (currentChatId b) as [c|]; [case_bool_decide|]; done. }
  rewrite Hd, Hmiss, Hs, Hsession, Hget.
  assert (ok (res_json (JObj [("encrypted_chat_key", JStr wrapped)])) = true) as ->
    by reflexivity.
  cbn [negb body res_json].
  assert (str_field "encrypted_chat_key" (JObj [("encrypted_chat_key", JStr wrapped)])
          = Some wrapped) as -> by reflexivity.
  rewrite (bool_decide_false _ Hne).
  unfold CryptoHelper.decryptChatKey.
  cbn [device send with_device]. rewrite Hd, Hpriv, Hrsa, Hok.
  unfold CryptoHelper.decryptMessage, CryptoHelper.loadChatKey.
  cbn [device with_device chatKeys set_chatKeys set_localStorage localStorage].
  rewrite lookup_insert_eq, Haes.
  eexists. split; [reflexivity|].
  cbn [messagesDiv device with_messagesDiv with_device send chatKeys set_chatKeys
       set_localStorage localStorage sent].
  rewrite !lookup_insert_eq, Hm, Hsent. done.
Qed.

(** X16.  A message typed by one participant reaches the other in
    clear when the other's socket was connected while the other was in
    the chat, and the server holds only its ciphertext.  [sendMessage]
    encrypts under the chat key and shows the text as sent; the
    'message:send' handler stores the ciphertext with its nonce and
    broadcasts it to the room of the chat.  [db0] is the database at the
    time the peer's socket [socketB] connected: the broadcast reaches
    that socket exactly if the chat was among the peer's chats then.  If
    it was, the listener of 'message:receive' on the peer's device,
    which has no key for the chat in memory, fetches the peer's key
    record, unwraps it with the private key and shows the same text as
    received; if it was not, the broadcast does not reach the socket.
    The sender's own listener skips the broadcast.  [chatId] is the id
    of the chat as the server printed it. *)
Theorem message_reaches_peer_in_clear
    (db0 db : Db) (a b : App)
    (me peer chatId k m iv now priv wrapped socketA socketB : string) (chat : Chat) :
  pg_uuid chatId = Some chatId →
  ChatModel.getChatById db chatId = Some chat →
  me ∈ participants chat → peer ∈ participants chat → me ∈ user_profiles db →
  currentUser a = Some me → currentChatId a = Some chatId → chatId ≠ "" →
  socket a = true → chatKeys (device a) !! chatId = Some k → m ≠ "" →
  currentUser b = Some peer → peer ≠ me → session b = Some peer →
  chatKeys (device b) !! chatId = None → privateKey (device b) = Some priv →
  KeysModel.getChatKey db chatId peer = Some wrapped →
  rsa_oaep_decrypt priv wrapped = Some k → aes_key_ok k = true →
  aes_gcm_decrypt k iv (aes_gcm_encrypt k iv m) = Some m →
  socketB ≠ "chat:" ++ chatId →
  ∃ a' event db' data,
    AppJs.sendMessage a m iv = (a', Some event)
    ∧ messagesDiv a' = (messagesDiv a ++ [Shown m true])%list
    ∧ Socket.message_send db me (AppJs.ms_chatId event)
        (AppJs.ms_encryptedContent event) (AppJs.ms_iv event)
        (AppJs.ms_messageType event) now
      = (db', [EmitToRoom ("chat:" ++ chatId) "message:receive" data])
    ∧ messages db'
      = (messages db ++ [mkMessage chatId me (aes_gcm_encrypt k iv m) iv now])%list
    ∧ AppJs.on_message_receive db' a' data = (a', None)
    ∧ Socket.reaches socketA (EmitToRoom ("chat:" ++ chatId) "message:receive" data)
        (Socket.connection db0 socketB peer)
      = bool_decide (chatId ∈ c_id <$> ChatModel.getUserChats db0 peer)
    ∧ (chatId ∈ c_id <$> ChatModel.getUserChats db0 peer →
       Socket.reaches socketA (EmitToRoom ("chat:" ++ chatId) "message:receive" data)
         (Socket.connection db0 socketB peer) = true
       ∧ ∃ b', AppJs.on_message_receive db' b data = (b', None)
               ∧ messagesDiv b' = (messagesDiv b ++ [Shown m false])%list
               ∧ chatKeys (device b') !! chatId = Some k)
    ∧ (chatId ∉ c_id <$> ChatModel.getUserChats db0 peer →
       Socket.reaches socketA (EmitToRoom ("chat:" ++ chatId) "message:receive" data)
         (Socket.connection db0 socketB peer) = false).
Proof.
  intros Hcid Hchat Hme Hpeer Hprof Hua Hca Hcne Hsock Hka Hm Hub Hne Hsb Hkb Hpriv
    Hkey Hrsa Hok Haes Hsid.
  destruct (getChatById_elem _ _ _ Hchat) as [Hin _].
  set (db' := set_messages db
                (messages db ++ [mkMessage chatId me (aes_gcm_encrypt k iv m) iv now])).
  set (data := JObj [("chat_id", JStr chatId); ("sender_id", JStr me);
                     ("encrypted_content", JStr (aes_gcm_encrypt k iv m));
                     ("metadata", JObj [("iv", JStr iv)]);
                     ("created_at", JStr now); ("iv", JStr iv)]).
  destruct (display_fetches_and_decrypts db' b data chatId (aes_gcm_encrypt k iv m)
              iv peer priv wrapped k m chat)
    as (b' & Hdisplay & Hdiv & Hkeys & _); try done.
  assert (Hreach :
    Socket.reaches socketA (EmitToRoom ("chat:" ++ chatId) "message:receive" data)
      (Socket.connection db0 socketB peer)
    = bool_decide (chatId ∈ c_id <$> ChatModel.getUserChats db0 peer)).
  { cbn [Socket.reaches Socket.connection Socket.rooms].
    apply bool_decide_ext. rewrite !elem_of_cons, chat_room_joined.
    split; [|tauto]. intros [E|[E|Hroom]]; [by destruct Hsid|discriminate E|done]. }
  exists (with_messagesDiv (with_device a (device a))
            (messagesDiv a ++ [Shown m true])),
    (AppJs.mkMessageSend chatId (aes_gcm_encrypt k iv m) iv "text"), db', data.
  split_and!; try done.
  - unfold AppJs.sendMessage. rewrite Hca.
    rewrite (bool_decide_false _ Hm), (bool_decide_false _ Hcne). cbn [orb].
    unfold CryptoHelper.encryptMessage, CryptoHelper.loadChatKey. rewrite Hka.
    cbn [socket with_messagesDiv with_device]. by rewrite Hsock.
  - cbn [AppJs.ms_chatId AppJs.ms_encryptedContent AppJs.ms_iv AppJs.ms_messageType].
    unfold Socket.message_send, ChatModel.isUserInChat, MessageModel.createMessage.
    rewrite Hcid, read_default.
    rewrite Hchat, (bool_decide_true _ Hme), (bool_decide_true _ Hin),
      (bool_decide_true _ Hprof).
    by rewrite (bool_decide_true ("text" ∈ ["text"; "image"; "file"; "voice"]))
      by apply list_elem_of_here.
  - unfold AppJs.on_message_receive. cbn [currentUser with_messagesDiv with_device].
    rewrite Hua. by rewrite bool_decide_true.
  - intros Hjoined. split; [by rewrite Hreach, bool_decide_true|].
    exists b'. split_and!; try done.
    unfold AppJs.on_message_receive. rewrite Hub.
    rewrite bool_decide_false; [exact Hdisplay|].
    cbn. intros [= E]. by destruct Hne.
  - intros Hout. by rewrite Hreach, bool_decide_false.
Qed.

(** X17.  A chat key shared over the socket is installed on the
    recipient's device.  The 'chat:key:share' handler sends the wrapped
    key to the room of the recipient and to no socket of another user;
    the listener of 'chat:key:received' unwraps it with the private key
    and keeps it in memory and in the storage, where [loadChatKey] finds
    it.  [c] is the uuid Postgres reads from the text [chatId] of the
    event; the device keeps the key under the text. *)
Theorem shared_key_event_installs_key
    (db : Db) (b : App) (me peer chatId c k pub priv : string) :
  pg_uuid chatId = Some c →
  ChatModel.isUserInChat db c me = true →
  privateKey (device b) = Some priv →
  rsa_oaep_decrypt priv (rsa_oaep_encrypt pub k) = Some k → aes_key_ok k = true →
  ∃ db' data,
    Socket.chat_key_share db me chatId peer (CryptoHelper.encryptChatKey k pub)
    = (db', [EmitToRoom ("user:" ++ peer) "chat:key:received" data])
    ∧ (∀ db0 socketId userId origin,
         socketId ≠ "user:" ++ peer →
         Socket.reaches origin (EmitToRoom ("user:" ++ peer) "chat:key:received" data)
           (Socket.connection db0 socketId userId)
         = bool_decide (userId = peer))
    ∧ CryptoHelper.loadChatKey (device (AppJs.on_chat_key_received b data)) chatId
      = (device (AppJs.on_chat_key_received b data), Ok (Some k))
    ∧ localStorage (device (AppJs.on_chat_key_received b data))
        !! ("chatKey_" ++ chatId) = Some k
    ∧ alerts (AppJs.on_chat_key_received b data)
      = (alerts b ++ [("success", "Chat key received! You can now send messages.")])%list.
Proof.
  intros Hcid Hin Hpriv Hrsa Hok.
  unfold Socket.chat_key_share. rewrite Hcid, read_default, Hin. cbn [negb].
  eexists _, _. split; [reflexivity|]. split.
  - intros db0 socketId userId origin Hsid.
    cbn [Socket.reaches Socket.connection Socket.rooms].
    apply bool_decide_ext. rewrite !elem_of_cons, list_elem_of_fmap.
    split.
    + intros [E|[E|(chat & E & _)]]; [by destruct Hsid| |discriminate E].
      symmetry. by apply (string_app_inv_head "user:").
    + intros ->. right. by left.
  - unfold AppJs.on_chat_key_received, CryptoHelper.decryptChatKey,
      CryptoHelper.encryptChatKey.
    assert (∀ v, str_field "encrypted_chat_key"
                   (JObj [("chatId", JStr chatId); ("from", JStr me);
                          ("encrypted_chat_key", JStr v)]) = Some v) as ->
      by reflexivity.
    assert (∀ v, str_field "chatId"
                   (JObj [("chatId", JStr chatId); ("from", JStr me);
                          ("encrypted_chat_key", JStr v)]) = Some chatId) as ->
      by reflexivity.
    cbn [default from_option id]. rewrite Hpriv, Hrsa, Hok.
    unfold CryptoHelper.loadChatKey.
    cbn [device showAlert with_device chatKeys localStorage set_chatKeys
         set_localStorage alerts].
    by rewrite !lookup_insert_eq.
Qed.

End MessagingProps.

Section RecoveryKey.
Context `{WebCrypto} `{Encryption}.

Lemma join_cons_char (a : ascii) (g : string) (gs : list string) :
  CryptoHelper.join "-" (String a g :: gs)
  = String a (CryptoHelper.join "-" (if bool_decide (g = "") then
                                       match gs with [] => [] | _ => "" :: gs end
                                     else g :: gs)).
Proof.
  case_bool_decide as Hg.
  - subst g. by destruct gs.
  - by destruct gs.
Qed.

Lemma remove_dashes_cons (a : ascii) (s : string) :
  a ≠ "-"%char →
  CryptoHelper.remove_dashes (String a s) = String a (CryptoHelper.remove_dashes s).
Proof. intros Ha. cbn. by rewrite (bool_decide_false _ Ha). Qed.

Lemma remove_dashes_join_empty (gs : list string) :
  CryptoHelper.remove_dashes
    (CryptoHelper.join "-" match gs with [] => [] | _ => "" :: gs end)
  = CryptoHelper.remove_dashes (CryptoHelper.join "-" gs).
Proof. by destruct gs. Qed.

(** Grouping a text without dashes and line breaks by four, joining the
    groups with dashes and removing the dashes gives the text back. *)
Lemma remove_dashes_join_groups (s : string) (room : nat) :
  Forall (λ a, a ≠ "-"%char ∧ CryptoHelper.is_line_terminator a = false)
         (String.list_ascii_of_string s) →
  CryptoHelper.remove_dashes
    (CryptoHelper.join "-" (CryptoHelper.groups_of (CryptoHelper.scan_groups room s)))
  = s.
Proof.
  revert room. induction s as [|a s IH]; intros room Hs; [done|].
  cbn [String.list_ascii_of_string] in Hs. apply Forall_cons in Hs as [[Ha Hnl] Hs].
  cbn [CryptoHelper.scan_groups]. rewrite Hnl.
  destruct room as [|room].
  - unfold CryptoHelper.groups_of at 1. cbn [fst snd].
    rewrite bool_decide_false by done.
    rewrite join_cons_char, remove_dashes_cons by done.
    rewrite bool_decide_true by done.
    by rewrite remove_dashes_join_empty, IH.
  - specialize (IH room Hs).
    destruct (CryptoHelper.scan_groups room s) as [g gs] eqn:E.
    unfold CryptoHelper.groups_of in *. cbn [fst snd] in *.
    rewrite bool_decide_false by done.
    rewrite join_cons_char, remove_dashes_cons by done.
    case_bool_decide as Hg; [|by rewrite IH].
    by rewrite remove_dashes_join_empty, IH.
Qed.

Lemma substring_prefix (s t : string) :
  String.substring 0 (String.length s) (s ++ t) = s.
Proof.
  induction s as [|a s IH]; [by destruct t|].
  change (String a (String.substring 0 (String.length s) (s ++ t)) = String a s).
  by rewrite IH.
Qed.

(** X18.  The recovery text gives the master key back.  For a key of 32
    raw bytes, [restoreMasterKeyFromRecovery] applied to the text that
    [generateRecoveryKey] made returns those bytes, provided the
    platform's base64 text of the key and the salt decodes to them and,
    as any base64 text, holds no dash and no line break. *)
Theorem recovery_key_restores_master_key (exported salt : string) :
  String.length exported = 32%nat →
  btoa (exported ++ salt) ≠ "" →
  atob (btoa (exported ++ salt)) = Some (exported ++ salt) →
  Forall (λ a, a ≠ "-"%char ∧ CryptoHelper.is_line_terminator a = false)
         (String.list_ascii_of_string (btoa (exported ++ salt))) →
  ∃ recoveryKey,
    CryptoHelper.generateRecoveryKey exported salt = Ok recoveryKey
    ∧ CryptoHelper.remove_dashes recoveryKey = btoa (exported ++ salt)
    ∧ CryptoHelper.restoreMasterKeyFromRecovery recoveryKey = Ok exported.
Proof.
  intros Hlen Hne Hatob Hplain.
  pose proof (remove_dashes_join_groups _ 3 Hplain) as Hback.
  unfold CryptoHelper.generateRecoveryKey.
  destruct (CryptoHelper.groups_of (CryptoHelper.scan_groups 3 (btoa (exported ++ salt))))
    as [|g gs] eqn:E.
  { cbn in Hback. by destruct Hne. }
  eexists. split; [reflexivity|]. split; [exact Hback|].
  unfold CryptoHelper.restoreMasterKeyFromRecovery. rewrite Hback, Hatob.
  pose proof (substring_prefix exported salt) as Hsub. rewrite Hlen in Hsub.
  rewrite Hsub, Hlen. rewrite bool_decide_true; [done|].
  do 2 apply list_elem_of_further. apply list_elem_of_here.
Qed.

End RecoveryKey.

Section SignupLogin.
Context `{WebCrypto} `{Encryption} `{Validation}.

Lemma signup_body_valid (pk wrapped iv salt encrypted iv' : string) :
  pk ≠ "" → wrapped ≠ "" → iv ≠ "" → salt ≠ "" → encrypted ≠ "" → iv' ≠ "" →
  uploadKeysSchema
    (JObj [("rsa_public_key", JStr pk);
           ("encrypted_master_key",
              JObj [("wrapped", JStr wrapped); ("iv", JStr iv); ("salt", JStr salt)]);
           ("encrypted_rsa_private_key",
              JObj [("encrypted", JStr encrypted); ("iv", JStr iv')])])
  = None.
Proof. intros. destruct pk, wrapped, iv, salt, encrypted, iv'; done. Qed.

Lemma password_nonempty (password : string) :
  (6 ≤ String.length password)%nat → password ≠ "".
Proof. intros Hlen ->. cbn in Hlen. lia. Qed.

(** What the keys on file are worth to a device that knows the
    password: the slow path of the login recovers the master key and the
    RSA pair from them. *)
Lemma handleLogin_slow_recovers
    (db : Db) (f : App) (user password email : string) (draw : AppJs.SignupDraw) :
  KeysRoutes.get_userId db user user
  = res_json (JObj
      [("encrypted_master_key",
          CryptoHelper.encryptMasterKeyWithPassword (AppJs.drawn_masterKey draw)
            password email (AppJs.drawn_masterIv draw));
       ("encrypted_rsa_private_key",
          CryptoHelper.encryptRSAPrivateKey (AppJs.drawn_privateKey draw)
            (AppJs.drawn_masterKey draw) (AppJs.drawn_privateIv draw));
       ("rsa_public_key", JStr (AppJs.drawn_publicKey draw))]) →
  (∀ key iv m, aes_gcm_decrypt key iv (aes_gcm_encrypt key iv m) = Some m) →
  aes_key_ok (AppJs.drawn_masterKey draw) = true →
  private_key_ok (AppJs.drawn_privateKey draw) = true →
  public_key_ok (AppJs.drawn_publicKey draw) = true →
  ∃ f', AppJs.handleLogin_slow db f user password = (f', Ok ())
        ∧ privateKey (device f') = Some (AppJs.drawn_privateKey draw)
        ∧ publicKey (device f') = Some (AppJs.drawn_publicKey draw)
        ∧ indexedDB (device f')
          = indexedDB (CryptoHelper.storeMasterKeyInIndexedDB (device f)
                         (AppJs.drawn_masterKey draw))
        ∧ session f' = session f ∧ alerts f' = alerts f
        ∧ chatSection_shown f' = chatSection_shown f.
Proof.
  intros Hget Haes Hmk Hpriv Hpub.
  unfold AppJs.handleLogin_slow. rewrite Hget.
  assert (∀ j, ok (res_json j) = true) as -> by reflexivity.
  cbn [negb body res_json].
  unfold CryptoHelper.encryptMasterKeyWithPassword, CryptoHelper.encryptRSAPrivateKey.
  match goal with
  | |- context [jfield "encrypted_master_key" ?j] =>
      assert (jfield "encrypted_master_key" j
              = Some (JObj [("wrapped",
                             JStr (aes_gcm_encrypt
                                     (pbkdf2_sha256 password (btoa (sha256 email))
                                        100000%N)
                                     (AppJs.drawn_masterIv draw)
                                     (AppJs.drawn_masterKey draw)));
                            ("iv", JStr (AppJs.drawn_masterIv draw));
                            ("salt", JStr (btoa (sha256 email)))])) as ->
        by reflexivity
  end.
  cbn [default from_option id].
  unfold CryptoHelper.decryptMasterKeyWithPassword.
  assert (∀ a b c, str_field "salt" (JObj [("wrapped", JStr a); ("iv", JStr b);
                                           ("salt", JStr c)]) = Some c) as ->
    by reflexivity.
  assert (∀ a b c, str_field "iv" (JObj [("wrapped", JStr a); ("iv", JStr b);
                                         ("salt", JStr c)]) = Some b) as ->
    by reflexivity.
  assert (∀ a b c, str_field "wrapped" (JObj [("wrapped", JStr a); ("iv", JStr b);
                                              ("salt", JStr c)]) = Some a) as ->
    by reflexivity.
  rewrite Haes, Hmk.
  unfold AppJs.load_rsa_keys.
  match goal with
  | |- context [jfield "encrypted_rsa_private_key" ?j] =>
      assert (jfield "encrypted_rsa_private_key" j
              = Some (JObj [("encrypted",
                             JStr (aes_gcm_encrypt (AppJs.drawn_masterKey draw)
                                     (AppJs.drawn_privateIv draw)
                                     (AppJs.drawn_privateKey draw)));
                            ("iv", JStr (AppJs.drawn_privateIv draw))])) as ->
        by reflexivity;
      assert (jfield "rsa_public_key" j = Some (JStr (AppJs.drawn_publicKey draw)))
        as -> by reflexivity
  end.
  cbn [default from_option id].
  unfold CryptoHelper.decryptRSAPrivateKey, CryptoHelper.importPublicKey.
  assert (∀ a b, jfield "iv" (JObj [("encrypted", JStr a); ("iv", JStr b)])
                 = Some (JStr b)) as -> by reflexivity.
  assert (∀ a b, jfield "encrypted" (JObj [("encrypted", JStr a); ("iv", JStr b)])
                 = Some (JStr a)) as -> by reflexivity.
  rewrite Haes, Hpriv, Hpub.
  eexists. split; [reflexivity|]. done.
Qed.

(** The state a successful sign-up leaves on the server and in the
    browser. *)
Lemma handleSignup_result
    (db : Db) (a : App) (email password user : string) (draw : AppJs.SignupDraw)
    (now statusText : string) :
  email ≠ "" → (6 ≤ String.length password)%nat →
  user ∉ user_profiles db → KeysModel.rows_of user (user_keys db) = [] →
  (∀ key iv m, aes_gcm_encrypt key iv m ≠ "") →
  btoa (sha256 email) ≠ "" →
  AppJs.drawn_publicKey draw ≠ "" →
  AppJs.drawn_masterIv draw ≠ "" → AppJs.drawn_privateIv draw ≠ "" →
  let reqbody :=
    JObj [("rsa_public_key", JStr (AppJs.drawn_publicKey draw));
          ("encrypted_master_key",
             CryptoHelper.encryptMasterKeyWithPassword (AppJs.drawn_masterKey draw)
               password email (AppJs.drawn_masterIv draw));
          ("encrypted_rsa_private_key",
             CryptoHelper.encryptRSAPrivateKey (AppJs.drawn_privateKey draw)
               (AppJs.drawn_masterKey draw) (AppJs.drawn_privateIv draw))] in
  ∃ db' a',
    AppJs.handleSignup db a email password (AppJs.SignUpUser user true) draw now statusText
    = (db', a')
    ∧ KeysRoutes.get_userId db' user user
      = res_json (JObj
          [("encrypted_master_key",
              CryptoHelper.encryptMasterKeyWithPassword (AppJs.drawn_masterKey draw)
                password email (AppJs.drawn_masterIv draw));
           ("encrypted_rsa_private_key",
              CryptoHelper.encryptRSAPrivateKey (AppJs.drawn_privateKey draw)
                (AppJs.drawn_masterKey draw) (AppJs.drawn_privateIv draw));
           ("rsa_public_key", JStr (AppJs.drawn_publicKey draw))])
    ∧ user_keys db'
      = (user_keys db
           ++ [mkUserKey user (AppJs.drawn_publicKey draw)
                 (Some (CryptoHelper.encryptMasterKeyWithPassword
                          (AppJs.drawn_masterKey draw) password email
                          (AppJs.drawn_masterIv draw)))
                 (Some (CryptoHelper.encryptRSAPrivateKey (AppJs.drawn_privateKey draw)
                          (AppJs.drawn_masterKey draw) (AppJs.drawn_privateIv draw)))
                 now])%list
    ∧ device a'
      = CryptoHelper.storeMasterKeyInIndexedDB
          (CryptoHelper.generateUserKeys (device a) (AppJs.drawn_privateKey draw)
             (AppJs.drawn_publicKey draw) (AppJs.drawn_privateJwk draw))
          (AppJs.drawn_masterKey draw)
    ∧ session a' = Some user ∧ currentUser a' = Some user
    ∧ chatSection_shown a' = true
    ∧ alerts a'
      = (alerts a
           ++ [("success",
                "Account created! IMPORTANT: Save your recovery key before continuing.")])%list
    ∧ sent a'
      = (sent a
           ++ [AuthSignUp email (CryptoHelper.deriveAuthPassword password email);
               HttpGet "/api/auth/me";
               HttpPost "/api/keys" reqbody])%list.
Proof.
  intros Hemail Hlen Hprof Hrows Hct Hsalt Hpub Hiv0 Hiv1 reqbody.
  pose proof (password_nonempty _ Hlen) as Hpw.
  assert (uploadKeysSchema reqbody = None) as Hvalid.
  { apply signup_body_valid; try done; apply Hct. }
  destruct (first_upload_stored
              (set_user_profiles db (user_profiles db ++ [user])) user reqbody now
              (AppJs.drawn_publicKey draw)
              (CryptoHelper.encryptMasterKeyWithPassword (AppJs.drawn_masterKey draw)
                 password email (AppJs.drawn_masterIv draw))
              (CryptoHelper.encryptRSAPrivateKey (AppJs.drawn_privateKey draw)
                 (AppJs.drawn_masterKey draw) (AppJs.drawn_privateIv draw))
              Hvalid eq_refl eq_refl eq_refl) as [Hpost Hget].
  { apply elem_of_app. right. apply list_elem_of_here. }
  { exact Hrows. }
  unfold AppJs.handleSignup.
  rewrite (bool_decide_false _ Hemail), (bool_decide_false _ Hpw). cbn [orb].
  rewrite (proj2 (Nat.ltb_ge _ _) Hlen). cbn [negb].
  rewrite (get_me_creates_profile db user Hprof).
  assert (∀ j, ok (res_json j) = true) as Hok by reflexivity.
  rewrite Hok. cbn [negb].
  cbn [device with_device send with_session with_currentUser privateKey
       CryptoHelper.generateUserKeys set_helper set_localStorage
       CryptoHelper.storeMasterKeyInIndexedDB set_indexedDB
       CryptoHelper.exportPublicKey publicKey].
  fold reqbody. rewrite Hpost, Hok. cbn [negb].
  rewrite Hpost in Hget. cbn [fst] in Hget.
  eexists _, _. split; [reflexivity|]. split; [exact Hget|].
  unfold AppJs.initializeChat.
  cbn [session showAlert send with_device with_session with_currentUser].
  cbn. by rewrite <- !(assoc_L (++)).
Qed.

Lemma load_rsa_keys_recovers (a : App) (emk : json) (draw : AppJs.SignupDraw) :
  (∀ key iv m, aes_gcm_decrypt key iv (aes_gcm_encrypt key iv m) = Some m) →
  private_key_ok (AppJs.drawn_privateKey draw) = true →
  public_key_ok (AppJs.drawn_publicKey draw) = true →
  AppJs.load_rsa_keys a
    (JObj [("encrypted_master_key", emk);
           ("encrypted_rsa_private_key",
              CryptoHelper.encryptRSAPrivateKey (AppJs.drawn_privateKey draw)
                (AppJs.drawn_masterKey draw) (AppJs.drawn_privateIv draw));
           ("rsa_public_key", JStr (AppJs.drawn_publicKey draw))])
    (AppJs.drawn_masterKey draw)
  = (with_device a
       (set_helper (device a) (Some (AppJs.drawn_privateKey draw))
          (Some (AppJs.drawn_publicKey draw)) (chatKeys (device a))),
     Ok ()).
Proof.
  intros Haes Hpriv Hpub. unfold AppJs.load_rsa_keys.
  match goal with
  | |- context [jfield "encrypted_rsa_private_key" ?j] =>
      assert (jfield "encrypted_rsa_private_key" j
              = Some (CryptoHelper.encryptRSAPrivateKey (AppJs.drawn_privateKey draw)
                        (AppJs.drawn_masterKey draw) (AppJs.drawn_privateIv draw)))
        as -> by reflexivity;
      assert (jfield "rsa_public_key" j = Some (JStr (AppJs.drawn_publicKey draw)))
        as -> by reflexivity
  end.
  cbn [default from_option id].
  unfold CryptoHelper.decryptRSAPrivateKey, CryptoHelper.importPublicKey,
    CryptoHelper.encryptRSAPrivateKey.
  assert (∀ a b, jfield "iv" (JObj [("encrypted", JStr a); ("iv", JStr b)])
                 = Some (JStr b)) as -> by reflexivity.
  assert (∀ a b, jfield "encrypted" (JObj [("encrypted", JStr a); ("iv", JStr b)])
                 = Some (JStr a)) as -> by reflexivity.
  by rewrite Haes, Hpriv, Hpub.
Qed.

(** X19.  Signing up and logging in again gives the same keys, and the
    sign-up puts only the derived credential and wrapped keys on the
    wire.  After [handleSignup] has run for a new account, a login with
    the same address and password on a browser without a vault recovers
    the master key, the RSA private key and the public key from what the
    server holds; and on the browser that signed up, a reload recovers
    the RSA pair from the vault without the password. *)
Theorem signup_then_login_recovers_keys
    (accounts : list Account) (db : Db) (a fresh : App)
    (email password user : string) (draw : AppJs.SignupDraw)
    (now statusText : string) :
  email ≠ "" → (6 ≤ String.length password)%nat →
  user ∉ user_profiles db → KeysModel.rows_of user (user_keys db) = [] →
  (∀ key iv m, aes_gcm_encrypt key iv m ≠ "") →
  (∀ key iv m, aes_gcm_decrypt key iv (aes_gcm_encrypt key iv m) = Some m) →
  btoa (sha256 email) ≠ "" →
  AppJs.drawn_publicKey draw ≠ "" →
  AppJs.drawn_masterIv draw ≠ "" → AppJs.drawn_privateIv draw ≠ "" →
  AppJs.drawn_masterKey draw ≠ "" →
  aes_key_ok (AppJs.drawn_masterKey draw) = true →
  private_key_ok (AppJs.drawn_privateKey draw) = true →
  public_key_ok (AppJs.drawn_publicKey draw) = true →
  indexedDB (device a) ≠ DBNoStore →
  signInWithPassword accounts email (CryptoHelper.deriveAuthPassword password email)
  = Some user →
  indexedDB (device fresh) = NoDB ∨ indexedDB (device fresh) = DBKeys None →
  ∃ db' a',
    AppJs.handleSignup db a email password (AppJs.SignUpUser user true) draw now
      statusText = (db', a')
    ∧ sent a'
      = (sent a
           ++ [AuthSignUp email (CryptoHelper.deriveAuthPassword password email);
               HttpGet "/api/auth/me";
               HttpPost "/api/keys"
                 (JObj [("rsa_public_key", JStr (AppJs.drawn_publicKey draw));
                        ("encrypted_master_key",
                           CryptoHelper.encryptMasterKeyWithPassword
                             (AppJs.drawn_masterKey draw) password email
                             (AppJs.drawn_masterIv draw));
                        ("encrypted_rsa_private_key",
                           CryptoHelper.encryptRSAPrivateKey
                             (AppJs.drawn_privateKey draw)
                             (AppJs.drawn_masterKey draw)
                             (AppJs.drawn_privateIv draw))])])%list
    ∧ (privateKey (device (AppJs.handleLogin accounts db' fresh email password))
       = Some (AppJs.drawn_privateKey draw)
       ∧ publicKey (device (AppJs.handleLogin accounts db' fresh email password))
         = Some (AppJs.drawn_publicKey draw)
       ∧ (CryptoHelper.loadMasterKeyFromIndexedDB
            (device (AppJs.handleLogin accounts db' fresh email password))).2
         = Some (AppJs.drawn_masterKey draw)
       ∧ session (AppJs.handleLogin accounts db' fresh email password) = Some user
       ∧ chatSection_shown (AppJs.handleLogin accounts db' fresh email password) = true)
    ∧ (privateKey (device (AppJs.handleExistingSession db'
                             (with_device a' (set_helper (device a') None None ∅)) user))
       = Some (AppJs.drawn_privateKey draw)
       ∧ publicKey (device (AppJs.handleExistingSession db'
                              (with_device a' (set_helper (device a') None None ∅)) user))
         = Some (AppJs.drawn_publicKey draw)
       ∧ chatSection_shown (AppJs.handleExistingSession db'
                              (with_device a' (set_helper (device a') None None ∅)) user)
         = true).
Proof.
  intros Hemail Hlen Hprof Hrows Hct Haes Hsalt Hpub Hiv0 Hiv1 Hmk Hmkok Hprivok Hpubok
    Hvault Hsign Hfresh.
  pose proof (password_nonempty _ Hlen) as Hpw.
  destruct (handleSignup_result db a email password user draw now statusText
              Hemail Hlen Hprof Hrows Hct Hsalt Hpub Hiv0 Hiv1)
    as (db' & a' & Hup & Hget & _ & Hdev & Hsess & _ & _ & _ & Hsent).
  exists db', a'. split; [exact Hup|]. split; [exact Hsent|]. split.
  - unfold AppJs.handleLogin.
    rewrite (bool_decide_false _ Hemail), (bool_decide_false _ Hpw). cbn [orb].
    assert (∃ d1, CryptoHelper.loadMasterKeyFromIndexedDB (device fresh) = (d1, None)
                  ∧ indexedDB d1 = DBKeys None) as (d1 & -> & Hd1).
    { unfold CryptoHelper.loadMasterKeyFromIndexedDB.
      destruct Hfresh as [-> | E]; [|rewrite E]; by eexists. }
    rewrite Hsign.
    edestruct (handleLogin_slow_recovers db'
                 (with_currentUser
                    (with_session
                       (send (with_device fresh d1)
                          (AuthSignIn email
                             (CryptoHelper.deriveAuthPassword password email)))
                       (Some user)) (Some user))
                 user password email draw Hget Haes Hmkok Hprivok Hpubok)
      as (f' & -> & Hp & Hq & Hidb & Hs & _).
    unfold AppJs.initializeChat. cbn [session showAlert]. rewrite Hs.
    cbn [session with_currentUser with_session device with_screen showAlert
         chatSection_shown].
    split_and!; try done.
    unfold CryptoHelper.loadMasterKeyFromIndexedDB. rewrite Hidb.
    cbn [device with_currentUser with_session send with_device
         CryptoHelper.storeMasterKeyInIndexedDB indexedDB set_indexedDB].
    rewrite Hd1. by rewrite (bool_decide_false _ Hmk), Hmkok.
  - unfold AppJs.handleExistingSession.
    assert (indexedDB (device a') = DBKeys (Some (AppJs.drawn_masterKey draw))) as Hidb.
    { rewrite Hdev.
      cbn [CryptoHelper.storeMasterKeyInIndexedDB CryptoHelper.generateUserKeys
           indexedDB set_indexedDB set_localStorage set_helper].
      by destruct (indexedDB (device a)). }
    unfold CryptoHelper.loadMasterKeyFromIndexedDB.
    cbn [device with_currentUser with_device indexedDB set_helper].
    rewrite Hidb, (bool_decide_false _ Hmk), Hmkok.
    cbn [session with_device with_currentUser]. rewrite Hsess, Hget.
    assert (∀ j, ok (res_json j) = true) as -> by reflexivity.
    cbn [negb body res_json].
    rewrite (load_rsa_keys_recovers _ _ draw Haes Hprivok Hpubok).
    unfold AppJs.initializeChat. cbn [session showAlert with_device send].
    cbn [session with_device with_currentUser send]. rewrite Hsess.
    done.
Qed.

(** X20.  A vault that holds another master key does not lock the
    account.  When the key in the vault fails to unwrap the RSA private
    key, [handleLogin] empties the vault, unwraps the master key with
    the password, stores it and loads the RSA pair; the login succeeds
    and the vault holds the account's master key afterwards. *)
Theorem login_replaces_stale_vault
    (accounts : list Account) (db : Db) (a : App)
    (email password user stale : string) (draw : AppJs.SignupDraw) :
  email ≠ "" → password ≠ "" →
  signInWithPassword accounts email (CryptoHelper.deriveAuthPassword password email)
  = Some user →
  KeysRoutes.get_userId db user user
  = res_json (JObj
      [("encrypted_master_key",
          CryptoHelper.encryptMasterKeyWithPassword (AppJs.drawn_masterKey draw)
            password email (AppJs.drawn_masterIv draw));
       ("encrypted_rsa_private_key",
          CryptoHelper.encryptRSAPrivateKey (AppJs.drawn_privateKey draw)
            (AppJs.drawn_masterKey draw) (AppJs.drawn_privateIv draw));
       ("rsa_public_key", JStr (AppJs.drawn_publicKey draw))]) →
  (∀ key iv m, aes_gcm_decrypt key iv (aes_gcm_encrypt key iv m) = Some m) →
  indexedDB (device a) = DBKeys (Some stale) → stale ≠ "" → aes_key_ok stale = true →
  aes_gcm_decrypt stale (AppJs.drawn_privateIv draw)
    (aes_gcm_encrypt (AppJs.drawn_masterKey draw) (AppJs.drawn_privateIv draw)
       (AppJs.drawn_privateKey draw)) = None →
  AppJs.drawn_masterKey draw ≠ "" →
  aes_key_ok (AppJs.drawn_masterKey draw) = true →
  private_key_ok (AppJs.drawn_privateKey draw) = true →
  public_key_ok (AppJs.drawn_publicKey draw) = true →
  privateKey (device (AppJs.handleLogin accounts db a email password))
  = Some (AppJs.drawn_privateKey draw)
  ∧ publicKey (device (AppJs.handleLogin accounts db a email password))
    = Some (AppJs.drawn_publicKey draw)
  ∧ indexedDB (device (AppJs.handleLogin accounts db a email password))
    = DBKeys (Some (AppJs.drawn_masterKey draw))
  ∧ chatSection_shown (AppJs.handleLogin accounts db a email password) = true
  ∧ alerts (AppJs.handleLogin accounts db a email password)
    = (alerts a ++ [("success", "Login successful! Loading your chats...")])%list.
Proof.
  intros Hemail Hpw Hsign Hget Haes Hvault Hstale Hstaleok Hwrong Hmk Hmkok Hprivok
    Hpubok.
  assert (∃ f, AppJs.handleLogin accounts db a email password = f
               ∧ privateKey (device f) = Some (AppJs.drawn_privateKey draw)
               ∧ publicKey (device f) = Some (AppJs.drawn_publicKey draw)
               ∧ indexedDB (device f) = DBKeys (Some (AppJs.drawn_masterKey draw))
               ∧ chatSection_shown f = true
               ∧ alerts f
                 = (alerts a ++ [("success", "Login successful! Loading your chats...")])%list)
    as (f & -> & Hf); [|exact Hf].
  unfold AppJs.handleLogin.
  rewrite (bool_decide_false _ Hemail), (bool_decide_false _ Hpw). cbn [orb].
  unfold CryptoHelper.loadMasterKeyFromIndexedDB.
  rewrite Hvault, (bool_decide_false _ Hstale), Hstaleok, Hsign.
  unfold AppJs.handleLogin_fast. rewrite Hget.
  assert (∀ j, ok (res_json j) = true) as -> by reflexivity.
  cbn [negb body res_json].
  unfold AppJs.load_rsa_keys at 1.
  match goal with
  | |- context [jfield "encrypted_rsa_private_key" ?j] =>
      assert (jfield "encrypted_rsa_private_key" j
              = Some (CryptoHelper.encryptRSAPrivateKey (AppJs.drawn_privateKey draw)
                        (AppJs.drawn_masterKey draw) (AppJs.drawn_privateIv draw)))
        as Hfield by reflexivity;
      assert (jfield "encrypted_master_key" j
              = Some (CryptoHelper.encryptMasterKeyWithPassword
                        (AppJs.drawn_masterKey draw) password email
                        (AppJs.drawn_masterIv draw)))
        as Hfield' by reflexivity
  end.
  rewrite Hfield, Hfield'. cbn [default from_option id].
  unfold CryptoHelper.decryptRSAPrivateKey at 1.
  unfold CryptoHelper.encryptRSAPrivateKey at 1 2.
  assert (∀ a b, jfield "iv" (JObj [("encrypted", JStr a); ("iv", JStr b)])
                 = Some (JStr b)) as Hiv by reflexivity.
  assert (∀ a b, jfield "encrypted" (JObj [("encrypted", JStr a); ("iv", JStr b)])
                 = Some (JStr a)) as Henc by reflexivity.
  rewrite Hiv, Henc, Hwrong.
  unfold CryptoHelper.decryptMasterKeyWithPassword,
    CryptoHelper.encryptMasterKeyWithPassword.
  assert (∀ a b c, str_field "salt" (JObj [("wrapped", JStr a); ("iv", JStr b);
                                           ("salt", JStr c)]) = Some c) as ->
    by reflexivity.
  assert (∀ a b c, str_field "iv" (JObj [("wrapped", JStr a); ("iv", JStr b);
                                         ("salt", JStr c)]) = Some b) as ->
    by reflexivity.
  assert (∀ a b c, str_field "wrapped" (JObj [("wrapped", JStr a); ("iv", JStr b);
                                              ("salt", JStr c)]) = Some a) as ->
    by reflexivity.
  rewrite Haes, Hmkok.
  rewrite (load_rsa_keys_recovers _ _ draw Haes Hprivok Hpubok).
  unfold AppJs.initializeChat.
  cbn [session showAlert with_device with_session with_currentUser send].
  eexists. split; [reflexivity|].
  cbn [device with_screen showAlert with_device with_session with_currentUser send
       privateKey publicKey indexedDB set_helper chatSection_shown alerts
       CryptoHelper.storeMasterKeyInIndexedDB CryptoHelper.clearMasterKeyFromIndexedDB
       set_indexedDB].
  by rewrite Hvault.
Qed.

(** X21.  A sign-up that the provider answers with a user and no
    session strands the account: [handleSignup] stops with an error
    before it has created a profile or any key, nothing reaches the
    server, and a later login of that account, although the provider
    accepts the credential, ends with 'Failed to fetch encrypted keys
    from server'. *)
Theorem signup_without_session_strands_account
    (accounts : list Account) (db : Db) (a fresh : App)
    (email password user : string) (draw : AppJs.SignupDraw)
    (now statusText : string) :
  email ≠ "" → (6 ≤ String.length password)%nat →
  KeysModel.rows_of user (user_keys db) = [] →
  signInWithPassword accounts email (CryptoHelper.deriveAuthPassword password email)
  = Some user →
  (CryptoHelper.loadMasterKeyFromIndexedDB (device fresh)).2 = None →
  (AppJs.handleSignup db a email password (AppJs.SignUpUser user false) draw now
     statusText).1 = db
  ∧ device (AppJs.handleSignup db a email password (AppJs.SignUpUser user false) draw
              now statusText).2 = device a
  ∧ sent (AppJs.handleSignup db a email password (AppJs.SignUpUser user false) draw
            now statusText).2
    = (sent a ++ [AuthSignUp email (CryptoHelper.deriveAuthPassword password email)])%list
  ∧ (∃ e, alerts (AppJs.handleSignup db a email password (AppJs.SignUpUser user false)
                    draw now statusText).2 = (alerts a ++ [("error", e)])%list)
  ∧ alerts (AppJs.handleLogin accounts db fresh email password)
    = (alerts fresh ++ [("error", "Failed to fetch encrypted keys from server")])%list
  ∧ privateKey (device (AppJs.handleLogin accounts db fresh email password))
    = privateKey (device fresh)
  ∧ chatSection_shown (AppJs.handleLogin accounts db fresh email password)
    = chatSection_shown fresh.
Proof.
  intros Hemail Hlen Hrows Hsign Hvault.
  pose proof (password_nonempty _ Hlen) as Hpw.
  unfold AppJs.handleSignup, AppJs.handleLogin.
  rewrite (bool_decide_false _ Hemail), (bool_decide_false _ Hpw). cbn [orb].
  rewrite (proj2 (Nat.ltb_ge _ _) Hlen). cbn [negb fst snd].
  split_and!; try done; [by eexists| | |].
  all: destruct (CryptoHelper.loadMasterKeyFromIndexedDB (device fresh)) as [d1 mk]
         eqn:Hload; cbn [snd] in Hvault; subst mk; rewrite Hsign;
       unfold AppJs.handleLogin_slow, KeysRoutes.get_userId;
       rewrite (bool_decide_true (user = user)) by done; cbn [negb];
       unfold KeysModel.getUserKeys; rewrite Hrows; cbn [single];
       rewrite not_ok_error by lia; cbn [negb]; try done.
  unfold CryptoHelper.loadMasterKeyFromIndexedDB in Hload.
  cbn [device showAlert send with_device with_session with_currentUser privateKey].
  destruct (indexedDB (device fresh)) as [| |[stored|]]; try (by injection Hload as <-).
  repeat case_match; by injection Hload as <-.
Qed.

End SignupLogin.

Section HistoryShown.
Context `{WebCrypto} `{Validation}.

Lemma json_of_Message_fields (m : Message) :
  str_field "encrypted_content" (json_of_Message m) = Some (encrypted_content m)
  ∧ jfield "metadata" (json_of_Message m) ≫= str_field "iv" = Some (metadata_iv m)
  ∧ str_field "sender_id" (json_of_Message m) = Some (m_sender_id m)
  ∧ str_field "created_at" (json_of_Message m) = Some (m_created_at m).
Proof. by destruct m. Qed.

Lemma with_device_same (a : App) : with_device a (device a) = a.
Proof. by destruct a. Qed.

(** With the chat key in memory the loop shows every message that
    decrypts and never re-fetches. *)
Lemma decrypt_each_shows (reload : App → App) (db : Db)
    (token_user chatId me k : string) (msgs : list Message) (plain : list string) :
  Forall2 (λ m p, aes_gcm_decrypt k (metadata_iv m) (encrypted_content m) = Some p)
          msgs plain →
  ∀ firstDecryptFailed a,
    chatKeys (device a) !! chatId = Some k → currentUser a = Some me →
    AppJs.decrypt_each reload db token_user chatId (json_of_Message <$> msgs)
      firstDecryptFailed a
    = with_messagesDiv a
        (messagesDiv a
           ++ zip_with (λ m p, Shown p (bool_decide (m_sender_id m = me))) msgs plain).
Proof.
  induction 1 as [|m p msgs plain Hm _ IH]; intros fdf a Hk Hme.
  - cbn. rewrite app_nil_r. by destruct a.
  - rewrite fmap_cons. cbn [AppJs.decrypt_each].
    destruct (json_of_Message_fields m) as (-> & -> & Hsender & _).
    cbn [default from_option id].
    unfold CryptoHelper.decryptMessage, CryptoHelper.loadChatKey.
    rewrite Hk, Hm, with_device_same, Hme.
    rewrite IH by done. cbn [messagesDiv with_messagesDiv zip_with].
    rewrite <- (assoc_L (++)). cbn [app].
    assert (bool_decide (str_field "sender_id" (json_of_Message m) = Some me)
            = bool_decide (m_sender_id m = me)) as ->.
    { rewrite Hsender. apply bool_decide_ext. split; congruence. }
    by destruct a.
Qed.

(** X22.  With the chat key in memory, [loadMessageHistory] replaces the
    pane by the newest fifty messages of the chat in their order, each
    decrypted under that key and marked as sent when the current user is
    its sender; it asks the server once and leaves the device as it
    was.  [chatId] is the text the client holds for the chat, under
    which it keeps the key, and [c] the uuid Postgres reads from it. *)
Theorem history_shows_decrypted_messages
    (db : Db) (a : App) (me chatId c k : string) (chat : Chat) (plain : list string) :
  session a = Some me → currentUser a = Some me →
  chatKeys (device a) !! chatId = Some k →
  pg_uuid chatId = Some c →
  ChatModel.getChatById db c = Some chat → me ∈ participants chat →
  Forall2 (λ m p, aes_gcm_decrypt k (metadata_iv m) (encrypted_content m) = Some p)
          (MessageModel.getMessages db c 50) plain →
  messagesDiv (AppJs.loadMessageHistory db a chatId 0)
  = zip_with (λ m p, Shown p (bool_decide (m_sender_id m = me)))
      (MessageModel.getMessages db c 50) plain
  ∧ device (AppJs.loadMessageHistory db a chatId 0) = device a
  ∧ sent (AppJs.loadMessageHistory db a chatId 0)
    = (sent a ++ [HttpGet ("/api/chats/" ++ chatId ++ "/messages?limit=50")])%list
  ∧ alerts (AppJs.loadMessageHistory db a chatId 0) = alerts a.
Proof.
  intros Hsession Hme Hk Hcid Hchat Hin Hplain.
  unfold AppJs.loadMessageHistory. cbn [Nat.sub AppJs.loadMessageHistory_from].
  unfold AppJs.history_prologue, CryptoHelper.loadChatKey.
  cbn [device with_messagesDiv]. rewrite Hk.
  cbn [session with_device with_messagesDiv]. rewrite Hsession.
  unfold ChatRoutes.get_messages, ChatRoutes.with_chat.
  rewrite Hcid, read_bind, read_default.
  rewrite Hchat, (bool_decide_true _ Hin). cbn [negb snd].
  rewrite (bool_decide_false (50 = 0)%nat) by lia.
  assert (∀ j, ok (res_json j) = true) as -> by reflexivity.
  cbn [negb body res_json].
  assert (∀ j, jfield "messages" (JObj [("messages", j)]) = Some j) as ->
    by reflexivity.
  rewrite (decrypt_each_shows _ _ _ _ me k _ plain Hplain) by done.
  by destruct a.
Qed.

End HistoryShown.

(** ** The further properties at concrete states *)

Section MoreScenarios.
#[local] Existing Instance symbolic_crypto.
#[local] Existing Instance symbolic_encryption.
#[local] Existing Instance uuid_validation.

Lemma strip_prefix_app (p s : string) : strip_prefix p (p ++ s) = Some s.
Proof.
  induction p as [|a p IH]; [done|].
  simpl. rewrite bool_decide_true by done. exact IH.
Qed.

Lemma app_assoc_string (p q s : string) : (p ++ q) ++ s = p ++ (q ++ s).
Proof.
  induction p as [|a p IH]; [done|].
  change (String a ((p ++ q) ++ s) = String a (p ++ (q ++ s))). by rewrite IH.
Qed.

(** The symbolic platform satisfies the law of AES-GCM the theorems
    assume. *)
Lemma symbolic_aes_round_trip (key iv m : string) :
  aes_gcm_decrypt key iv (aes_gcm_encrypt key iv m) = Some m.
Proof.
  cbn [aes_gcm_decrypt aes_gcm_encrypt symbolic_crypto symbolic_encryption].
  etrans; [|apply (strip_prefix_app ("gcm[" ++ key ++ "," ++ iv ++ "]") m)].
  f_equal. by rewrite !app_assoc_string.
Qed.

Lemma symbolic_ciphertext_nonempty (key iv m : string) : aes_gcm_encrypt key iv m ≠ "".
Proof. done. Qed.

Lemma chat_key_survives_reload_not_logout_witness :
  (CryptoHelper.loadChatKey
     (set_helper (CryptoHelper.generateChatKey alice_device chat1 "aes:k9").1
        None None ∅) chat1).2
  = Ok (Some "aes:k9").
Proof.
  apply (chat_key_survives_reload_not_logout alice_device chat1 "aes:k9");
    [done | reflexivity].
Defined.

Lemma master_key_vault_round_trip_witness :
  (CryptoHelper.loadMasterKeyFromIndexedDB
     (CryptoHelper.storeMasterKeyInIndexedDB (device fresh_app) "aes:master-dave")).2
  = Some "aes:master-dave"
  ∧ (CryptoHelper.loadMasterKeyFromIndexedDB
       (CryptoHelper.storeMasterKeyInIndexedDB
          (CryptoHelper.clearMasterKeyFromIndexedDB (device fresh_app))
          "aes:master-dave")).2
    = None.
Proof.
  destruct (master_key_vault_round_trip (device fresh_app) "aes:master-dave")
    as (Hstored & _ & Hlost); [done | reflexivity |].
  split; [by apply Hstored | by apply Hlost].
Defined.

Lemma message_reaches_peer_in_clear_witness :
  (∃ a' event db' data b',
     AppJs.sendMessage alice_app_chatting "hello" "iv1" = (a', Some event)
     ∧ messages db' = [mkMessage chat1 alice "gcm[aes:k1,iv1]hello" "iv1" "t1"]
     ∧ Socket.reaches "socket-a" (EmitToRoom ("chat:" ++ chat1) "message:receive" data)
         (Socket.connection db_chatting "socket-b" bob) = true
     ∧ AppJs.on_message_receive db' bob_app data = (b', None)
     ∧ messagesDiv b' = [Shown "hello" false])
  ∧ (∃ db' data,
       Socket.message_send db_chatting alice chat1 "gcm[aes:k1,iv1]hello" "iv1" "text" "t1"
       = (db', [EmitToRoom ("chat:" ++ chat1) "message:receive" data])
       ∧ Socket.reaches "socket-a"
           (EmitToRoom ("chat:" ++ chat1) "message:receive" data)
           (Socket.connection db_signed_up "socket-b" bob) = false).
Proof.
  split.
  - destruct (message_reaches_peer_in_clear db_chatting db_chatting alice_app_chatting
                bob_app alice bob chat1 "aes:k1" "hello" "iv1" "t1" "priv:bob"
                "rsa[pub:bob]aes:k1" "socket-a" "socket-b"
                (mkChat chat1 direct [alice; bob] alice))
      as (a' & event & db' & data & Hsend & _ & _ & Hstored & _ & _ & Hjoined & _).
    1-21: first [ reflexivity | vm_compute; reflexivity | compute_done | done
                | apply symbolic_aes_round_trip ].
    destruct Hjoined as (Hreach & b' & Hrecv & Hdiv & _); [compute_done|].
    by exists a', event, db', data, b'.
  - destruct (message_reaches_peer_in_clear db_signed_up db_chatting alice_app_chatting
                bob_app alice bob chat1 "aes:k1" "hello" "iv1" "t1" "priv:bob"
                "rsa[pub:bob]aes:k1" "socket-a" "socket-b"
                (mkChat chat1 direct [alice; bob] alice))
      as (a' & event & db' & data & Hsend & _ & Hemit & _ & _ & _ & _ & Hout).
    1-21: first [ reflexivity | vm_compute; reflexivity | compute_done | done
                | apply symbolic_aes_round_trip ].
    exists db', data. split.
    + rewrite <- Hemit. vm_compute in Hsend. injection Hsend as _ <-. reflexivity.
    + apply Hout. compute_done.
Defined.

Lemma shared_key_event_installs_key_witness :
  ∃ db' data,
    Socket.chat_key_share db_fresh_chat alice chat1 bob
      (CryptoHelper.encryptChatKey "aes:k1" "pub:bob")
    = (db', [EmitToRoom ("user:" ++ bob) "chat:key:received" data])
    ∧ CryptoHelper.loadChatKey (device (AppJs.on_chat_key_received bob_app data)) chat1
      = (device (AppJs.on_chat_key_received bob_app data), Ok (Some "aes:k1")).
Proof.
  destruct (shared_key_event_installs_key db_fresh_chat bob_app alice bob chat1 chat1
              "aes:k1" "pub:bob" "priv:bob")
    as (db' & data & Hshare & _ & Hload & _).
  - vm_compute. reflexivity.
  - vm_compute. reflexivity.
  - reflexivity.
  - vm_compute. reflexivity.
  - reflexivity.
  - by exists db', data.
Defined.

Lemma recovery_key_restores_master_key_witness :
  ∃ recoveryKey,
    CryptoHelper.generateRecoveryKey "0123456789abcdef0123456789abcdef"
      "fedcba9876543210" = Ok recoveryKey
    ∧ CryptoHelper.restoreMasterKeyFromRecovery recoveryKey
      = Ok "0123456789abcdef0123456789abcdef".
Proof.
  destruct (recovery_key_restores_master_key "0123456789abcdef0123456789abcdef"
              "fedcba9876543210") as (recoveryKey & Hgen & _ & Hrestore).
  - reflexivity.
  - done.
  - vm_compute. reflexivity.
  - vm_compute. repeat constructor; discriminate.
  - by exists recoveryKey.
Defined.

Lemma signup_then_login_recovers_keys_witness :
  privateKey
    (device (AppJs.handleLogin [dave_account]
               (AppJs.handleSignup db_chatting fresh_app dave_email dave_password
                  (AppJs.SignUpUser dave true) dave_draw "t1" "").1
               fresh_app dave_email dave_password))
  = Some "priv:dave"
  ∧ (CryptoHelper.loadMasterKeyFromIndexedDB
       (device (AppJs.handleLogin [dave_account]
                  (AppJs.handleSignup db_chatting fresh_app dave_email dave_password
                     (AppJs.SignUpUser dave true) dave_draw "t1" "").1
                  fresh_app dave_email dave_password))).2
    = Some "aes:master-dave".
Proof.
  destruct (signup_then_login_recovers_keys [dave_account] db_chatting fresh_app
              fresh_app dave_email dave_password dave dave_draw "t1" "")
    as (db' & a' & Hup & _ & (Hpriv & _ & Hvault & _) & _).
  - done.
  - vm_compute. lia.
  - compute_done.
  - vm_compute. reflexivity.
  - apply symbolic_ciphertext_nonempty.
  - apply symbolic_aes_round_trip.
  - done.
  - done.
  - done.
  - done.
  - done.
  - reflexivity.
  - reflexivity.
  - reflexivity.
  - done.
  - vm_compute. reflexivity.
  - by left.
  - rewrite Hup. by split.
Defined.

Lemma history_shows_decrypted_messages_witness :
  messagesDiv (AppJs.loadMessageHistory db_history alice_app_chatting chat1 0)
  = [Shown "see you at noon" false; Shown "fine" true].
Proof.
  destruct (history_shows_decrypted_messages db_history alice_app_chatting alice chat1
              chat1 "aes:k1" (mkChat chat1 direct [alice; bob] alice)
              ["see you at noon"; "fine"]) as [Hdiv _].
  - reflexivity.
  - reflexivity.
  - reflexivity.
  - vm_compute. reflexivity.
  - vm_compute. reflexivity.
  - compute_done.
  - vm_compute. repeat constructor.
  - rewrite Hdiv. vm_compute. reflexivity.
Defined.

Lemma login_replaces_stale_vault_witness :
  indexedDB
    (device (AppJs.handleLogin [dave_account]
               (AppJs.handleSignup db_chatting fresh_app dave_email dave_password
                  (AppJs.SignUpUser dave true) dave_draw "t1" "").1
               alice_app_foreign_vault dave_email dave_password))
  = DBKeys (Some "aes:master-dave").
Proof.
  apply (login_replaces_stale_vault [dave_account]
           (AppJs.handleSignup db_chatting fresh_app dave_email dave_password
              (AppJs.SignUpUser dave true) dave_draw "t1" "").1
           alice_app_foreign_vault dave_email dave_password dave "aes:master-mallory"
           dave_draw).
  - done.
  - done.
  - vm_compute. reflexivity.
  - vm_compute. reflexivity.
  - apply symbolic_aes_round_trip.
  - reflexivity.
  - done.
  - reflexivity.
  - vm_compute. reflexivity.
  - done.
  - reflexivity.
  - reflexivity.
  - reflexivity.
Defined.

Lemma signup_without_session_strands_account_witness :
  (AppJs.handleSignup db_chatting fresh_app dave_email dave_password
     (AppJs.SignUpUser dave false) dave_draw "t1" "").1 = db_chatting
  ∧ alerts (AppJs.handleLogin [dave_account] db_chatting fresh_app dave_email
              dave_password)
    = [("error", "Failed to fetch encrypted keys from server")].
Proof.
  destruct (signup_without_session_strands_account [dave_account] db_chatting fresh_app
              fresh_app dave_email dave_password dave dave_draw "t1" "")
    as (Hdb & _ & _ & _ & Halerts & _).
  - done.
  - vm_compute. lia.
  - vm_compute. reflexivity.
  - vm_compute. reflexivity.
  - reflexivity.
  - split; [exact Hdb | exact Halerts].
Defined.

End MoreScenarios.
